(** * Student dropout on a small-world network: the simulation engine

    A shallow embedding of [student_agent.py] and [school_model.py].

    Conventions of the embedding.
    - Python floats are idealised as exact rationals ([Q]); Python ints are [Z].
    - A Python exception is a value of [Exception]; code that can raise
      returns a [Result].
    - Every pseudo-random generator (numpy's global one, Python's global one,
      and the model's own [random.Random(42)]) is the list of the raw draws it
      is going to produce, in order; an exhausted list keeps producing 0.
      Quantifying over all lists covers every finite run.
    - Agent objects live in the scheduler's insertion-ordered dict
      [_agents]; a reference to an agent (as held in a grid cell) is its key
      there, which is also its [unique_id]. *)

From Stdlib Require Import String ZArith QArith Qround Qminmax List Bool Lia Lqa
  FinFun Permutation.
Import ListNotations.
Open Scope Q_scope.

(** ** Python values *)

Inductive Exception : Type :=
| IndexError
| KeyError
| AttributeError
| ValueError
| ZeroDivisionError
| NetworkXError.

Inductive Result (A : Type) : Type :=
| Ok (a : A)
| Raise (e : Exception).
Arguments Ok {A} a.
Arguments Raise {A} e.

Definition bind {A B : Type} (c : Result A) (k : A -> Result B) : Result B :=
  match c with
  | Ok a => k a
  | Raise e => Raise e
  end.

Notation "x <- c ;; k" := (bind c (fun x => k))
  (at level 61, c at next level, right associativity).
Notation "' pat <- c ;; k" := (bind c (fun x => match x with pat => k end))
  (at level 61, pat pattern, c at next level, right associativity).

(** [a < b] on floats. *)
Definition Qltb (a b : Q) : bool := negb (Qle_bool b a).

(** Python's [max(a, b)]: the first argument unless the second is larger. *)
Definition py_max (a b : Q) : Q := if Qltb a b then b else a.

(** Python's [int(x)] on a float: truncation toward zero. *)
Definition py_int (x : Q) : Z := Z.quot (Qnum x) (Zpos (Qden x)).

(** Python's [[x] * n]: the empty list when [n <= 0]. *)
Definition list_times {A : Type} (x : A) (n : Z) : list A := repeat x (Z.to_nat n).

(** [np.clip(x, a_min, a_max)] is [minimum(maximum(x, a_min), a_max)]. *)
Definition np_maximum (a b : Q) : Q := if Qle_bool a b then b else a.
Definition np_minimum (a b : Q) : Q := if Qle_bool a b then a else b.
Definition np_clip (x a_min a_max : Q) : Q := np_minimum (np_maximum x a_min) a_max.

(** ** Insertion-ordered dicts with integer keys *)

Fixpoint dict_get {V : Type} (k : Z) (d : list (Z * V)) : option V :=
  match d with
  | [] => None
  | (k', v) :: d' => if Z.eqb k k' then Some v else dict_get k d'
  end.

(** [d[k] = v]: overwrite in place, or append a new entry. *)
Fixpoint dict_set {V : Type} (k : Z) (v : V) (d : list (Z * V)) : list (Z * V) :=
  match d with
  | [] => [(k, v)]
  | (k', v') :: d' =>
      if Z.eqb k k' then (k', v) :: d' else (k', v') :: dict_set k v d'
  end.

Definition dict_keys {V : Type} (d : list (Z * V)) : list Z := map fst d.
Definition dict_values {V : Type} (d : list (Z * V)) : list V := map snd d.

(** ** Pseudo-random generators *)

Definition RandomState : Type := list Q.

Definition next_draw (s : RandomState) : Q * RandomState :=
  match s with
  | [] => (0, [])
  | x :: s' => (x, s')
  end.

(** The fractional part: maps any raw draw into [0, 1). *)
Definition frac (x : Q) : Q := x - inject_Z (Qfloor x).

(** [rand()] / [random()]: a float in [0, 1). *)
Definition random_sample (s : RandomState) : Q * RandomState :=
  let '(x, s') := next_draw s in (frac x, s').

(** [np.random.normal(loc, scale)]: [loc + scale * z] for a standard normal
    draw [z]; a negative [scale] is rejected. *)
Definition np_random_normal (loc scale : Q) (s : RandomState)
  : Result (Q * RandomState) :=
  if Qltb scale 0 then Raise ValueError
  else let '(z, s') := next_draw s in Ok (loc + scale * z, s').

Definition np_random_rand (s : RandomState) : Q * RandomState := random_sample s.

(** An index below [n] (for [n > 0]), as the shuffles draw it. *)
Definition randbelow (n : nat) (s : RandomState) : nat * RandomState :=
  let '(u, s') := random_sample s in
  (Z.to_nat (Qfloor (u * inject_Z (Z.of_nat n))), s').

Fixpoint list_set {A : Type} (i : nat) (x : A) (l : list A) : list A :=
  match l, i with
  | [], _ => []
  | _ :: l', O => x :: l'
  | y :: l', S i' => y :: list_set i' x l'
  end.

(** [x[i], x[j] = x[j], x[i]] *)
Definition swap {A : Type} (i j : nat) (l : list A) : list A :=
  match nth_error l i, nth_error l j with
  | Some a, Some b => list_set j a (list_set i b l)
  | _, _ => l
  end.

(** [for i in reversed(range(1, len(x))): j = randbelow(i + 1); swap],
    with [i] the number of iterations left. *)
Fixpoint shuffle_from {A : Type} (i : nat) (l : list A) (s : RandomState)
  : list A * RandomState :=
  match i with
  | O => (l, s)
  | S i' =>
      let '(j, s') := randbelow (S i) s in
      shuffle_from i' (swap i j l) s'
  end.

(** [np.random.shuffle(x)] and [random.Random.shuffle(x)]. *)
Definition shuffle {A : Type} (l : list A) (s : RandomState)
  : list A * RandomState :=
  shuffle_from (Nat.pred (length l)) l s.

(** ** student_agent.py *)

Definition LOW_SES : Z := 0%Z.
Definition MEDIUM_SES : Z := 1%Z.
Definition HIGH_SES : Z := 2%Z.

(** The two values the [status] string takes: ['Attending'], ['Dropped Out']. *)
Inductive Status : Type := Attending | DroppedOut.

Definition Status_eqb (s t : Status) : bool :=
  match s, t with
  | Attending, Attending | DroppedOut, DroppedOut => true
  | _, _ => false
  end.

Record StudentAgent : Type := mkStudentAgent {
  unique_id : Z;
  pos : option Z;             (* [None] until the agent is placed on a node *)
  performance : Q;
  ses : Z;
  status : Status
}.

(** [StudentAgent.__init__] *)
Definition StudentAgent_init (unique_id : Z) (initial_performance : Q) (ses : Z)
  : StudentAgent :=
  {| unique_id := unique_id;
     pos := None;
     performance := initial_performance;
     ses := ses;
     status := Attending |}.

Definition set_performance (a : StudentAgent) (p : Q) : StudentAgent :=
  {| unique_id := unique_id a; pos := pos a; performance := p;
     ses := ses a; status := status a |}.

Definition set_status (a : StudentAgent) (s : Status) : StudentAgent :=
  {| unique_id := unique_id a; pos := pos a; performance := performance a;
     ses := ses a; status := s |}.

Definition set_pos (a : StudentAgent) (n : Z) : StudentAgent :=
  {| unique_id := unique_id a; pos := Some n; performance := performance a;
     ses := ses a; status := status a |}.

(** ** The objects the model owns *)

(** A networkx graph: per node the content of its ["agent"] attribute
    (references to the agents placed there), and the adjacency lists. *)
Record Graph : Type := mkGraph {
  _node : list (Z * list Z);
  _adj : list (Z * list Z)
}.

Definition G_nodes (g : Graph) : list Z := dict_keys (_node g).

(** [mesa.time.RandomActivation]: the dict of agents and its own counter. *)
Record RandomActivation : Type := mkSchedule {
  _agents : list (Z * StudentAgent);
  schedule_steps : Z
}.

(** One row of model-level reporters, in the order [setup_datacollector]
    lists them. *)
Record ModelRow : Type := mkModelRow {
  total_dropout_rate : Q;
  low_ses_dropout_rate : Q;
  medium_ses_dropout_rate : Q;
  high_ses_dropout_rate : Q;
  row_financial_aid_policy : bool;
  row_peer_influence_weight : Q
}.

(** One agent-level record: unique_id, Performance, Status, SES. *)
Definition AgentRow : Type := (Z * Q * Status * Z)%type.

Record DataCollector : Type := mkDataCollector {
  model_vars : list ModelRow;
  _agent_records : list (Z * list AgentRow)
}.

Record SchoolModel : Type := mkSchoolModel {
  running : bool;
  n_agents : Z;
  steps : Z;
  random : RandomState;
  base_dropout_rate : Q;
  peer_influence_weight : Q;
  performance_volatility : Q;
  financial_aid_policy : bool;
  G : Graph;                     (* [self.grid] wraps this same object *)
  schedule : RandomActivation;
  datacollector : DataCollector
}.

(** Class-level constants of [SchoolModel]. *)
Definition PERFORMANCE_THRESHOLD : Q := 60.
Definition INITIAL_PERFORMANCE_MEAN : Q := 75.
Definition INITIAL_PERFORMANCE_STD : Q := 10.
Definition FINANCIAL_AID_EFFECTIVENESS : Q := 0.4.

Definition with_schedule (m : SchoolModel) (s : RandomActivation) : SchoolModel :=
  {| running := running m; n_agents := n_agents m; steps := steps m;
     random := random m; base_dropout_rate := base_dropout_rate m;
     peer_influence_weight := peer_influence_weight m;
     performance_volatility := performance_volatility m;
     financial_aid_policy := financial_aid_policy m;
     G := G m; schedule := s; datacollector := datacollector m |}.

Definition with_G (m : SchoolModel) (g : Graph) : SchoolModel :=
  {| running := running m; n_agents := n_agents m; steps := steps m;
     random := random m; base_dropout_rate := base_dropout_rate m;
     peer_influence_weight := peer_influence_weight m;
     performance_volatility := performance_volatility m;
     financial_aid_policy := financial_aid_policy m;
     G := g; schedule := schedule m; datacollector := datacollector m |}.

Definition with_datacollector (m : SchoolModel) (d : DataCollector) : SchoolModel :=
  {| running := running m; n_agents := n_agents m; steps := steps m;
     random := random m; base_dropout_rate := base_dropout_rate m;
     peer_influence_weight := peer_influence_weight m;
     performance_volatility := performance_volatility m;
     financial_aid_policy := financial_aid_policy m;
     G := G m; schedule := schedule m; datacollector := d |}.

Definition with_steps (m : SchoolModel) (n : Z) : SchoolModel :=
  {| running := running m; n_agents := n_agents m; steps := n;
     random := random m; base_dropout_rate := base_dropout_rate m;
     peer_influence_weight := peer_influence_weight m;
     performance_volatility := performance_volatility m;
     financial_aid_policy := financial_aid_policy m;
     G := G m; schedule := schedule m; datacollector := datacollector m |}.

Definition with_random (m : SchoolModel) (r : RandomState) : SchoolModel :=
  {| running := running m; n_agents := n_agents m; steps := steps m;
     random := r; base_dropout_rate := base_dropout_rate m;
     peer_influence_weight := peer_influence_weight m;
     performance_volatility := performance_volatility m;
     financial_aid_policy := financial_aid_policy m;
     G := G m; schedule := schedule m; datacollector := datacollector m |}.

(** The agents, in the order [schedule.agents] lists them. *)
Definition agents (m : SchoolModel) : list StudentAgent :=
  dict_values (_agents (schedule m)).

(** Resolve a reference to an agent object. *)
Definition deref (m : SchoolModel) (ref : Z) : Result StudentAgent :=
  match dict_get ref (_agents (schedule m)) with
  | Some a => Ok a
  | None => Raise KeyError
  end.

(** A write through a reference: every holder of the reference sees it. *)
Definition store (m : SchoolModel) (ref : Z) (a : StudentAgent) : SchoolModel :=
  with_schedule m
    {| _agents := dict_set ref a (_agents (schedule m));
       schedule_steps := schedule_steps (schedule m) |}.

(** ** mesa.space.NetworkGrid *)

(** [G.neighbors(node_id)] *)
Definition G_neighbors (g : Graph) (node_id : option Z) : Result (list Z) :=
  match node_id with
  | None => Raise NetworkXError
  | Some n =>
      match dict_get n (_adj g) with
      | Some l => Ok l
      | None => Raise NetworkXError
      end
  end.

(** [G.nodes[node_id]["agent"]] *)
Definition G_node_agent (g : Graph) (node_id : Z) : Result (list Z) :=
  match dict_get node_id (_node g) with
  | Some c => Ok c
  | None => Raise KeyError
  end.

(** [get_cell_list_contents]: the agents of the given cells, concatenated. *)
Fixpoint get_cell_list_contents (g : Graph) (cell_list : list Z)
  : Result (list Z) :=
  match cell_list with
  | [] => Ok []
  | node_id :: rest =>
      c <- G_node_agent g node_id ;;
      cs <- get_cell_list_contents g rest ;;
      Ok (c ++ cs)
  end.

(** [grid.get_neighbors(node_id, include_center=False)] *)
Definition get_neighbors (g : Graph) (node_id : option Z) : Result (list Z) :=
  neighborhood <- G_neighbors g node_id ;;
  get_cell_list_contents g neighborhood.

(** [grid.place_agent(agent, node_id)]: append to the cell; the caller sets
    [agent.pos]. *)
Definition place_in_cell (g : Graph) (ref : Z) (node_id : Z) : Result Graph :=
  c <- G_node_agent g node_id ;;
  Ok {| _node := dict_set node_id (c ++ [ref]) (_node g); _adj := _adj g |}.

(** ** StudentAgent.step *)

(** The loop over [neighbor_nodes] that counts dropped-out neighbours. *)
Fixpoint count_dropped_out (m : SchoolModel) (neighbor_nodes : list Z)
  (dropped_out_count : Z) : Result Z :=
  match neighbor_nodes with
  | [] => Ok dropped_out_count
  | node_id :: rest =>
      neighbor_agent_container <- G_node_agent (G m) node_id ;;
      match neighbor_agent_container with
      | [] => Raise AttributeError       (* a list has no [status] *)
      | ref :: _ =>
          neighbor_agent <- deref m ref ;;
          if Status_eqb (status neighbor_agent) DroppedOut
          then count_dropped_out m rest (dropped_out_count + 1)%Z
          else count_dropped_out m rest dropped_out_count
      end
  end.

(** Section 2 of [step]: the peer influence score of the agent at [pos]. *)
Definition peer_influence_score (m : SchoolModel) (pos : option Z) : Result Q :=
  neighbor_list <- get_neighbors (G m) pos ;;
  let neighbor_nodes := neighbor_list in    (* [agent.unique_id] of each *)
  match neighbor_nodes with
  | [] => Ok 0
  | _ =>
      dropped_out_neighbors <- count_dropped_out m neighbor_nodes 0%Z ;;
      Ok (inject_Z dropped_out_neighbors
          / inject_Z (Z.of_nat (length neighbor_nodes)))
  end.

Definition performance_risk (performance : Q) : Q :=
  py_max 0 (PERFORMANCE_THRESHOLD - performance) / PERFORMANCE_THRESHOLD.

(** Section 3 of [step]. *)
Definition p_drop_combined (m : SchoolModel) (performance_risk peer_influence_score : Q) : Q :=
  base_dropout_rate m
  + performance_risk * (1 - peer_influence_weight m)
  + peer_influence_score * peer_influence_weight m.

(** Section 4 of [step]. *)
Definition apply_intervention (m : SchoolModel) (ses : Z) (p_drop : Q) : Q :=
  if financial_aid_policy m && Z.eqb ses LOW_SES
  then p_drop * (1 - FINANCIAL_AID_EFFECTIVENESS)
  else p_drop.

(** The value of [p_drop] when the decision is made, for an agent whose
    performance has already been updated. *)
Definition p_drop (m : SchoolModel) (a : StudentAgent) : Result Q :=
  score <- peer_influence_score m (pos a) ;;
  Ok (apply_intervention m (ses a)
        (p_drop_combined m (performance_risk (performance a)) score)).

Definition StudentAgent_step (self : Z) (m : SchoolModel) (np_random : RandomState)
  : Result (SchoolModel * RandomState) :=
  a <- deref m self ;;
  if Status_eqb (status a) DroppedOut then Ok (m, np_random)
  else
    '(fluctuation, np_random) <-
        np_random_normal 0 (performance_volatility m) np_random ;;
    let a := set_performance a (np_clip (performance a + fluctuation) 0 100) in
    let m := store m self a in
    p <- p_drop m a ;;
    let '(u, np_random) := np_random_rand np_random in
    if Qltb u p
    then Ok (store m self (set_status a DroppedOut), np_random)
    else Ok (m, np_random).

(** ** school_model.py: the accessors *)

Definition is_dropped_out (a : StudentAgent) : bool :=
  Status_eqb (status a) DroppedOut.

(** [sum(1 for a in l if a.status == 'Dropped Out')] *)
Definition dropout_count (l : list StudentAgent) : Z :=
  Z.of_nat (length (filter is_dropped_out l)).

(** [SchoolModel.get_dropout_rate] *)
Definition get_dropout_rate (m : SchoolModel) : Result Q :=
  let dropout_count := dropout_count (agents m) in
  if Z.eqb (n_agents m) 0 then Raise ZeroDivisionError
  else Ok (inject_Z dropout_count / inject_Z (n_agents m) * 100).

(** [SchoolModel.get_dropout_by_ses] *)
Definition get_dropout_by_ses (m : SchoolModel) (ses_level : Z) : Q :=
  let ses_agents := filter (fun a => Z.eqb (ses a) ses_level) (agents m) in
  match ses_agents with
  | [] => 0
  | _ =>
      let dropout_count := dropout_count ses_agents in
      inject_Z dropout_count / inject_Z (Z.of_nat (length ses_agents)) * 100
  end.

(** ** mesa.DataCollector *)

(** [SchoolModel.setup_datacollector]: a collector with no rows yet. *)
Definition setup_datacollector (m : SchoolModel) : SchoolModel :=
  with_datacollector m {| model_vars := []; _agent_records := [] |}.

(** The model reporters, evaluated in the order they were declared. *)
Definition model_reporters (m : SchoolModel) : Result ModelRow :=
  total <- get_dropout_rate m ;;
  Ok {| total_dropout_rate := total;
        low_ses_dropout_rate := get_dropout_by_ses m LOW_SES;
        medium_ses_dropout_rate := get_dropout_by_ses m MEDIUM_SES;
        high_ses_dropout_rate := get_dropout_by_ses m HIGH_SES;
        row_financial_aid_policy := financial_aid_policy m;
        row_peer_influence_weight := peer_influence_weight m |}.

Definition agent_reporters (a : StudentAgent) : AgentRow :=
  (unique_id a, performance a, status a, ses a).

(** [datacollector.collect(model)] *)
Definition datacollector_collect (m : SchoolModel) : Result SchoolModel :=
  row <- model_reporters m ;;
  let agent_records := map agent_reporters (agents m) in
  Ok (with_datacollector m
        {| model_vars := model_vars (datacollector m) ++ [row];
           _agent_records :=
             dict_set (schedule_steps (schedule m)) agent_records
               (_agent_records (datacollector m)) |}).

(** ** mesa.time.RandomActivation *)

(** [schedule.add(agent)] *)
Definition schedule_add (m : SchoolModel) (a : StudentAgent) : SchoolModel :=
  store m (unique_id a) a.

(** The body of [do_each("step")]: agents are stepped in the given order,
    each seeing what the earlier ones wrote. *)
Fixpoint do_each_step (agent_keys : list Z) (m : SchoolModel)
  (np_random : RandomState) : Result (SchoolModel * RandomState) :=
  match agent_keys with
  | [] => Ok (m, np_random)
  | agent_key :: rest =>
      match dict_get agent_key (_agents (schedule m)) with
      | Some _ =>
          '(m, np_random) <- StudentAgent_step agent_key m np_random ;;
          do_each_step rest m np_random
      | None => do_each_step rest m np_random
      end
  end.

(** [schedule.step()]: shuffle the keys with [model.random], step every
    agent, advance the scheduler's counter. *)
Definition schedule_step (m : SchoolModel) (np_random : RandomState)
  : Result (SchoolModel * RandomState) :=
  let '(agent_keys, r) := shuffle (dict_keys (_agents (schedule m))) (random m) in
  let m := with_random m r in
  '(m, np_random) <- do_each_step agent_keys m np_random ;;
  Ok (with_schedule m
        {| _agents := _agents (schedule m);
           schedule_steps := (schedule_steps (schedule m) + 1)%Z |},
      np_random).

(** ** SchoolModel.step *)

Definition SchoolModel_step (m : SchoolModel) (np_random : RandomState)
  : Result (SchoolModel * RandomState) :=
  let m := with_steps m (steps m + 1)%Z in
  m <- datacollector_collect m ;;
  schedule_step m np_random.

(** The caller's loop [for _ in range(num_steps): model.step()]. *)
Fixpoint run_steps (num_steps : nat) (m : SchoolModel) (np_random : RandomState)
  : Result (SchoolModel * RandomState) :=
  match num_steps with
  | O => Ok (m, np_random)
  | S k =>
      '(m, np_random) <- SchoolModel_step m np_random ;;
      run_steps k m np_random
  end.

(** ** SchoolModel.make_agents *)

(** [l[i]] for [i >= 0]. *)
Definition list_index {A : Type} (l : list A) (i : Z) : Result A :=
  match nth_error l (Z.to_nat i) with
  | Some x => Ok x
  | None => Raise IndexError
  end.

(** The tier list before it is shuffled. *)
Definition ses_distribution (n_agents : Z) : list Z :=
  list_times LOW_SES (py_int (inject_Z n_agents * 0.4))
  ++ list_times MEDIUM_SES (py_int (inject_Z n_agents * 0.4))
  ++ list_times HIGH_SES (py_int (inject_Z n_agents * 0.2)).

(** [grid.place_agent(a, node)] *)
Definition place_agent (m : SchoolModel) (a : StudentAgent) (node : Z)
  : Result SchoolModel :=
  g <- place_in_cell (G m) (unique_id a) node ;;
  Ok (store (with_G m g) (unique_id a) (set_pos a node)).

(** The loop [for i, node in enumerate(self.G.nodes())]. *)
Fixpoint make_agents_loop (ses_distribution : list Z) (i : Z) (nodes : list Z)
  (m : SchoolModel) (np_random : RandomState)
  : Result (SchoolModel * RandomState) :=
  match nodes with
  | [] => Ok (m, np_random)
  | node :: rest =>
      '(initial_performance, np_random) <-
          np_random_normal INITIAL_PERFORMANCE_MEAN INITIAL_PERFORMANCE_STD
            np_random ;;
      let initial_performance := np_clip initial_performance 50 95 in
      ses_i <- list_index ses_distribution i ;;
      let a := StudentAgent_init i initial_performance ses_i in
      let m := schedule_add m a in
      m <- place_agent m a node ;;
      make_agents_loop ses_distribution (i + 1)%Z rest m np_random
  end.

Definition make_agents (m : SchoolModel) (np_random : RandomState)
  : Result (SchoolModel * RandomState) :=
  let '(ses_distribution, np_random) :=
    shuffle (ses_distribution (n_agents m)) np_random in
  make_agents_loop ses_distribution 0%Z (G_nodes (G m)) m np_random.

(** ** SchoolModel.__init__ *)

(** What the interpreter holds outside any model: the global generators of
    numpy and of Python's [random] module. Neither is seeded by the model. *)
Record Globals : Type := mkGlobals {
  np_global : RandomState;
  py_global : RandomState
}.

(** [mesa.space.NetworkGrid(G)]: every node gets an empty cell. *)
Definition NetworkGrid_init (g : Graph) : Graph :=
  {| _node := map (fun nc => (fst nc, [])) (_node g); _adj := _adj g |}.

Section Construction.

(** [networkx.watts_strogatz_graph(n, k, p)], a library routine that is not
    part of this repository. It draws from Python's global generator. *)
Variable watts_strogatz_graph :
  Z -> Z -> Q -> RandomState -> Result (Graph * RandomState).

(** [random.Random(seed)]: the generator a seed determines. *)
Variable Random : Z -> RandomState.

Definition SchoolModel_init (N k_degree : Z) (rewiring_prob : Q)
  (base_dropout_rate peer_influence_weight performance_volatility : Q)
  (financial_aid_policy : bool) (w : Globals)
  : Result (SchoolModel * Globals) :=
  '(g, py) <- watts_strogatz_graph N k_degree rewiring_prob (py_global w) ;;
  let m :=
    {| running := true;
       n_agents := N;
       steps := 0%Z;
       random := Random 42%Z;
       base_dropout_rate := base_dropout_rate;
       peer_influence_weight := peer_influence_weight;
       performance_volatility := performance_volatility;
       financial_aid_policy := financial_aid_policy;
       G := NetworkGrid_init g;
       schedule := {| _agents := []; schedule_steps := 0%Z |};
       datacollector := {| model_vars := []; _agent_records := [] |} |} in
  '(m, np) <- make_agents m (np_global w) ;;
  Ok (setup_datacollector m, {| np_global := np; py_global := py |}).

(** One trial of [run_simulation]: construct, then step [num_steps] times;
    the result is the collected model-level table. *)
Definition run_trial (N k_degree : Z) (rewiring_prob : Q)
  (base_dropout_rate peer_influence_weight performance_volatility : Q)
  (financial_aid_policy : bool) (num_steps : nat) (w : Globals)
  : Result (list ModelRow * Globals) :=
  '(m, w1) <- SchoolModel_init N k_degree rewiring_prob base_dropout_rate
                peer_influence_weight performance_volatility
                financial_aid_policy w ;;
  '(m, np) <- run_steps num_steps m (np_global w1) ;;
  Ok (model_vars (datacollector m),
      {| np_global := np; py_global := py_global w1 |}).

End Construction.

(** The table a trial hands to its caller. *)
Definition rows_of (r : Result (list ModelRow * Globals)) : Result (list ModelRow) :=
  '(rows, _) <- r ;; Ok rows.

(** ** The library routines on concrete inputs

    To run the model, the two library routines are instantiated as follows. *)

(** [G.add_edge(u, v)]: both end points are created on demand, in this
    order; an edge that is already present is not duplicated. *)
Definition adj_add (u v : Z) (adj : list (Z * list Z)) : list (Z * list Z) :=
  match dict_get u adj with
  | Some l => if existsb (Z.eqb v) l then adj else dict_set u (l ++ [v]) adj
  | None => dict_set u [v] adj
  end.

Definition node_add (u : Z) (node : list (Z * list Z)) : list (Z * list Z) :=
  match dict_get u node with
  | Some _ => node
  | None => dict_set u [] node
  end.

Definition add_edge (g : Graph) (uv : Z * Z) : Graph :=
  let '(u, v) := uv in
  {| _node := node_add v (node_add u (_node g));
     _adj := adj_add v u (adj_add u v (_adj g)) |}.

(** [range(n)] *)
Definition py_range (n : Z) : list Z := map Z.of_nat (seq 0 (Z.to_nat n)).

(** The ring lattice: [for j in range(1, k // 2 + 1):
    G.add_edges_from(zip(nodes, nodes[j:] + nodes[0:j]))], with [j] counted
    up from [j0] for [count] rounds. *)
Fixpoint ring_lattice (nodes : list Z) (j0 count : nat) (g : Graph) : Graph :=
  match count with
  | O => g
  | S c =>
      let targets := skipn j0 nodes ++ firstn j0 nodes in
      ring_lattice nodes (S j0) c (fold_left add_edge (combine nodes targets) g)
  end.

(** [nx.complete_graph(n)] *)
Definition complete_graph (n : Z) : Graph :=
  let nodes := py_range n in
  {| _node := map (fun u => (u, [])) nodes;
     _adj := map (fun u => (u, filter (fun v => negb (Z.eqb u v)) nodes)) nodes |}.

(** [nx.empty_graph(n)] *)
Definition empty_graph (n : Z) : Graph :=
  let nodes := py_range n in
  {| _node := map (fun u => (u, [])) nodes;
     _adj := map (fun u => (u, [])) nodes |}.

(** [networkx.watts_strogatz_graph(n, k, p)] on the runs in which no edge is
    rewired, which is every run with [p = 0]: the two guards, the ring
    lattice over [n] nodes, and one draw consumed per lattice edge. The
    argument [p] is kept for the calling convention only. *)
Definition watts_strogatz_graph_p0 (n k : Z) (p : Q) (py_random : RandomState)
  : Result (Graph * RandomState) :=
  if Z.ltb n k then Raise NetworkXError
  else if Z.eqb k n then Ok (complete_graph n, py_random)
  else
    let nodes := py_range n in
    let half := Z.to_nat (k / 2) in
    Ok (ring_lattice nodes 1 half (empty_graph n),
        skipn (length nodes * half)%nat py_random).

(** *** The routine in full

    [networkx.watts_strogatz_graph] as the library defines it, rewiring
    included. The search for a free target draws until it finds one, so on
    some streams of draws it does not end: [fuel] bounds the draws of one
    search, and [None] stands for a search still running when they are used
    up. *)

(** [G.has_edge(u, v)] *)
Definition has_edge (g : Graph) (u v : Z) : bool :=
  match dict_get u (_adj g) with
  | Some l => existsb (Z.eqb v) l
  | None => false
  end.

(** [G.degree(u)] *)
Definition G_degree (g : Graph) (u : Z) : Result Z :=
  match dict_get u (_adj g) with
  | Some l => Ok (Z.of_nat (length l))
  | None => Raise KeyError
  end.

(** [del adj[u][v]] *)
Definition adj_remove (u v : Z) (adj : list (Z * list Z)) : list (Z * list Z) :=
  match dict_get u adj with
  | Some l => dict_set u (filter (fun x => negb (Z.eqb x v)) l) adj
  | None => adj
  end.

(** [G.remove_edge(u, v)]: an edge that is not there is an error. *)
Definition remove_edge (g : Graph) (u v : Z) : Result Graph :=
  if has_edge g u v
  then Ok {| _node := _node g;
             _adj := adj_remove v u (adj_remove u v (_adj g)) |}
  else Raise NetworkXError.

(** [seed.choice(seq)] *)
Definition choice (seq : list Z) (s : RandomState) : Result (Z * RandomState) :=
  match seq with
  | [] => Raise IndexError
  | _ :: _ =>
      let '(i, s') := randbelow (length seq) s in
      match nth_error seq i with
      | Some x => Ok (x, s')
      | None => Raise IndexError
      end
  end.

(** [while w == u or G.has_edge(u, w): w = seed.choice(nodes);
    if G.degree(u) >= n - 1: break]. The result is [Some w] when the loop
    ends by its condition, which is when the [else] branch rewires, and
    [None] when it ends by [break]. *)
Fixpoint choose_target (fuel : nat) (g : Graph) (n : Z) (nodes : list Z)
  (u w : Z) (s : RandomState) : option (Result (option Z * RandomState)) :=
  if Z.eqb w u || has_edge g u w then
    match fuel with
    | O => None
    | S fuel' =>
        match choice nodes s with
        | Raise e => Some (Raise e)
        | Ok (w', s') =>
            match G_degree g u with
            | Raise e => Some (Raise e)
            | Ok d =>
                if Z.leb (n - 1) d then Some (Ok (None, s'))
                else choose_target fuel' g n nodes u w' s'
            end
        end
    end
  else Some (Ok (Some w, s)).

(** [for u, v in zip(nodes, targets): if seed.random() < p: ...] *)
Fixpoint rewire_edges (fuel : nat) (n : Z) (p : Q) (nodes : list Z)
  (edges : list (Z * Z)) (g : Graph) (s : RandomState)
  : option (Result (Graph * RandomState)) :=
  match edges with
  | [] => Some (Ok (g, s))
  | (u, v) :: rest =>
      let '(x, s) := random_sample s in
      if Qltb x p then
        match choice nodes s with
        | Raise e => Some (Raise e)
        | Ok (w, s) =>
            match choose_target fuel g n nodes u w s with
            | None => None
            | Some (Raise e) => Some (Raise e)
            | Some (Ok (None, s)) => rewire_edges fuel n p nodes rest g s
            | Some (Ok (Some w, s)) =>
                match remove_edge g u v with
                | Raise e => Some (Raise e)
                | Ok g => rewire_edges fuel n p nodes rest (add_edge g (u, w)) s
                end
            end
        end
      else rewire_edges fuel n p nodes rest g s
  end.

(** The second loop [for j in range(1, k // 2 + 1)], with [j] counted up
    from [j0] for [count] rounds. *)
Fixpoint rewire (fuel : nat) (n : Z) (p : Q) (nodes : list Z) (j0 count : nat)
  (g : Graph) (s : RandomState) : option (Result (Graph * RandomState)) :=
  match count with
  | O => Some (Ok (g, s))
  | S c =>
      let targets := skipn j0 nodes ++ firstn j0 nodes in
      match rewire_edges fuel n p nodes (combine nodes targets) g s with
      | Some (Ok (g, s)) => rewire fuel n p nodes (S j0) c g s
      | r => r
      end
  end.

(** [networkx.watts_strogatz_graph(n, k, p)] on Python's global generator. *)
Definition nx_watts_strogatz_graph (fuel : nat) (n k : Z) (p : Q)
  (py_random : RandomState) : option (Result (Graph * RandomState)) :=
  if Z.ltb n k then Some (Raise NetworkXError)
  else if Z.eqb k n then Some (Ok (complete_graph n, py_random))
  else
    let nodes := py_range n in
    let half := Z.to_nat (k / 2) in
    rewire fuel n p nodes 1 half
      (ring_lattice nodes 1 half (empty_graph n)) py_random.

(** A stand-in for [random.Random(seed)]: the draws are the seed, repeated. *)
Definition Random_const (seed : Z) : RandomState := repeat (inject_Z seed) 64.


(** ** Concrete inputs

    A five-student ring ([N = 5], [k_degree = 2], no rewiring) with the
    baseline parameters of [run.py] and financial aid switched on. *)

Definition sample_draws : RandomState :=
  [
    (-10#3); (-5#1); (-26#2); (-7#1); (28#4); (-28#2); (-3#8); (-26#4);
    (-25#8); (-27#2); (30#4); (10#1); (6#8); (-27#4); (-28#3); (-12#8);
    (-21#2); (6#5); (5#3); (-24#4); (-7#2); (5#2); (6#1); (9#4); (1#8);
    (19#7); (-1#10); (-7#5); (-15#3); (14#4); (-25#5); (3#10); (26#7);
    (16#10); (-12#2); (-23#8); (-20#7); (-21#10); (-4#1); (12#2); (18#7);
    (-9#7); (8#10); (7#10); (-26#2); (30#5); (0#2); (-27#5)
  ].

Definition sample_globals : Globals :=
  {| np_global := sample_draws; py_global := [] |}.

Definition blank_model : SchoolModel :=
  {| running := true; n_agents := 0; steps := 0; random := [];
     base_dropout_rate := 0; peer_influence_weight := 0;
     performance_volatility := 0; financial_aid_policy := false;
     G := {| _node := []; _adj := [] |};
     schedule := {| _agents := []; schedule_steps := 0 |};
     datacollector := {| model_vars := []; _agent_records := [] |} |}.

Definition model_of {S : Type} (r : Result (SchoolModel * S)) : SchoolModel :=
  match r with
  | Ok (m, _) => m
  | Raise _ => blank_model
  end.

Definition state_of {S : Type} (d : S) (r : Result (SchoolModel * S)) : S :=
  match r with
  | Ok (_, s) => s
  | Raise _ => d
  end.

Abbreviation sample_init :=
  (SchoolModel_init watts_strogatz_graph_p0 Random_const
     5 2 0 (1 # 4) (1 # 2) (3 # 2) true sample_globals).

(** The model right after construction, and the numpy draws left over. *)
Definition sample_model : SchoolModel := Eval vm_compute in
    model_of sample_init.
Definition sample_np : RandomState := Eval vm_compute in
    np_global (state_of sample_globals sample_init).

(** The same model after two calls of [step]. *)
Definition sample_model_2 : SchoolModel := Eval vm_compute in
    model_of (run_steps 2 sample_model sample_np).
Definition sample_np_2 : RandomState := Eval vm_compute in
    state_of [] (run_steps 2 sample_model sample_np).

(** ... after one more call ... *)
Definition sample_model_3 : SchoolModel := Eval vm_compute in
    model_of (SchoolModel_step sample_model_2 sample_np_2).
Definition sample_np_3 : RandomState := Eval vm_compute in
    state_of [] (SchoolModel_step sample_model_2 sample_np_2).

(** ... and after three more. *)
Definition sample_model_5 : SchoolModel := Eval vm_compute in
    model_of (run_steps 3 sample_model_2 sample_np_2).
Definition sample_np_5 : RandomState := Eval vm_compute in
    state_of [] (run_steps 3 sample_model_2 sample_np_2).

Definition sample_globals_1 : Globals := Eval vm_compute in
    state_of sample_globals sample_init.

(** Rows 0, 1 and 3 of the table after five steps. *)
Definition sample_row_0 : ModelRow := Eval vm_compute in
    nth 0 (model_vars (datacollector sample_model_5)) (mkModelRow 1 1 1 1 false 0).
Definition sample_row_1 : ModelRow := Eval vm_compute in
    nth 1 (model_vars (datacollector sample_model_5)) (mkModelRow 0 0 0 0 false 0).
Definition sample_row_3 : ModelRow := Eval vm_compute in
    nth 3 (model_vars (datacollector sample_model_5)) (mkModelRow 0 0 0 0 false 0).

(** Student 1 of the sample, who has dropped out by the second step. *)
Definition sample_dropout : StudentAgent :=
  {| unique_id := 1; pos := Some 1%Z; performance := 119 # 4;
     ses := 1; status := DroppedOut |}.

(** The graph of the sample. *)
Definition sample_graph : Graph := Eval vm_compute in
    match watts_strogatz_graph_p0 5 2 0 [] with
    | Ok (g, _) => g
    | Raise _ => {| _node := []; _adj := [] |}
    end.

(** Ten students with an odd [k_degree]. *)
Abbreviation odd_k_init :=
  (SchoolModel_init watts_strogatz_graph_p0 Random_const
     10 3 0 (1 # 1000) (1 # 2) (3 # 2) false sample_globals).

(** A graph has no self-loop, no parallel edge, and is undirected. *)
Fixpoint nodupb (l : list Z) : bool :=
  match l with
  | [] => true
  | x :: l' => negb (existsb (Z.eqb x) l') && nodupb l'
  end.

Definition simple_adjacency (adj : list (Z * list Z)) : bool :=
  forallb (fun ul =>
             negb (existsb (Z.eqb (fst ul)) (snd ul))
             && nodupb (snd ul)
             && forallb (fun v => match dict_get v adj with
                                  | Some l' => existsb (Z.eqb (fst ul)) l'
                                  | None => false
                                  end) (snd ul)) adj.

Definition simple_graph (g : Graph) : bool := simple_adjacency (_adj g).

(** A state of the interpreter that differs from [sample_globals] only in
    Python's global generator. *)
Definition sample_globals_py : Globals :=
  {| np_global := sample_draws; py_global := [1 # 3; 2 # 3] |}.

(** A second state of the interpreter: the same as [sample_globals] except
    that numpy's generator is about to produce other draws. *)
Definition other_globals : Globals :=
  {| np_global := repeat (3 # 4) 40; py_global := [] |}.

(** The sample with a base rate of 1 and no financial aid, and what one
    step makes of it. *)
Abbreviation certain_init :=
  (SchoolModel_init watts_strogatz_graph_p0 Random_const
     5 2 0 1 (1 # 2) (3 # 2) false sample_globals).
Definition certain_model : SchoolModel := Eval vm_compute in
    model_of certain_init.
Definition certain_np : RandomState := Eval vm_compute in
    np_global (state_of sample_globals certain_init).
Definition certain_model_1 : SchoolModel := Eval vm_compute in
    model_of (SchoolModel_step certain_model certain_np).
Definition certain_np_1 : RandomState := Eval vm_compute in
    state_of [] (SchoolModel_step certain_model certain_np).
Definition certain_student_3 : StudentAgent := Eval vm_compute in
    match dict_get 3 (_agents (schedule certain_model_1)) with
    | Some a => a
    | None => StudentAgent_init 3 0 0
    end.

(** The sample under pure contagion: no base rate, peer weight 1. *)
Abbreviation contagion_init :=
  (SchoolModel_init watts_strogatz_graph_p0 Random_const
     5 2 0 0 1 (3 # 2) true sample_globals).
Definition contagion_model : SchoolModel := Eval vm_compute in
    model_of contagion_init.
Definition contagion_np : RandomState := Eval vm_compute in
    np_global (state_of sample_globals contagion_init).
Definition contagion_model_4 : SchoolModel := Eval vm_compute in
    model_of (run_steps 4 contagion_model contagion_np).
Definition contagion_np_4 : RandomState := Eval vm_compute in
    state_of [] (run_steps 4 contagion_model contagion_np).

(** A school without students: [N = 0], [k_degree = 0]. *)
Abbreviation empty_init :=
  (SchoolModel_init watts_strogatz_graph_p0 Random_const
     0 0 0 (1 # 1000) (1 # 2) (3 # 2) false sample_globals).
Definition empty_school : SchoolModel := Eval vm_compute in model_of empty_init.
Definition empty_globals : Globals := Eval vm_compute in
    state_of sample_globals empty_init.

(** The [unique_id] column of an agent-level record. *)
Definition AgentRow_id (row : AgentRow) : Z := fst (fst (fst row)).

(** ** Reference definitions, in the words of the specification *)

Definition Status_eq_dec (s t : Status) : {s = t} + {s <> t}.
Proof. decide equality. Defined.

(** The number of students of a list that have the given status, counted
    independently of the accessors. *)
Definition num_with_status (s : Status) (l : list StudentAgent) : nat :=
  count_occ Status_eq_dec (map status l) s.

(** The same model under the other setting of the financial aid policy. *)
Definition with_financial_aid (m : SchoolModel) (policy : bool) : SchoolModel :=
  {| running := running m; n_agents := n_agents m; steps := steps m;
     random := random m; base_dropout_rate := base_dropout_rate m;
     peer_influence_weight := peer_influence_weight m;
     performance_volatility := performance_volatility m;
     financial_aid_policy := policy;
     G := G m; schedule := schedule m; datacollector := datacollector m |}.

(** The risk from performance: the shortfall below 60, as a share of 60. *)
Definition spec_performance_risk (performance : Q) : Q :=
  Qmax 0 (60 - performance) / 60.

(** The share of the neighbours that have dropped out; 0 without neighbours. *)
Definition spec_peer_influence_score (neighbours : list StudentAgent) : Q :=
  match neighbours with
  | [] => 0
  | _ => inject_Z (Z.of_nat (num_with_status DroppedOut neighbours))
         / inject_Z (Z.of_nat (length neighbours))
  end.

(** [p_drop = base_dropout_rate + performance_risk * (1 - peer_influence_weight)
    + peer_influence_score * peer_influence_weight], with no clamping. *)
Definition spec_p_drop (base_dropout_rate peer_influence_weight performance : Q)
  (neighbours : list StudentAgent) : Q :=
  base_dropout_rate
  + spec_performance_risk performance * (1 - peer_influence_weight)
  + spec_peer_influence_score neighbours * peer_influence_weight.

(** The neighbours of a student: the students standing on the nodes adjacent
    to the student's own. *)
Definition neighbours_of (m : SchoolModel) (a : StudentAgent)
  (neighbours : list StudentAgent) : Prop :=
  exists nodes,
    G_neighbors (G m) (pos a) = Ok nodes /\
    Forall2 (fun node b => dict_get node (_agents (schedule m)) = Some b)
      nodes neighbours.

(** Every cell of the grid holds exactly one student, the one whose
    [unique_id] is the node's label. *)
Definition grid_consistent (m : SchoolModel) : bool :=
  forallb (fun nc => match snd nc with
                     | [ref] => Z.eqb ref (fst nc)
                     | _ => false
                     end) (_node (G m)).

Definition is_some {A : Type} (o : option A) : bool :=
  match o with
  | Some _ => true
  | None => false
  end.

(** A model on which no lookup of [step] can fail: a consistent grid, a
    volatility numpy accepts, every student standing on a node of the graph,
    and every edge leading to a node that holds a student. *)
Definition well_formed (m : SchoolModel) : bool :=
  grid_consistent m
  && negb (Qltb (performance_volatility m) 0)
  && forallb (fun ka => match pos (snd ka) with
                        | Some n => is_some (dict_get n (_adj (G m)))
                        | None => false
                        end) (_agents (schedule m))
  && forallb (fun ul =>
                forallb (fun v => is_some (dict_get v (_node (G m)))
                                  && is_some (dict_get v (_agents (schedule m))))
                  (snd ul)) (_adj (G m)).

(** What the model needs of the graph library's result for [N] nodes: the
    nodes are [0 .. N-1] in this order, each has an adjacency entry, and
    every edge leads to a node. *)
Definition graph_closed (g : Graph) (N : Z) : bool :=
  (if list_eq_dec Z.eq_dec (G_nodes g) (py_range N) then true else false)
  && forallb (fun n => is_some (dict_get n (_adj g))) (G_nodes g)
  && forallb (fun ul => forallb (fun v => existsb (Z.eqb v) (G_nodes g)) (snd ul))
       (_adj g).

(** Student 0 of the sample after two steps: Low SES, still attending, both
    neighbours gone. *)
Definition sample_low : StudentAgent :=
  {| unique_id := 0; pos := Some 0%Z; performance := 100;
     ses := LOW_SES; status := Attending |}.

Definition value_of (r : Result Q) : Q :=
  match r with
  | Ok q => q
  | Raise _ => 0
  end.

Definition sample_p_on : Q := Eval vm_compute in
    value_of (p_drop (with_financial_aid sample_model_2 true) sample_low).
Definition sample_p_30 : Q := Eval vm_compute in
    value_of (p_drop sample_model_2 (set_performance sample_low 30)).
Definition sample_p_off : Q := Eval vm_compute in
    value_of (p_drop (with_financial_aid sample_model_2 false) sample_low).

(** ** Relations in which the invariants are stated *)

(** An agent as [make_agents] creates it. *)
Definition fresh_agent (a : StudentAgent) : Prop :=
  status a = Attending /\
  exists z, performance a
            = np_clip (INITIAL_PERFORMANCE_MEAN + INITIAL_PERFORMANCE_STD * z) 50 95.

(** What [make_agents] may change: it adds agents and fills grid cells. *)
Record extends (m m' : SchoolModel) : Prop := mkExtends {
  ex_n_agents : n_agents m' = n_agents m;
  ex_steps : steps m' = steps m;
  ex_random : random m' = random m;
  ex_base : base_dropout_rate m' = base_dropout_rate m;
  ex_weight : peer_influence_weight m' = peer_influence_weight m;
  ex_volatility : performance_volatility m' = performance_volatility m;
  ex_aid : financial_aid_policy m' = financial_aid_policy m;
  ex_adj : _adj (G m') = _adj (G m);
  ex_nodes : G_nodes (G m') = G_nodes (G m);
  ex_datacollector : datacollector m' = datacollector m;
  ex_schedule_steps : schedule_steps (schedule m') = schedule_steps (schedule m)
}.

(** The state of a model right after [__init__], built on the graph [g]. *)
Record constructed (Random : Z -> RandomState) (g : Graph) (N : Z)
  (base weight volatility : Q) (aid : bool) (m : SchoolModel) : Prop :=
mkConstructed {
  co_n_agents : n_agents m = N;
  co_steps : steps m = 0%Z;
  co_random : random m = Random 42%Z;
  co_base : base_dropout_rate m = base;
  co_weight : peer_influence_weight m = weight;
  co_volatility : performance_volatility m = volatility;
  co_aid : financial_aid_policy m = aid;
  co_adj : _adj (G m) = _adj g;
  co_nodes : G_nodes (G m) = G_nodes g;
  co_model_vars : model_vars (datacollector m) = [];
  co_schedule_steps : schedule_steps (schedule m) = 0%Z;
  co_keys : dict_keys (_agents (schedule m))
            = map Z.of_nat (seq 0 (length (G_nodes g)));
  co_placed : Forall2 (fun e node => unique_id (snd e) = fst e
                                     /\ pos (snd e) = Some node)
                (_agents (schedule m)) (G_nodes g);
  co_fresh : Forall fresh_agent (agents m)
}.

(** An agent is either left alone, or it was attending and got a new
    performance within bounds and possibly a new status. *)
Definition agent_evolves (a a' : StudentAgent) : Prop :=
  a' = a \/
  (status a = Attending /\
   exists perf s, 0 <= perf <= 100 /\ a' = set_status (set_performance a perf) s).

Definition entry_evolves (x y : Z * StudentAgent) : Prop :=
  fst y = fst x /\ agent_evolves (snd x) (snd y).

(** Parameters and graph are untouched; the agents evolve entry by entry. *)
Record evolves (m m' : SchoolModel) : Prop := mkEvolves {
  ev_n_agents : n_agents m' = n_agents m;
  ev_base : base_dropout_rate m' = base_dropout_rate m;
  ev_weight : peer_influence_weight m' = peer_influence_weight m;
  ev_volatility : performance_volatility m' = performance_volatility m;
  ev_aid : financial_aid_policy m' = financial_aid_policy m;
  ev_G : G m' = G m;
  ev_agents : Forall2 entry_evolves (_agents (schedule m)) (_agents (schedule m'))
}.

(** Stepping agents touches neither the counter nor the collector. *)
Record same_bookkeeping (m m' : SchoolModel) : Prop := mkSameBookkeeping {
  sb_steps : steps m' = steps m;
  sb_datacollector : datacollector m' = datacollector m;
  sb_random : random m' = random m;
  sb_schedule_steps : schedule_steps (schedule m') = schedule_steps (schedule m)
}.

(** Cells of nodes below [i] hold their own student; the others are empty. *)
Definition cells_upto (i : Z) (d : list (Z * list Z)) : Prop :=
  forall n c, In (n, c) d -> c = if Z.ltb n i then [n] else [].

(** One row reports no less than another, rate by rate. *)
Definition rates_le (r r' : ModelRow) : Prop :=
  total_dropout_rate r <= total_dropout_rate r' /\
  low_ses_dropout_rate r <= low_ses_dropout_rate r' /\
  medium_ses_dropout_rate r <= medium_ses_dropout_rate r' /\
  high_ses_dropout_rate r <= high_ses_dropout_rate r'.

(** All four rates of a row satisfy a predicate. *)
Definition all_rates (P : Q -> Prop) (r : ModelRow) : Prop :=
  P (total_dropout_rate r) /\ P (low_ses_dropout_rate r) /\
  P (medium_ses_dropout_rate r) /\ P (high_ses_dropout_rate r).

(** The students of one tier, as [get_dropout_by_ses] selects them. *)
Definition tier (m : SchoolModel) (ses_level : Z) : list StudentAgent :=
  filter (fun a => Z.eqb (ses a) ses_level) (agents m).

(** The base rate after the aid discount (when the policy is on) is at least
    1, and the peer weight is between 0 and 1. *)
Definition dropout_is_certain (m : SchoolModel) : Prop :=
  1 <= apply_intervention m LOW_SES (base_dropout_rate m) /\
  0 <= peer_influence_weight m <= 1.

(** ** run.py and app.py: the callers

    Printing, plotting and the CSV file are left out; a DataFrame is the list
    of its rows. *)

(** The keyword arguments of [SchoolModel]. *)
Record Params : Type := mkParams {
  param_N : Z;
  param_k_degree : Z;
  param_rewiring_prob : Q;
  param_base_dropout_rate : Q;
  param_performance_volatility : Q;
  param_peer_influence_weight : Q;
  param_financial_aid_policy : bool
}.

(** A row of the model-level DataFrame once the callers have added their
    two columns: the index (the step), the reporters, Trial and Scenario. *)
Record DataRow : Type := mkDataRow {
  row_index : Z;
  row_values : ModelRow;
  row_Trial : Z;
  row_Scenario : string
}.

(** [model.datacollector.get_model_vars_dataframe()]: one row per collected
    step, indexed from 0. *)
Definition get_model_vars_dataframe (m : SchoolModel) : list (Z * ModelRow) :=
  combine (py_range (Z.of_nat (length (model_vars (datacollector m)))))
    (model_vars (datacollector m)).

(** [df['Trial'] = trial; df['Scenario'] = scenario] *)
Definition with_trial_and_scenario (df : list (Z * ModelRow)) (trial : Z)
  (scenario : string) : list DataRow :=
  map (fun ir => mkDataRow (fst ir) (snd ir) trial scenario) df.

(** [pd.concat(frames)]: refuses an empty list of frames. *)
Definition pd_concat {A : Type} (frames : list (list A)) : Result (list A) :=
  match frames with
  | [] => Raise ValueError
  | _ => Ok (concat frames)
  end.

(** [df.iloc[[-1]]]: the frame made of the last row; an empty frame has no
    position -1. *)
Definition iloc_last {A : Type} (df : list A) : Result (list A) :=
  match rev df with
  | [] => Raise IndexError
  | x :: _ => Ok [x]
  end.

(** [BASE_PARAMS] and [scenarios] of run.py. *)
Definition run_BASE_PARAMS : Params :=
  {| param_N := 200; param_k_degree := 4; param_rewiring_prob := 0.2;
     param_base_dropout_rate := 0.001; param_performance_volatility := 1.5;
     param_peer_influence_weight := 0.5; param_financial_aid_policy := false |}.

Definition with_param_aid (p : Params) (aid : bool) : Params :=
  {| param_N := param_N p; param_k_degree := param_k_degree p;
     param_rewiring_prob := param_rewiring_prob p;
     param_base_dropout_rate := param_base_dropout_rate p;
     param_performance_volatility := param_performance_volatility p;
     param_peer_influence_weight := param_peer_influence_weight p;
     param_financial_aid_policy := aid |}.

Definition with_param_weight (p : Params) (weight : Q) : Params :=
  {| param_N := param_N p; param_k_degree := param_k_degree p;
     param_rewiring_prob := param_rewiring_prob p;
     param_base_dropout_rate := param_base_dropout_rate p;
     param_performance_volatility := param_performance_volatility p;
     param_peer_influence_weight := weight;
     param_financial_aid_policy := param_financial_aid_policy p |}.

Definition run_scenarios : list (string * Params) :=
  [ ("1_Baseline"%string, with_param_aid run_BASE_PARAMS false);
    ("2_Intervention_FinancialAid"%string, with_param_aid run_BASE_PARAMS true);
    ("3_Contagion_Check_HighPI"%string,
     with_param_weight (with_param_aid run_BASE_PARAMS false) 0.8) ].

(** [BASE_PARAMS] and [scenarios] inside [run_and_analyze_abm] of app.py. *)
Definition app_BASE_PARAMS (base_dropout_rate peer_influence_weight : Q) : Params :=
  {| param_N := 200; param_k_degree := 4; param_rewiring_prob := 0.2;
     param_base_dropout_rate := base_dropout_rate;
     param_performance_volatility := 1.5;
     param_peer_influence_weight := peer_influence_weight;
     param_financial_aid_policy := false |}.

Definition app_scenarios (base_dropout_rate peer_influence_weight : Q)
  (financial_aid_enabled : bool) : list (string * Params) :=
  let BASE_PARAMS := app_BASE_PARAMS base_dropout_rate peer_influence_weight in
  [ ("1_Baseline"%string, with_param_aid BASE_PARAMS false);
    ("2_Intervention_FinancialAid"%string,
     with_param_aid BASE_PARAMS financial_aid_enabled);
    ("3_Contagion_Check_HighPI"%string,
     with_param_weight BASE_PARAMS (peer_influence_weight * 1.5)) ].

Section Callers.

Variable watts_strogatz_graph :
  Z -> Z -> Q -> RandomState -> Result (Graph * RandomState).
Variable Random : Z -> RandomState.

(** [SchoolModel] called with the dictionary [params] as its keyword
    arguments. *)
Definition SchoolModel_kwargs (params : Params) (w : Globals)
  : Result (SchoolModel * Globals) :=
  SchoolModel_init watts_strogatz_graph Random
    (param_N params) (param_k_degree params) (param_rewiring_prob params)
    (param_base_dropout_rate params) (param_peer_influence_weight params)
    (param_performance_volatility params) (param_financial_aid_policy params) w.

(** [for _ in range(num_steps): model.step()] *)
Definition step_times (num_steps : Z) (model : SchoolModel) (w : Globals)
  : Result (SchoolModel * Globals) :=
  '(model, np) <- run_steps (Z.to_nat num_steps) model (np_global w) ;;
  Ok (model, {| np_global := np; py_global := py_global w |}).

(** The loop [for i in range(num_trials)] of [run_simulation], from trial
    [i] on. *)
Fixpoint run_simulation_trials (scenario_name : string) (params : Params)
  (num_steps : Z) (i : Z) (remaining : nat)
  (all_trials_data : list (list DataRow)) (w : Globals)
  : Result (list (list DataRow) * Globals) :=
  match remaining with
  | O => Ok (all_trials_data, w)
  | S remaining' =>
      '(model, w) <- SchoolModel_kwargs params w ;;
      '(model, w) <- step_times num_steps model w ;;
      let df := get_model_vars_dataframe model in
      let df := with_trial_and_scenario df (i + 1)%Z scenario_name in
      run_simulation_trials scenario_name params num_steps (i + 1)%Z remaining'
        (all_trials_data ++ [df]) w
  end.

(** [run_simulation] of run.py. *)
Definition run_simulation (scenario_name : string) (params : Params)
  (num_trials num_steps : Z) (w : Globals)
  : Result (list DataRow * Globals) :=
  '(all_trials_data, w) <-
      run_simulation_trials scenario_name params num_steps 0%Z
        (Z.to_nat num_trials) [] w ;;
  df <- pd_concat all_trials_data ;;
  Ok (df, w).

(** The inner loop of [run_and_analyze_abm]: as above, but only the last
    row of each trial is kept. *)
Fixpoint app_trials (name : string) (params : Params)
  (num_steps : Z) (i : Z) (remaining : nat)
  (all_trials_data : list (list DataRow)) (w : Globals)
  : Result (list (list DataRow) * Globals) :=
  match remaining with
  | O => Ok (all_trials_data, w)
  | S remaining' =>
      '(model, w) <- SchoolModel_kwargs params w ;;
      '(model, w) <- step_times num_steps model w ;;
      df <- iloc_last (get_model_vars_dataframe model) ;;
      let df := with_trial_and_scenario df (i + 1)%Z name in
      app_trials name params num_steps (i + 1)%Z remaining'
        (all_trials_data ++ [df]) w
  end.

(** The outer loop [for name, params in scenarios.items()]. *)
Fixpoint app_scenarios_loop (scenarios : list (string * Params))
  (num_steps num_trials : Z) (all_results : list (list DataRow)) (w : Globals)
  : Result (list (list DataRow) * Globals) :=
  match scenarios with
  | [] => Ok (all_results, w)
  | (name, params) :: rest =>
      '(all_trials_data, w) <-
          app_trials name params num_steps 0%Z (Z.to_nat num_trials) [] w ;;
      df <- pd_concat all_trials_data ;;
      app_scenarios_loop rest num_steps num_trials (all_results ++ [df]) w
  end.

(** [run_and_analyze_abm] of app.py up to [final_df]. *)
Definition run_and_analyze_abm_final_df (num_steps num_trials : Z)
  (base_dropout_rate peer_influence_weight : Q) (financial_aid_enabled : bool)
  (w : Globals) : Result (list DataRow * Globals) :=
  '(all_results, w) <-
      app_scenarios_loop
        (app_scenarios base_dropout_rate peer_influence_weight
           financial_aid_enabled)
        num_steps num_trials [] w ;;
  final_df <- pd_concat all_results ;;
  Ok (final_df, w).

(** The module-level constants of run.py. *)
Definition NUM_STEPS : Z := 20.
Definition NUM_TRIALS : Z := 30.

(** The loop [for name, params in scenarios.items()] of the main block of
    run.py. *)
Fixpoint run_main_loop (scenarios : list (string * Params))
  (all_results : list (list DataRow)) (w : Globals)
  : Result (list (list DataRow) * Globals) :=
  match scenarios with
  | [] => Ok (all_results, w)
  | (name, params) :: rest =>
      '(results, w) <- run_simulation name params NUM_TRIALS NUM_STEPS w ;;
      run_main_loop rest (all_results ++ [results]) w
  end.

(** The main block of run.py up to [final_df], the table it writes out. *)
Definition run_main_final_df (w : Globals) : Result (list DataRow * Globals) :=
  '(all_results, w) <- run_main_loop run_scenarios [] w ;;
  final_df <- pd_concat all_results ;;
  Ok (final_df, w).

End Callers.

(** The three labels of a row: Scenario, Trial and the index. *)
Definition row_labels (r : DataRow) : string * Z * Z :=
  (row_Scenario r, row_Trial r, row_index r).

(** The trial numbers [1 .. num_trials]. *)
Definition trial_numbers (num_trials : Z) : list Z :=
  map Z.succ (py_range num_trials).

(** ** The callers on concrete inputs

    The first scenario of run.py, two trials of three steps, and the
    scenarios of app.py with a base rate of 0.01 and the peer weight slider
    at its maximum, 1. *)

Abbreviation run_sample :=
  (run_simulation watts_strogatz_graph_p0 Random_const "1_Baseline"
     (with_param_aid run_BASE_PARAMS false) 2 3 sample_globals).

Definition run_sample_table : list DataRow := Eval vm_compute in
  match run_sample with Ok (df, _) => df | Raise _ => [] end.

Definition run_sample_globals : Globals := Eval vm_compute in
  match run_sample with Ok (_, w) => w | Raise _ => sample_globals end.

Abbreviation app_sample_baseline :=
  (SchoolModel_kwargs watts_strogatz_graph_p0 Random_const
     (with_param_aid (app_BASE_PARAMS (1 # 100) 1) false) sample_globals).

Definition app_baseline_model : SchoolModel := Eval vm_compute in
  model_of app_sample_baseline.

Definition app_baseline_globals : Globals := Eval vm_compute in
  match app_sample_baseline with Ok (_, w) => w | Raise _ => sample_globals end.

Abbreviation app_sample_contagion :=
  (SchoolModel_kwargs watts_strogatz_graph_p0 Random_const
     (with_param_weight (app_BASE_PARAMS (1 # 100) 1) (1 * 1.5))
     sample_globals).

Definition app_contagion_model : SchoolModel := Eval vm_compute in
  model_of app_sample_contagion.

Definition app_contagion_globals : Globals := Eval vm_compute in
  match app_sample_contagion with Ok (_, w) => w | Raise _ => sample_globals end.

Definition app_contagion_model_1 : SchoolModel := Eval vm_compute in
  model_of (run_steps 1 app_contagion_model (np_global app_contagion_globals)).

Definition app_contagion_np_1 : RandomState := Eval vm_compute in
  match run_steps 1 app_contagion_model (np_global app_contagion_globals) with
  | Ok (_, np) => np
  | Raise _ => []
  end.

Abbreviation app_sample :=
  (run_and_analyze_abm_final_df watts_strogatz_graph_p0 Random_const
     2 2 (1 # 100) 1 true sample_globals).

Definition app_sample_table : list DataRow := Eval vm_compute in
  match app_sample with Ok (df, _) => df | Raise _ => [] end.

Definition app_sample_globals : Globals := Eval vm_compute in
  match app_sample with Ok (_, w) => w | Raise _ => sample_globals end.

(** ** Simple undirected graphs *)

(** The neighbours of a node, none if the node is not there. *)
Definition nbrs (adj : list (Z * list Z)) (x : Z) : list Z :=
  match dict_get x adj with
  | Some l => l
  | None => []
  end.

(** An undirected simple graph on the nodes [0 .. n-1]: no node is its own
    neighbour, no neighbour is listed twice, and every edge is recorded at
    both of its ends. *)
Record good_graph (n : Z) (g : Graph) : Prop := mkGoodGraph {
  gg_node : dict_keys (_node g) = py_range n;
  gg_adj : dict_keys (_adj g) = py_range n;
  gg_nodup : forall x, NoDup (nbrs (_adj g) x);
  gg_irrefl : forall x, ~ In x (nbrs (_adj g) x);
  gg_sym : forall x y, In y (nbrs (_adj g) x) -> In x (nbrs (_adj g) y)
}.

(** A rewiring run of the library routine, to show the routine at work:
    six nodes, two neighbours each, every edge rewired. *)
Definition rewiring_draws : RandomState :=
  [ 1 # 2; 1 # 6; 1 # 2; 1 # 2; 2 # 3; 1 # 2; 0; 1 # 2; 1 # 6; 1 # 2; 1 # 3;
    1 # 2; 1 # 2 ].

Definition rewired_graph : Graph := Eval vm_compute in
  match nx_watts_strogatz_graph 5 6 2 1 rewiring_draws with
  | Some (Ok (g, _)) => g
  | _ => empty_graph 0
  end.

(** * Properties *)

(** ** Dicts *)

Lemma dict_get_set_eq {V : Type} (k : Z) (v : V) (d : list (Z * V)) :
  dict_get k (dict_set k v d) = Some v.
Proof.
  induction d as [|[k' v'] d IH]; simpl.
  - now rewrite Z.eqb_refl.
  - destruct (Z.eqb k k') eqn:E; simpl; rewrite E; auto.
Qed.

Lemma dict_get_set_neq {V : Type} (k k' : Z) (v : V) (d : list (Z * V)) :
  k <> k' -> dict_get k' (dict_set k v d) = dict_get k' d.
Proof.
  intros Hne. induction d as [|[k0 v0] d IH]; simpl.
  - destruct (Z.eqb k' k) eqn:E; auto. apply Z.eqb_eq in E. congruence.
  - destruct (Z.eqb k k0) eqn:E; simpl.
    + apply Z.eqb_eq in E. subst k0.
      destruct (Z.eqb k' k) eqn:E'; auto. apply Z.eqb_eq in E'. congruence.
    + now rewrite IH.
Qed.

Lemma dict_values_set_Forall {V : Type} (P : V -> Prop) k v (d : list (Z * V)) :
  Forall P (dict_values d) -> P v -> Forall P (dict_values (dict_set k v d)).
Proof.
  unfold dict_values. intros H Hv. induction d as [|[k' v'] d IH]; simpl.
  - auto.
  - inversion H; subst. destruct (Z.eqb k k'); simpl; auto.
Qed.

Lemma dict_get_In {V : Type} k (v : V) d : dict_get k d = Some v -> In (k, v) d.
Proof.
  induction d as [|[k' v'] d IH]; simpl; [discriminate|].
  destruct (Z.eqb k k') eqn:E.
  - apply Z.eqb_eq in E. intros [= ->]. subst. now left.
  - auto.
Qed.

Lemma dict_get_In_value {V : Type} k (v : V) d :
  dict_get k d = Some v -> In v (dict_values d).
Proof.
  intros H. apply dict_get_In in H. unfold dict_values.
  change v with (snd (k, v)). now apply in_map.
Qed.

Lemma dict_keys_set_present {V : Type} k (v v0 : V) d :
  dict_get k d = Some v0 -> dict_keys (dict_set k v d) = dict_keys d.
Proof.
  unfold dict_keys. induction d as [|[k' v'] d IH]; simpl; [discriminate|].
  destruct (Z.eqb k k') eqn:E; simpl; auto.
  intros H. now rewrite IH.
Qed.

Lemma dict_set_absent {V : Type} k (v : V) d :
  dict_get k d = None -> dict_set k v d = d ++ [(k, v)].
Proof.
  induction d as [|[k' v'] d IH]; simpl; auto.
  destruct (Z.eqb k k'); [discriminate|]. intros H. now rewrite IH.
Qed.

(** ** Floats *)

Lemma Qltb_lt a b : Qltb a b = true <-> a < b.
Proof.
  unfold Qltb. rewrite negb_true_iff. split; intros H.
  - apply Qnot_le_lt. intros Hle. apply Qle_bool_iff in Hle. congruence.
  - destruct (Qle_bool b a) eqn:E; auto.
    apply Qle_bool_iff in E. exfalso. eapply Qlt_not_le; eauto.
Qed.

Lemma Qltb_ge a b : Qltb a b = false <-> b <= a.
Proof.
  unfold Qltb. rewrite negb_false_iff. apply Qle_bool_iff.
Qed.

Lemma np_clip_range x lo hi : lo <= hi -> lo <= np_clip x lo hi <= hi.
Proof.
  intros Hlh. unfold np_clip, np_minimum, np_maximum.
  destruct (Qle_bool x lo) eqn:E1.
  - destruct (Qle_bool lo hi) eqn:E2.
    + split; [apply Qle_refl | assumption].
    + split; [assumption | apply Qle_refl].
  - assert (Hx : lo <= x).
    { apply Qlt_le_weak, Qnot_le_lt. intros H. apply Qle_bool_iff in H. congruence. }
    destruct (Qle_bool x hi) eqn:E2.
    + apply Qle_bool_iff in E2. split; assumption.
    + split; [assumption | apply Qle_refl].
Qed.

Lemma py_max_nonneg x : 0 <= py_max 0 x.
Proof.
  unfold py_max. destruct (Qltb 0 x) eqn:E.
  - apply Qltb_lt in E. now apply Qlt_le_weak.
  - apply Qle_refl.
Qed.

Lemma performance_risk_nonneg x : 0 <= performance_risk x.
Proof.
  unfold performance_risk, PERFORMANCE_THRESHOLD.
  apply Qle_shift_div_l; [reflexivity|].
  rewrite Qmult_0_l. apply py_max_nonneg.
Qed.

Lemma frac_range x : 0 <= frac x < 1.
Proof.
  unfold frac. pose proof (Qfloor_le x) as H1. pose proof (Qlt_floor x) as H2.
  rewrite inject_Z_plus in H2. change (inject_Z 1) with 1 in H2.
  set (f := inject_Z (Qfloor x)) in *. split; lra.
Qed.

Lemma np_random_rand_range s : 0 <= fst (np_random_rand s) < 1.
Proof.
  unfold np_random_rand, random_sample. destruct (next_draw s) as [x s'].
  simpl. apply frac_range.
Qed.

(** ** What one agent step does *)

Lemma deref_store_eq m ref a : deref (store m ref a) ref = Ok a.
Proof. unfold deref, store. simpl. now rewrite dict_get_set_eq. Qed.

Lemma deref_store_neq m ref ref' a :
  ref <> ref' -> deref (store m ref a) ref' = deref m ref'.
Proof. intros H. unfold deref, store. simpl. now rewrite dict_get_set_neq. Qed.

Lemma deref_Ok m ref a :
  deref m ref = Ok a <-> dict_get ref (_agents (schedule m)) = Some a.
Proof.
  unfold deref. destruct (dict_get ref _); split; congruence.
Qed.

(** The two ways an agent step can return. *)
Lemma StudentAgent_step_inv self m np m' np' :
  StudentAgent_step self m np = Ok (m', np') ->
  exists a, deref m self = Ok a /\
    ((status a = DroppedOut /\ m' = m /\ np' = np)
     \/ (status a = Attending /\
         exists z np1 p,
           next_draw np = (z, np1) /\
           let a1 := set_performance a
                       (np_clip (performance a + (0 + performance_volatility m * z))
                          0 100) in
           p_drop (store m self a1) a1 = Ok p /\
           np' = snd (np_random_rand np1) /\
           m' = if Qltb (fst (np_random_rand np1)) p
                then store (store m self a1) self (set_status a1 DroppedOut)
                else store m self a1)).
Proof.
  unfold StudentAgent_step. intros H.
  destruct (deref m self) as [a|e] eqn:Ha; simpl in H; [|discriminate].
  exists a. split; [reflexivity|].
  destruct (status a) eqn:Hs; simpl in H.
  - right. split; [reflexivity|].
    unfold np_random_normal in H.
    destruct (Qltb (performance_volatility m) 0); simpl in H; [discriminate|].
    destruct (next_draw np) as [z np1] eqn:Hd. simpl in H.
    match type of H with
    | bind ?c _ = _ => destruct c as [p|e] eqn:Hp; simpl in H; [|discriminate]
    end.
    exists z, np1, p. split; [reflexivity|]. split; [exact Hp|].
    destruct (np_random_rand np1) as [u np2]. simpl.
    destruct (Qltb u p); inversion H; subst; auto.
  - left. inversion H; subst. auto.
Qed.

(** ** How a model can change while it is stepped *)

Lemma agent_evolves_refl a : agent_evolves a a.
Proof. now left. Qed.

Lemma agent_evolves_trans a b c :
  agent_evolves a b -> agent_evolves b c -> agent_evolves a c.
Proof.
  intros [->|[Ha (p & s & Hp & ->)]] Hbc; [assumption|].
  destruct Hbc as [->|[Hb (p' & s' & Hp' & ->)]].
  - right. split; [assumption|]. now exists p, s.
  - right. split; [assumption|]. exists p', s'. split; [assumption|].
    reflexivity.
Qed.

Lemma entries_evolve_refl d : Forall2 entry_evolves d d.
Proof.
  induction d; constructor; auto. split; [reflexivity | apply agent_evolves_refl].
Qed.

Lemma entries_evolve_trans d1 d2 d3 :
  Forall2 entry_evolves d1 d2 -> Forall2 entry_evolves d2 d3 ->
  Forall2 entry_evolves d1 d3.
Proof.
  intros H12. revert d3. induction H12 as [|x y l l' Hxy _ IH]; intros d3 H23.
  - inversion H23. constructor.
  - inversion H23 as [|y' z l2 l3 Hyz Hrest]; subst. constructor; auto.
    destruct Hxy as [Hk1 He1], Hyz as [Hk2 He2]. split.
    + congruence.
    + eapply agent_evolves_trans; eauto.
Qed.

Lemma evolves_refl m : evolves m m.
Proof. constructor; auto using entries_evolve_refl. Qed.

Lemma evolves_trans m1 m2 m3 : evolves m1 m2 -> evolves m2 m3 -> evolves m1 m3.
Proof.
  intros [] []. constructor; try congruence.
  eapply entries_evolve_trans; eauto.
Qed.

Lemma entries_evolve_set k a a' d :
  dict_get k d = Some a -> agent_evolves a a' ->
  Forall2 entry_evolves d (dict_set k a' d).
Proof.
  induction d as [|[k' v'] d IH]; simpl; [discriminate|].
  destruct (Z.eqb k k') eqn:E.
  - intros [= ->] Hev. constructor.
    + split; auto.
    + apply entries_evolve_refl.
  - intros Hg Hev. constructor; auto.
    split; [reflexivity | apply agent_evolves_refl].
Qed.

Lemma entries_evolve_keys d d' :
  Forall2 entry_evolves d d' -> dict_keys d' = dict_keys d.
Proof.
  unfold dict_keys. induction 1 as [|x y l l' [Hk _] _ IH]; simpl; congruence.
Qed.

Lemma entries_evolve_get d d' k a :
  Forall2 entry_evolves d d' -> dict_get k d = Some a ->
  exists a', dict_get k d' = Some a' /\ agent_evolves a a'.
Proof.
  induction 1 as [|[k1 v1] [k2 v2] l l' [Hk He] _ IH]; simpl; [discriminate|].
  simpl in Hk, He. subst k2.
  destruct (Z.eqb k k1).
  - intros [= ->]. eauto.
  - auto.
Qed.

Lemma evolves_store m self a a' :
  deref m self = Ok a -> agent_evolves a a' -> evolves m (store m self a').
Proof.
  intros Hd He. apply deref_Ok in Hd.
  constructor; try reflexivity. simpl. now apply entries_evolve_set with a.
Qed.

Lemma StudentAgent_step_evolves self m np m' np' :
  StudentAgent_step self m np = Ok (m', np') -> evolves m m'.
Proof.
  intros H. apply StudentAgent_step_inv in H.
  destruct H as (a & Ha & [(_ & -> & _) | (Hs & z & np1 & p & _ & _ & _ & Hm)]).
  - apply evolves_refl.
  - set (perf := np_clip (performance a + (0 + performance_volatility m * z)) 0 100) in *.
    assert (Hperf : 0 <= perf <= 100) by (apply np_clip_range; discriminate).
    assert (E1 : agent_evolves a (set_performance a perf)).
    { right. split; [assumption|]. exists perf, Attending. split; [assumption|].
      destruct a; simpl in *; subst; reflexivity. }
    assert (Ev1 : evolves m (store m self (set_performance a perf)))
      by (eapply evolves_store; eauto).
    destruct (Qltb _ p); subst m'; [|assumption].
    eapply evolves_trans; [exact Ev1|].
    eapply evolves_store; [apply deref_store_eq|].
    right. split; [assumption|]. exists perf, DroppedOut. split; [assumption|].
    reflexivity.
Qed.

Lemma do_each_step_evolves keys : forall m np m' np',
  do_each_step keys m np = Ok (m', np') -> evolves m m'.
Proof.
  induction keys as [|k keys IH]; simpl; intros m np m' np' H.
  - inversion H; subst. apply evolves_refl.
  - destruct (dict_get k _).
    + destruct (StudentAgent_step k m np) as [[m1 np1]|e] eqn:E; simpl in H;
        [|discriminate].
      eapply evolves_trans; [eapply StudentAgent_step_evolves; eauto|eauto].
    + eauto.
Qed.

Lemma schedule_step_evolves m np m' np' :
  schedule_step m np = Ok (m', np') -> evolves m m'.
Proof.
  unfold schedule_step. destruct (shuffle _ _) as [keys r].
  destruct (do_each_step keys (with_random m r) np) as [[m1 np1]|e] eqn:E;
    simpl; [|discriminate].
  intros [= <- <-]. apply do_each_step_evolves in E.
  destruct E. constructor; assumption.
Qed.

Lemma datacollector_collect_evolves m m' :
  datacollector_collect m = Ok m' -> evolves m m'.
Proof.
  unfold datacollector_collect.
  destruct (model_reporters m); simpl; [|discriminate].
  intros [= <-]. constructor; try reflexivity. apply entries_evolve_refl.
Qed.

Lemma SchoolModel_step_evolves m np m' np' :
  SchoolModel_step m np = Ok (m', np') -> evolves m m'.
Proof.
  unfold SchoolModel_step.
  destruct (datacollector_collect _) as [m1|e] eqn:E; simpl; [|discriminate].
  intros H. apply datacollector_collect_evolves in E.
  apply schedule_step_evolves in H.
  eapply evolves_trans; [|exact H].
  destruct E. constructor; assumption.
Qed.

Lemma run_steps_evolves n : forall m np m' np',
  run_steps n m np = Ok (m', np') -> evolves m m'.
Proof.
  induction n as [|n IH]; simpl; intros m np m' np' H.
  - inversion H; subst. apply evolves_refl.
  - destruct (SchoolModel_step m np) as [[m1 np1]|e] eqn:E; simpl in H;
      [|discriminate].
    eapply evolves_trans; [eapply SchoolModel_step_evolves; eauto|eauto].
Qed.

(** ** Construction *)

Lemma extends_refl m : extends m m.
Proof. constructor; reflexivity. Qed.

Lemma extends_trans m1 m2 m3 : extends m1 m2 -> extends m2 m3 -> extends m1 m3.
Proof. intros [] []. constructor; congruence. Qed.

Lemma dict_get_absent {V : Type} k (d : list (Z * V)) :
  (forall k', In k' (dict_keys d) -> k' <> k) -> dict_get k d = None.
Proof.
  unfold dict_keys. induction d as [|[k' v'] d IH]; simpl; intros H; auto.
  destruct (Z.eqb k k') eqn:E.
  - apply Z.eqb_eq in E. exfalso. apply (H k'); auto.
  - apply IH. intros k0 Hk0. apply H. auto.
Qed.

Lemma dict_get_present {V : Type} k (d : list (Z * V)) :
  In k (dict_keys d) -> exists v, dict_get k d = Some v.
Proof.
  unfold dict_keys. induction d as [|[k' v'] d IH]; simpl; intros H; [contradiction|].
  destruct (Z.eqb k k') eqn:E; eauto.
  destruct H as [H|H]; auto. subst. rewrite Z.eqb_refl in E. discriminate.
Qed.

Lemma dict_keys_set_same {V : Type} k (v : V) d :
  In k (dict_keys d) -> dict_keys (dict_set k v d) = dict_keys d.
Proof.
  intros H. destruct (dict_get_present _ _ H) as [v0 Hv0].
  eapply dict_keys_set_present; eauto.
Qed.

Lemma dict_set_last {V : Type} k (v v' : V) d :
  dict_get k d = None -> dict_set k v' (d ++ [(k, v)]) = d ++ [(k, v')].
Proof.
  induction d as [|[k0 v0] d IH]; simpl.
  - now rewrite Z.eqb_refl.
  - destruct (Z.eqb k k0); [discriminate|]. intros H. now rewrite IH.
Qed.

(** Creating one agent: [schedule.add] then [grid.place_agent]. *)
Lemma place_new_agent m i perf s node :
  In node (G_nodes (G m)) ->
  (forall k, In k (dict_keys (_agents (schedule m))) -> k <> i) ->
  exists m',
    place_agent (schedule_add m (StudentAgent_init i perf s))
      (StudentAgent_init i perf s) node = Ok m' /\
    extends m m' /\
    _agents (schedule m')
    = _agents (schedule m) ++ [(i, set_pos (StudentAgent_init i perf s) node)].
Proof.
  intros Hnode Hfresh.
  destruct (dict_get_present _ _ Hnode) as [c Hc].
  unfold place_agent, place_in_cell, G_node_agent, schedule_add. simpl.
  rewrite Hc. simpl. eexists. split; [reflexivity|]. split.
  - constructor; try reflexivity. simpl. unfold G_nodes. simpl.
    now apply dict_keys_set_same.
  - simpl. assert (Habs : dict_get i (_agents (schedule m)) = None)
      by now apply dict_get_absent.
    rewrite (dict_set_absent i _ (_agents (schedule m))) by assumption.
    now apply dict_set_last.
Qed.

Lemma initial_normal_Ok np :
  np_random_normal INITIAL_PERFORMANCE_MEAN INITIAL_PERFORMANCE_STD np
  = Ok (INITIAL_PERFORMANCE_MEAN + INITIAL_PERFORMANCE_STD * fst (next_draw np),
        snd (next_draw np)).
Proof.
  unfold np_random_normal.
  change (Qltb INITIAL_PERFORMANCE_STD 0) with false.
  now destruct (next_draw np).
Qed.

(** The loop of [make_agents] when the tier list is long enough. *)
Lemma make_agents_loop_Ok : forall nodes sd i m np,
  (0 <= i)%Z ->
  (forall node, In node nodes -> In node (G_nodes (G m))) ->
  (forall k, In k (dict_keys (_agents (schedule m))) -> (k < i)%Z) ->
  (Z.to_nat i + length nodes <= length sd)%nat ->
  exists m' np' created,
    make_agents_loop sd i nodes m np = Ok (m', np') /\
    extends m m' /\
    _agents (schedule m') = _agents (schedule m) ++ created /\
    Forall2 (fun e node => unique_id (snd e) = fst e /\ pos (snd e) = Some node)
      created nodes /\
    dict_keys created = map (fun j => (i + Z.of_nat j)%Z) (seq 0 (length nodes)) /\
    Forall fresh_agent (dict_values created).
Proof.
  induction nodes as [|node rest IH]; intros sd i m np Hi Hnodes Hkeys Hlen.
  - exists m, np, []. simpl. rewrite app_nil_r.
    repeat split; auto using extends_refl; constructor.
  - simpl. rewrite initial_normal_Ok. simpl.
    set (perf := np_clip _ 50 95).
    unfold list_index.
    destruct (nth_error sd (Z.to_nat i)) as [s|] eqn:Hs.
    2:{ apply nth_error_None in Hs. simpl in Hlen. lia. }
    simpl.
    destruct (place_new_agent m i perf s node) as (m1 & Hp & Hext & Hag).
    { apply Hnodes. now left. }
    { intros k Hk. apply Hkeys in Hk. lia. }
    rewrite Hp. simpl.
    destruct (IH sd (i + 1)%Z m1 (snd (next_draw np)))
      as (m' & np' & created & Hrun & Hext' & Hag' & Hpos & Hk' & Hfresh).
    + lia.
    + intros n Hn. rewrite (ex_nodes _ _ Hext). apply Hnodes. now right.
    + intros k Hk. rewrite Hag in Hk. unfold dict_keys in Hk.
      rewrite map_app in Hk. apply in_app_or in Hk. destruct Hk as [Hk|Hk].
      * apply Hkeys in Hk. lia.
      * simpl in Hk. destruct Hk as [<-|[]]. lia.
    + simpl in Hlen. lia.
    + exists m', np', ((i, set_pos (StudentAgent_init i perf s) node) :: created).
      split; [exact Hrun|]. split; [eapply extends_trans; eauto|].
      split; [rewrite Hag', Hag, <- app_assoc; reflexivity|].
      split; [constructor; [split; reflexivity | exact Hpos]|].
      split.
      * simpl. rewrite Hk'. f_equal; [lia|].
        rewrite <- seq_shift, map_map. apply map_ext. intros j. lia.
      * simpl. constructor; [|exact Hfresh].
        split; [reflexivity|]. now exists (fst (next_draw np)).
Qed.

(** The loop of [make_agents] when the tier list runs out first. *)
Lemma make_agents_loop_IndexError : forall nodes sd i m np,
  (0 <= i)%Z ->
  (forall node, In node nodes -> In node (G_nodes (G m))) ->
  (forall k, In k (dict_keys (_agents (schedule m))) -> (k < i)%Z) ->
  (Z.to_nat i <= length sd < Z.to_nat i + length nodes)%nat ->
  make_agents_loop sd i nodes m np = Raise IndexError.
Proof.
  induction nodes as [|node rest IH]; intros sd i m np Hi Hnodes Hkeys Hlen.
  - simpl in Hlen. lia.
  - simpl. rewrite initial_normal_Ok. simpl.
    set (perf := np_clip _ 50 95).
    unfold list_index.
    destruct (nth_error sd (Z.to_nat i)) as [s|] eqn:Hs; [|reflexivity].
    assert (Hlt : (Z.to_nat i < length sd)%nat).
    { apply nth_error_Some. congruence. }
    simpl.
    destruct (place_new_agent m i perf s node) as (m1 & Hp & Hext & Hag).
    { apply Hnodes. now left. }
    { intros k Hk. apply Hkeys in Hk. lia. }
    rewrite Hp. simpl. apply IH.
    + lia.
    + intros n Hn. rewrite (ex_nodes _ _ Hext). apply Hnodes. now right.
    + intros k Hk. rewrite Hag in Hk. unfold dict_keys in Hk.
      rewrite map_app in Hk. apply in_app_or in Hk. destruct Hk as [Hk|Hk].
      * apply Hkeys in Hk. lia.
      * simpl in Hk. destruct Hk as [<-|[]]. lia.
    + simpl in Hlen. lia.
Qed.

(** ** The shuffles keep the length *)

Lemma list_set_length {A : Type} i (x : A) l : length (list_set i x l) = length l.
Proof.
  revert i. induction l as [|y l IH]; intros [|i]; simpl; auto.
Qed.

Lemma swap_length {A : Type} i j (l : list A) : length (swap i j l) = length l.
Proof.
  unfold swap. destruct (nth_error l i), (nth_error l j); auto.
  now rewrite !list_set_length.
Qed.

Lemma shuffle_from_length {A : Type} i : forall (l : list A) s,
  length (fst (shuffle_from i l s)) = length l.
Proof.
  induction i as [|i IH]; intros l s; simpl; auto.
  destruct (randbelow (S (S i)) s) as [j s']. rewrite IH. apply swap_length.
Qed.

Lemma shuffle_length {A : Type} (l : list A) s :
  length (fst (shuffle l s)) = length l.
Proof. apply shuffle_from_length. Qed.

(** ** The tier list *)

Lemma py_int_scaled (N num : Z) (den : positive) :
  (0 <= N)%Z -> (0 <= num)%Z ->
  py_int (inject_Z N * (num # den)) = (N * num / Zpos den)%Z.
Proof.
  intros HN Hn. unfold py_int. simpl.
  apply Z.quot_div_nonneg; lia.
Qed.

Lemma ses_distribution_length N :
  (0 <= N)%Z ->
  Z.of_nat (length (ses_distribution N)) = (2 * (N * 4 / 10) + N * 2 / 10)%Z.
Proof.
  intros HN. unfold ses_distribution, list_times.
  rewrite !length_app, !repeat_length.
  change 0.4 with (4 # 10). change 0.2 with (2 # 10).
  rewrite !py_int_scaled by lia.
  assert (0 <= N * 4 / 10)%Z by (apply Z.div_pos; lia).
  assert (0 <= N * 2 / 10)%Z by (apply Z.div_pos; lia).
  lia.
Qed.

(** The three tier counts add up to [N] exactly when 5 divides [N]. *)
Lemma ses_distribution_complete N :
  (0 <= N)%Z -> (N mod 5 = 0)%Z ->
  length (ses_distribution N) = Z.to_nat N.
Proof.
  intros HN Hmod. pose proof (ses_distribution_length N HN) as H.
  apply Nat2Z.inj. rewrite Z2Nat.id, H by lia.
  Z.div_mod_to_equations. lia.
Qed.

Lemma ses_distribution_short N :
  (0 <= N)%Z -> (N mod 5 <> 0)%Z ->
  (length (ses_distribution N) < Z.to_nat N)%nat.
Proof.
  intros HN Hmod. pose proof (ses_distribution_length N HN) as H.
  apply Nat2Z.inj_lt. rewrite Z2Nat.id, H by lia.
  Z.div_mod_to_equations. lia.
Qed.

(** ** What the constructor returns *)

Lemma G_nodes_NetworkGrid_init g : G_nodes (NetworkGrid_init g) = G_nodes g.
Proof.
  unfold G_nodes, NetworkGrid_init, dict_keys. simpl.
  rewrite map_map. reflexivity.
Qed.

Section ConstructionFacts.

Variable watts_strogatz_graph :
  Z -> Z -> Q -> RandomState -> Result (Graph * RandomState).
Variable Random : Z -> RandomState.

Let init := SchoolModel_init watts_strogatz_graph Random.

(** The constructor handles no exception of the graph library. *)
Lemma SchoolModel_init_generator_raises N k p base weight vol aid w e :
  watts_strogatz_graph N k p (py_global w) = Raise e ->
  init N k p base weight vol aid w = Raise e.
Proof.
  intros H. unfold init, SchoolModel_init. now rewrite H.
Qed.

(** Fewer tiers than nodes: indexing the tier list fails. *)
Lemma SchoolModel_init_IndexError N k p base weight vol aid w g py :
  watts_strogatz_graph N k p (py_global w) = Ok (g, py) ->
  (length (ses_distribution N) < length (G_nodes g))%nat ->
  init N k p base weight vol aid w = Raise IndexError.
Proof.
  intros Hg Hlen. unfold init, SchoolModel_init. rewrite Hg. simpl.
  unfold make_agents. simpl.
  pose proof (shuffle_length (ses_distribution N) (np_global w)) as Hsh.
  destruct (shuffle _ _) as [sd np0]. simpl in Hsh.
  rewrite make_agents_loop_IndexError; [reflexivity|lia| | |].
  - simpl. intros node Hn. now rewrite G_nodes_NetworkGrid_init in *.
  - simpl. intros k0 [].
  - simpl. rewrite G_nodes_NetworkGrid_init. lia.
Qed.

(** At least as many tiers as nodes: one agent per node is created. *)
Lemma SchoolModel_init_Ok N k p base weight vol aid w g py :
  watts_strogatz_graph N k p (py_global w) = Ok (g, py) ->
  (length (G_nodes g) <= length (ses_distribution N))%nat ->
  exists m np,
    init N k p base weight vol aid w
    = Ok (m, {| np_global := np; py_global := py |}) /\
    constructed Random g N base weight vol aid m.
Proof.
  intros Hg Hlen. unfold init, SchoolModel_init. rewrite Hg. simpl.
  unfold make_agents. simpl.
  pose proof (shuffle_length (ses_distribution N) (np_global w)) as Hsh.
  destruct (shuffle _ _) as [sd np0]. simpl in Hsh.
  match goal with
  | |- context [make_agents_loop sd 0%Z ?ns ?m0 np0] =>
      destruct (make_agents_loop_Ok ns sd 0%Z m0 np0)
        as (m' & np' & created & Hrun & Hext & Hag & Hpos & Hkeys & Hfresh)
  end.
  - lia.
  - auto.
  - simpl. intros k0 [].
  - simpl. rewrite G_nodes_NetworkGrid_init. lia.
  - rewrite Hrun. simpl. exists (setup_datacollector m'), np'.
    split; [reflexivity|]. simpl in Hag. subst created.
    destruct Hext; simpl in *.
    rewrite G_nodes_NetworkGrid_init in *.
    constructor; simpl; try assumption; try reflexivity.
Qed.

(** Whenever the constructor returns, it returns such a model. *)
Lemma SchoolModel_init_inv N k p base weight vol aid w m w' :
  init N k p base weight vol aid w = Ok (m, w') ->
  exists g py,
    watts_strogatz_graph N k p (py_global w) = Ok (g, py) /\
    py_global w' = py /\
    (length (G_nodes g) <= length (ses_distribution N))%nat /\
    constructed Random g N base weight vol aid m.
Proof.
  intros H.
  destruct (watts_strogatz_graph N k p (py_global w)) as [[g py]|e] eqn:Hg.
  2:{ erewrite SchoolModel_init_generator_raises in H by eauto. discriminate. }
  exists g, py. split; [reflexivity|].
  destruct (Nat.le_gt_cases (length (G_nodes g)) (length (ses_distribution N)))
    as [Hle|Hgt].
  - destruct (SchoolModel_init_Ok N k p base weight vol aid w g py Hg Hle)
      as (m1 & np & Hi & Hc).
    rewrite Hi in H. inversion H; subst. auto.
  - erewrite SchoolModel_init_IndexError in H by eauto. discriminate.
Qed.

End ConstructionFacts.

(** ** Invariants of a run *)

Lemma entries_evolve_Forall (P : StudentAgent -> Prop) d d' :
  (forall a a', agent_evolves a a' -> P a -> P a') ->
  Forall2 entry_evolves d d' ->
  Forall P (dict_values d) -> Forall P (dict_values d').
Proof.
  intros HP. unfold dict_values.
  induction 1 as [|x y l l' [_ He] _ IH]; simpl; intros HF; [constructor|].
  inversion HF; subst. constructor; eauto.
Qed.

Lemma agent_evolves_dropped a a' :
  agent_evolves a a' -> status a = DroppedOut -> a' = a.
Proof.
  intros [->|[Hs _]] Hd; [reflexivity | congruence].
Qed.

Lemma agent_evolves_range a a' :
  agent_evolves a a' ->
  0 <= performance a <= 100 -> 0 <= performance a' <= 100.
Proof.
  intros [->|[_ (perf & s & Hp & ->)]] H; [assumption|]. exact Hp.
Qed.

Lemma fresh_agent_range a :
  fresh_agent a -> 50 <= performance a <= 95.
Proof.
  intros [_ [z ->]]. apply np_clip_range. discriminate.
Qed.

(** C2. A student who has dropped out stays dropped out: the student's own
    [step] returns at once, leaving the model and the random stream as they
    were, and after any number of model steps the student's record (status
    and performance included) is still the same. *)
Theorem dropped_out_is_final (num_steps : nat) (m m' : SchoolModel)
  (np np' : RandomState) (ref : Z) (a : StudentAgent) :
  deref m ref = Ok a ->
  status a = DroppedOut ->
  run_steps num_steps m np = Ok (m', np') ->
  StudentAgent_step ref m np = Ok (m, np) /\
  deref m' ref = Ok a /\
  status a <> Attending.
Proof.
  intros Hd Hs Hrun. split; [|split].
  - unfold StudentAgent_step. rewrite Hd. simpl. now rewrite Hs.
  - apply run_steps_evolves in Hrun. apply deref_Ok in Hd.
    destruct (entries_evolve_get _ _ _ _ (ev_agents _ _ Hrun) Hd)
      as (a' & Hget & Hev).
    apply agent_evolves_dropped in Hev; [|assumption]. subst a'.
    now apply deref_Ok.
  - rewrite Hs. discriminate.
Qed.

Lemma dropped_out_is_final_witness :
  deref sample_model_2 1 = Ok sample_dropout /\
  status sample_dropout = DroppedOut /\
  run_steps 3 sample_model_2 sample_np_2 = Ok (sample_model_5, sample_np_5) /\
  StudentAgent_step 1 sample_model_2 sample_np_2
    = Ok (sample_model_2, sample_np_2) /\
  deref sample_model_5 1 = Ok sample_dropout.
Proof.
  assert (H1 : deref sample_model_2 1 = Ok sample_dropout) by reflexivity.
  assert (H2 : status sample_dropout = DroppedOut) by reflexivity.
  assert (H3 : run_steps 3 sample_model_2 sample_np_2
               = Ok (sample_model_5, sample_np_5)) by (vm_compute; reflexivity).
  destruct (dropped_out_is_final 3 _ _ _ _ 1%Z _ H1 H2 H3) as (H4 & H5 & _).
  repeat split; assumption.
Defined.

(** C3. After construction and after any number of calls of [step], whatever
    the random draws, every student's performance is between 0 and 100. *)
Theorem performance_always_in_range
  (watts_strogatz_graph : Z -> Z -> Q -> RandomState -> Result (Graph * RandomState))
  (Random : Z -> RandomState)
  (N k_degree : Z) (rewiring_prob base weight volatility : Q) (aid : bool)
  (w w1 : Globals) (m m' : SchoolModel) (num_steps : nat)
  (np np' : RandomState) :
  SchoolModel_init watts_strogatz_graph Random N k_degree rewiring_prob
    base weight volatility aid w = Ok (m, w1) ->
  run_steps num_steps m np = Ok (m', np') ->
  Forall (fun a => 0 <= performance a <= 100) (agents m) /\
  Forall (fun a => 0 <= performance a <= 100) (agents m').
Proof.
  intros Hinit Hrun.
  apply SchoolModel_init_inv in Hinit. destruct Hinit as (g & py & _ & _ & _ & Hc).
  assert (H0 : Forall (fun a => 0 <= performance a <= 100) (agents m)).
  { eapply Forall_impl; [|exact (co_fresh _ _ _ _ _ _ _ _ Hc)].
    intros a Ha. apply fresh_agent_range in Ha. destruct Ha. split.
    - apply Qle_trans with 50; [discriminate|assumption].
    - apply Qle_trans with 95; [assumption|discriminate]. }
  split; [exact H0|].
  apply run_steps_evolves in Hrun.
  unfold agents in *. eapply entries_evolve_Forall; [|exact (ev_agents _ _ Hrun)|exact H0].
  intros a a'. apply agent_evolves_range.
Qed.

Lemma performance_always_in_range_witness :
  sample_init = Ok (sample_model, sample_globals_1) /\
  run_steps 2 sample_model sample_np = Ok (sample_model_2, sample_np_2) /\
  Forall (fun a => 0 <= performance a <= 100) (agents sample_model) /\
  Forall (fun a => 0 <= performance a <= 100) (agents sample_model_2).
Proof.
  assert (H1 : sample_init = Ok (sample_model, sample_globals_1))
    by (vm_compute; reflexivity).
  assert (H2 : run_steps 2 sample_model sample_np
               = Ok (sample_model_2, sample_np_2)) by (vm_compute; reflexivity).
  pose proof (performance_always_in_range _ _ _ _ _ _ _ _ _ _ _ _ _ _ _ _ H1 H2)
    as [H3 H4].
  repeat split; assumption.
Defined.

(** Every round of the loop of [make_agents] takes the next draw of the
    stream for the student it creates, and appends that student. *)
Lemma make_agents_loop_draws : forall nodes sd i m np m' np',
  (forall k, In k (dict_keys (_agents (schedule m))) -> (k < i)%Z) ->
  make_agents_loop sd i nodes m np = Ok (m', np') ->
  np' = skipn (length nodes) np /\
  exists created,
    agents m' = agents m ++ created /\
    length created = length nodes /\
    forall j a, nth_error created j = Some a ->
      unique_id a = (i + Z.of_nat j)%Z /\
      status a = Attending /\
      performance a = np_clip (75 + 10 * nth j np 0) 50 95.
Proof.
  induction nodes as [|node rest IH]; intros sd i m np m' np' Hkeys H.
  - simpl in H. inversion H; subst. split; [reflexivity|].
    exists []. rewrite app_nil_r. repeat split; auto.
    all: destruct j; discriminate.
  - assert (Hnode : In node (G_nodes (G m))).
    { simpl in H. rewrite initial_normal_Ok in H. cbn [bind] in H.
      destruct (list_index sd i) as [s|e]; cbn [bind] in H; [|discriminate].
      unfold place_agent, place_in_cell, G_node_agent in H.
      cbn [G schedule_add store with_schedule] in H.
      destruct (dict_get node (_node (G m))) as [c|] eqn:Hc;
        [|cbn [bind] in H; discriminate].
      apply dict_get_In in Hc. unfold G_nodes, dict_keys.
      change node with (fst (node, c)). now apply in_map. }
    simpl in H. rewrite initial_normal_Ok in H. cbn [bind] in H.
    destruct (list_index sd i) as [s|e]; cbn [bind] in H; [|discriminate].
    match type of H with
    | context [StudentAgent_init i ?perf s] =>
        destruct (place_new_agent m i perf s node Hnode) as (m1 & Hp & _ & Hag)
    end.
    { intros k Hk. apply Hkeys in Hk. lia. }
    rewrite Hp in H. cbn [bind] in H.
    apply IH in H.
    2:{ intros k Hk. rewrite Hag in Hk. unfold dict_keys in Hk.
        rewrite map_app in Hk. apply in_app_or in Hk. destruct Hk as [Hk|Hk].
        - apply Hkeys in Hk. lia.
        - simpl in Hk. destruct Hk as [<-|[]]. lia. }
    destruct H as (Hnp & created & Hcr & Hlen & Hall).
    split.
    + rewrite Hnp. destruct np; simpl; [now rewrite !skipn_nil|reflexivity].
    + eexists (_ :: created). split; [|split].
      * rewrite Hcr. unfold agents, dict_values. rewrite Hag, map_app.
        rewrite <- app_assoc. reflexivity.
      * simpl. now rewrite Hlen.
      * intros [|j] a Ha; simpl in Ha.
        -- inversion Ha; subst a. simpl. split; [lia|]. split; [reflexivity|].
           now destruct np.
        -- destruct (Hall j a Ha) as (Hid & Hst & Hperf).
           split; [lia|]. split; [exact Hst|].
           rewrite Hperf. now destruct np; [destruct j|].
Qed.

(** C10. Right after construction there is one student per node of the
    graph, in creation order, and every one of them is attending. The
    performance of student [i] is a normal draw with mean 75 and standard
    deviation 10, namely [75 + 10 z] for the [i]-th standard normal draw [z]
    that numpy's global stream holds once the tier list has been shuffled,
    clipped to the interval from 50 to 95; it therefore lies strictly inside
    the interval from 0 to 100. One draw is taken per student. *)
Theorem initial_agents_in_50_95
  (watts_strogatz_graph : Z -> Z -> Q -> RandomState -> Result (Graph * RandomState))
  (Random : Z -> RandomState)
  (N k_degree : Z) (rewiring_prob base weight volatility : Q) (aid : bool)
  (w w1 : Globals) (m : SchoolModel) (g : Graph) (py : RandomState) :
  watts_strogatz_graph N k_degree rewiring_prob (py_global w) = Ok (g, py) ->
  SchoolModel_init watts_strogatz_graph Random N k_degree rewiring_prob
    base weight volatility aid w = Ok (m, w1) ->
  let draws := snd (shuffle (ses_distribution N) (np_global w)) in
  length (agents m) = length (G_nodes g) /\
  np_global w1 = skipn (length (agents m)) draws /\
  forall i a, nth_error (agents m) i = Some a ->
    unique_id a = Z.of_nat i /\
    status a = Attending /\
    performance a = np_clip (75 + 10 * nth i draws 0) 50 95 /\
    50 <= performance a <= 95 /\
    0 < performance a < 100.
Proof.
  intros Hg Hinit draws.
  unfold SchoolModel_init in Hinit. rewrite Hg in Hinit. cbn [bind] in Hinit.
  unfold make_agents in Hinit. cbn [n_agents G] in Hinit.
  subst draws. destruct (shuffle (ses_distribution N) (np_global w))
    as [sd np0]. cbn [snd].
  match type of Hinit with
  | context [make_agents_loop sd 0%Z ?ns ?m0 np0] =>
      destruct (make_agents_loop sd 0%Z ns m0 np0) as [[m1 np1]|e] eqn:Hloop;
        cbn [bind] in Hinit; [|discriminate]
  end.
  inversion Hinit; subst m w1. clear Hinit.
  apply make_agents_loop_draws in Hloop; [|intros k []].
  destruct Hloop as (Hnp & created & Hcr & Hlen & Hall).
  rewrite G_nodes_NetworkGrid_init in Hlen, Hnp.
  change (agents (setup_datacollector m1)) with (agents m1).
  simpl in Hcr. rewrite Hcr. cbn [np_global].
  split; [exact Hlen|]. split; [now rewrite Hlen|].
  intros i a Ha. destruct (Hall i a Ha) as (Hid & Hst & Hperf).
  split; [lia|]. split; [exact Hst|]. split; [exact Hperf|].
  assert (Hr : 50 <= performance a <= 95)
    by (rewrite Hperf; apply np_clip_range; discriminate).
  split; [exact Hr|]. destruct Hr as [Hlo Hhi]. split.
  - apply Qlt_le_trans with 50; [reflexivity|assumption].
  - apply Qle_lt_trans with 95; [assumption|reflexivity].
Qed.

Lemma initial_agents_in_50_95_witness :
  watts_strogatz_graph_p0 5 2 0 (py_global sample_globals)
  = Ok (sample_graph, []) /\
  sample_init = Ok (sample_model, sample_globals_1) /\
  length (agents sample_model) = length (G_nodes sample_graph) /\
  np_global sample_globals_1
  = skipn (length (agents sample_model))
      (snd (shuffle (ses_distribution 5) (np_global sample_globals))) /\
  forall i a, nth_error (agents sample_model) i = Some a ->
    unique_id a = Z.of_nat i /\
    status a = Attending /\
    performance a
    = np_clip (75 + 10 * nth i (snd (shuffle (ses_distribution 5)
                                       (np_global sample_globals))) 0) 50 95 /\
    50 <= performance a <= 95 /\
    0 < performance a < 100.
Proof.
  assert (H0 : watts_strogatz_graph_p0 5 2 0 (py_global sample_globals)
               = Ok (sample_graph, [])) by (vm_compute; reflexivity).
  assert (H1 : sample_init = Ok (sample_model, sample_globals_1))
    by (vm_compute; reflexivity).
  split; [exact H0|]. split; [exact H1|].
  exact (initial_agents_in_50_95 watts_strogatz_graph_p0 Random_const
           5 2 0 (1 # 4) (1 # 2) (3 # 2) true
           sample_globals sample_globals_1 sample_model sample_graph [] H0 H1).
Defined.

(** ** The tier list and the nodes *)

Lemma agents_length_keys m :
  length (agents m) = length (dict_keys (_agents (schedule m))).
Proof. unfold agents, dict_values, dict_keys. now rewrite !length_map. Qed.

Lemma constructed_agents_length Random g N base weight vol aid m :
  constructed Random g N base weight vol aid m ->
  length (agents m) = length (G_nodes g).
Proof.
  intros Hc. rewrite agents_length_keys, (co_keys _ _ _ _ _ _ _ _ Hc).
  now rewrite length_map, length_seq.
Qed.

(** C4 (as amended). The constructor does not check [N]. When the three
    tier counts [int(0.4 N)], [int(0.4 N)] and [int(0.2 N)] do not add up to
    [N] (which, for a graph of [N] nodes, is exactly when 5 does not divide
    [N]) the constructor fails with the [IndexError] of [ses_distribution[i]];
    when they do add up, it returns a model with one student per node.
    Whenever it returns, it has created all [N] students: none is dropped
    silently. *)
Theorem short_tier_list_raises_IndexError
  (watts_strogatz_graph : Z -> Z -> Q -> RandomState -> Result (Graph * RandomState))
  (Random : Z -> RandomState)
  (N k_degree : Z) (rewiring_prob base weight volatility : Q) (aid : bool)
  (w : Globals) (g : Graph) (py : RandomState) :
  watts_strogatz_graph N k_degree rewiring_prob (py_global w) = Ok (g, py) ->
  Z.of_nat (length (G_nodes g)) = N ->
  let init := SchoolModel_init watts_strogatz_graph Random N k_degree
                rewiring_prob base weight volatility aid w in
  (Z.of_nat (length (ses_distribution N)) = N <-> (N mod 5 = 0)%Z) /\
  (Z.of_nat (length (ses_distribution N)) <> N -> init = Raise IndexError) /\
  (Z.of_nat (length (ses_distribution N)) = N ->
   exists m w', init = Ok (m, w')) /\
  (forall m w', init = Ok (m, w') -> Z.of_nat (length (agents m)) = N).
Proof.
  intros Hg HN init.
  assert (H0 : (0 <= N)%Z) by lia.
  assert (Hiff : Z.of_nat (length (ses_distribution N)) = N <-> (N mod 5 = 0)%Z).
  { split; intros H.
    - destruct (Z.eq_dec (N mod 5) 0) as [E|E]; [exact E|].
      pose proof (ses_distribution_short N H0 E). lia.
    - pose proof (ses_distribution_complete N H0 H). lia. }
  split; [exact Hiff|]. split; [|split].
  - intros Hne. apply SchoolModel_init_IndexError with g py; [exact Hg|].
    assert (E : (N mod 5 <> 0)%Z) by (intros E; apply Hne, Hiff, E).
    pose proof (ses_distribution_short N H0 E). lia.
  - intros He.
    destruct (SchoolModel_init_Ok watts_strogatz_graph Random N k_degree
                rewiring_prob base weight volatility aid w g py Hg)
      as (m & np & Hi & _); [lia|].
    eauto.
  - intros m w' Hi. apply SchoolModel_init_inv in Hi.
    destruct Hi as (g' & py' & Hg' & _ & _ & Hc).
    rewrite Hg in Hg'. inversion Hg'; subst g' py'.
    rewrite (constructed_agents_length _ _ _ _ _ _ _ _ Hc). exact HN.
Qed.

Lemma short_tier_list_raises_IndexError_witness :
  watts_strogatz_graph_p0 5 2 0 (py_global sample_globals) = Ok (sample_graph, []) /\
  Z.of_nat (length (G_nodes sample_graph)) = 5%Z /\
  (Z.of_nat (length (ses_distribution 5)) = 5%Z <-> (5 mod 5 = 0)%Z) /\
  (exists m w', sample_init = Ok (m, w')).
Proof.
  assert (H1 : watts_strogatz_graph_p0 5 2 0 (py_global sample_globals)
               = Ok (sample_graph, [])) by reflexivity.
  assert (H2 : Z.of_nat (length (G_nodes sample_graph)) = 5%Z) by reflexivity.
  destruct (short_tier_list_raises_IndexError watts_strogatz_graph_p0
              Random_const 5 2 0 (1 # 4) (1 # 2) (3 # 2) true sample_globals
              sample_graph [] H1 H2) as (H3 & _ & H4 & _).
  repeat split; try assumption; try apply H3; try reflexivity.
  apply H4. reflexivity.
Defined.

(** Seven students: the tier counts are 2, 2 and 1, and construction stops
    with an [IndexError]. *)
Lemma seven_students_IndexError :
  (7 mod 5 <> 0)%Z /\
  length (ses_distribution 7) = 5%nat /\
  SchoolModel_init watts_strogatz_graph_p0 Random_const
    7 2 0 (1 # 1000) (1 # 2) (3 # 2) false sample_globals = Raise IndexError.
Proof.
  split; [discriminate|]. split; [reflexivity|]. vm_compute. reflexivity.
Qed.

(** ** The library's graphs are simple *)

Lemma py_range_NoDup N : NoDup (py_range N).
Proof.
  unfold py_range. apply Injective_map_NoDup.
  - intros x y. apply Nat2Z.inj.
  - apply seq_NoDup.
Qed.

Lemma py_range_In N v : In v (py_range N) <-> (0 <= v < N)%Z.
Proof.
  unfold py_range. rewrite in_map_iff. split.
  - intros (j & <- & Hj). apply in_seq in Hj. lia.
  - intros Hv. exists (Z.to_nat v). split; [lia|]. apply in_seq. lia.
Qed.

Lemma existsb_Zeqb x l : existsb (Z.eqb x) l = true <-> In x l.
Proof.
  rewrite existsb_exists. split.
  - intros (y & Hy & E). apply Z.eqb_eq in E. now subst.
  - intros H. exists x. split; [exact H|apply Z.eqb_refl].
Qed.



Lemma dict_get_keys {V : Type} k (v : V) d :
  dict_get k d = Some v -> In k (dict_keys d).
Proof.
  intros H. apply dict_get_In in H. unfold dict_keys.
  change k with (fst (k, v)). now apply in_map.
Qed.

Lemma In_dict_get {V : Type} k (v : V) d :
  NoDup (dict_keys d) -> In (k, v) d -> dict_get k d = Some v.
Proof.
  unfold dict_keys. induction d as [|[k' v'] d IH]; simpl; intros Hnd H;
    [contradiction|].
  inversion Hnd as [|? ? Hnotin Hnd']; subst.
  destruct H as [[= -> ->]|H].
  - now rewrite Z.eqb_refl.
  - destruct (Z.eqb_spec k k') as [->|Hne]; [|now apply IH].
    exfalso. apply Hnotin. change k' with (fst (k', v)). now apply in_map.
Qed.

Lemma nbrs_In adj x y : In y (nbrs adj x) -> In x (dict_keys adj).
Proof.
  unfold nbrs. destruct (dict_get x adj) as [l|] eqn:E; [|contradiction].
  intros _. eapply dict_get_keys; eauto.
Qed.

























Lemma good_graph_closed n g : good_graph n g -> graph_closed g n = true.
Proof.
  intros [Hnode Hadj Hnd Hirr Hsym].
  assert (Hkeys : NoDup (dict_keys (_adj g)))
    by (rewrite Hadj; apply py_range_NoDup).
  unfold graph_closed, G_nodes. rewrite Hnode. rewrite !andb_true_iff.
  split; [split|].
  - now destruct (list_eq_dec Z.eq_dec (py_range n) (py_range n)).
  - apply forallb_forall. intros x Hx. rewrite <- Hadj in Hx.
    destruct (dict_get_present _ _ Hx) as [l ->]. reflexivity.
  - apply forallb_forall. intros [u l] Hul. cbn [snd].
    apply In_dict_get in Hul; [|exact Hkeys].
    apply forallb_forall. intros v Hv. apply existsb_Zeqb.
    assert (Hv' : In v (nbrs (_adj g) u)) by (unfold nbrs; now rewrite Hul).
    apply Hsym, nbrs_In in Hv'. now rewrite <- Hadj.
Qed.

(** ** The graph *)



(** The library routine at work on a run that rewires every edge of the
    six-node ring, one target being drawn twice: the graph it returns is no
    longer the ring, and it is simple. *)
Lemma library_rewires :
  nx_watts_strogatz_graph 5 6 2 1 rewiring_draws = Some (Ok (rewired_graph, []))
  /\ _adj rewired_graph
     = [(0, [3; 2]); (1, [4; 3]); (2, [0; 4]); (3, [0; 1; 5]); (4, [1; 2]);
        (5, [3])]%Z
  /\ simple_graph rewired_graph = true.
Proof.
  split; [vm_compute; reflexivity|]. split; reflexivity.
Qed.

(** [k_degree = N] is accepted as well: the library returns the complete
    graph, and the constructor a model on it. *)
Lemma k_degree_equal_to_N_is_accepted :
  nx_watts_strogatz_graph 0 5 5 0 (py_global sample_globals)
  = Some (Ok (complete_graph 5, [])) /\
  exists m w1,
    SchoolModel_init watts_strogatz_graph_p0 Random_const
      5 5 0 (1 # 1000) (1 # 2) (3 # 2) false sample_globals = Ok (m, w1) /\
    _adj (G m) = _adj (complete_graph 5).
Proof.
  split; [vm_compute; reflexivity|].
  eexists. eexists. split; [vm_compute; reflexivity|reflexivity].
Qed.


(** ** Reproducibility *)

(** The model's own generator is always [random.Random(42)], whatever the
    global generators hold. *)
Lemma model_seed_is_42
  (watts_strogatz_graph : Z -> Z -> Q -> RandomState -> Result (Graph * RandomState))
  (Random : Z -> RandomState)
  (N k_degree : Z) (rewiring_prob base weight volatility : Q) (aid : bool)
  (w w1 : Globals) (m : SchoolModel) :
  SchoolModel_init watts_strogatz_graph Random N k_degree rewiring_prob
    base weight volatility aid w = Ok (m, w1) ->
  random m = Random 42%Z.
Proof.
  intros Hinit. apply SchoolModel_init_inv in Hinit.
  destruct Hinit as (g & py & _ & _ & _ & Hc).
  exact (co_random _ _ _ _ _ _ _ _ Hc).
Qed.

(** C6 (as amended). The constructor takes no seed. Two models built with
    identical parameters, for which the graph library returned the same
    graph, and which start from the same state of numpy's global generator,
    collect identical tables when stepped the same number of times. This is
    so in particular when both global generators start in identical states.
    The seed 42 of the model's own generator is the same in every model and
    plays no part in the comparison. *)
Theorem same_generator_states_same_metrics
  (watts_strogatz_graph : Z -> Z -> Q -> RandomState -> Result (Graph * RandomState))
  (Random : Z -> RandomState)
  (N k_degree : Z) (rewiring_prob base weight volatility : Q) (aid : bool)
  (num_steps : nat) (w1 w2 : Globals) (g : Graph) (py1 py2 : RandomState) :
  watts_strogatz_graph N k_degree rewiring_prob (py_global w1) = Ok (g, py1) ->
  watts_strogatz_graph N k_degree rewiring_prob (py_global w2) = Ok (g, py2) ->
  np_global w1 = np_global w2 ->
  rows_of (run_trial watts_strogatz_graph Random N k_degree rewiring_prob
             base weight volatility aid num_steps w1)
  = rows_of (run_trial watts_strogatz_graph Random N k_degree rewiring_prob
               base weight volatility aid num_steps w2).
Proof.
  intros H1 H2 Hnp. unfold run_trial, SchoolModel_init.
  rewrite H1, H2, Hnp. cbn [bind].
  destruct (make_agents _ (np_global w2)) as [[m np]|e]; cbn [bind];
    [|reflexivity].
  simpl np_global.
  destruct (run_steps num_steps (setup_datacollector m) np) as [[m' np']|e];
    reflexivity.
Qed.

Lemma same_generator_states_same_metrics_witness :
  watts_strogatz_graph_p0 5 2 0 (py_global sample_globals)
    = Ok (sample_graph, []) /\
  watts_strogatz_graph_p0 5 2 0 (py_global sample_globals_py)
    = Ok (sample_graph, []) /\
  np_global sample_globals = np_global sample_globals_py /\
  rows_of (run_trial watts_strogatz_graph_p0 Random_const 5 2 0
             (1 # 4) (1 # 2) (3 # 2) true 3 sample_globals)
  = rows_of (run_trial watts_strogatz_graph_p0 Random_const 5 2 0
               (1 # 4) (1 # 2) (3 # 2) true 3 sample_globals_py).
Proof.
  assert (H1 : watts_strogatz_graph_p0 5 2 0 (py_global sample_globals)
               = Ok (sample_graph, [])) by reflexivity.
  assert (H2 : watts_strogatz_graph_p0 5 2 0 (py_global sample_globals_py)
               = Ok (sample_graph, [])) by reflexivity.
  assert (H3 : np_global sample_globals = np_global sample_globals_py)
    by reflexivity.
  split; [exact H1|]. split; [exact H2|]. split; [exact H3|].
  exact (same_generator_states_same_metrics watts_strogatz_graph_p0 Random_const
           5 2 0 (1 # 4) (1 # 2) (3 # 2) true 3 sample_globals sample_globals_py
           sample_graph [] [] H1 H2 H3).
Defined.

(** Identical parameters and the identical seed 42 do not make two models
    agree: with other draws coming from numpy's global generator, the second
    model's table differs from the first one's already in its second row. *)
Lemma same_seed_different_metrics :
  exists rows1 rows2 w1' w2',
    run_trial watts_strogatz_graph_p0 Random_const 5 2 0 (1 # 4) (1 # 2) (3 # 2)
      true 3 sample_globals = Ok (rows1, w1') /\
    run_trial watts_strogatz_graph_p0 Random_const 5 2 0 (1 # 4) (1 # 2) (3 # 2)
      true 3 other_globals = Ok (rows2, w2') /\
    py_global sample_globals = py_global other_globals /\
    map total_dropout_rate rows1 = [0 # 5; 100 # 5; 300 # 5] /\
    map total_dropout_rate rows2 = [0 # 5; 0 # 5; 0 # 5] /\
    ~ (100 # 5 == 0 # 5) /\
    rows1 <> rows2.
Proof.
  eexists _, _, _, _.
  split; [vm_compute; reflexivity|].
  split; [vm_compute; reflexivity|].
  split; [reflexivity|].
  split; [reflexivity|].
  split; [reflexivity|].
  split; discriminate.
Qed.

(** ** The accessors *)

Lemma dropout_count_spec l :
  dropout_count l = Z.of_nat (num_with_status DroppedOut l).
Proof.
  unfold dropout_count, num_with_status. f_equal.
  induction l as [|a l IH]; simpl; [reflexivity|].
  unfold is_dropped_out at 1.
  destruct (status a); simpl.
  - destruct (Status_eq_dec Attending DroppedOut); [discriminate|exact IH].
  - destruct (Status_eq_dec DroppedOut DroppedOut); [|congruence].
    simpl. now rewrite IH.
Qed.

Lemma dropout_count_bounds l : (0 <= dropout_count l <= Z.of_nat (length l))%Z.
Proof.
  unfold dropout_count. pose proof (filter_length_le is_dropped_out l). lia.
Qed.

Lemma percent_range (c n : Z) :
  (0 <= c <= n)%Z -> (0 < n)%Z ->
  0 <= inject_Z c / inject_Z n * 100 <= 100.
Proof.
  intros [Hc Hcn] Hn.
  assert (Hn' : 0 < inject_Z n) by (change 0 with (inject_Z 0); now rewrite <- Zlt_Qlt).
  assert (H0 : 0 <= inject_Z c / inject_Z n).
  { apply Qle_shift_div_l; [assumption|]. rewrite Qmult_0_l.
    change 0 with (inject_Z 0). now rewrite <- Zle_Qle. }
  assert (H1 : inject_Z c / inject_Z n <= 1).
  { apply Qle_shift_div_r; [assumption|]. rewrite Qmult_1_l.
    now rewrite <- Zle_Qle. }
  set (x := inject_Z c / inject_Z n) in *. split; lra.
Qed.

Lemma get_dropout_by_ses_range m ses_level :
  0 <= get_dropout_by_ses m ses_level <= 100.
Proof.
  unfold get_dropout_by_ses.
  destruct (filter _ (agents m)) as [|a l] eqn:E; [split; discriminate|].
  apply percent_range.
  - apply dropout_count_bounds.
  - simpl. lia.
Qed.

(** C7. The total dropout rate is the number of dropped-out students
    divided by [N], times 100; the rate of a tier is the percentage of the
    tier's students that have dropped out, and 0 for an empty tier; both lie
    between 0 and 100. The accessors only read the model (they return a
    number and nothing else), and the collector that calls them leaves
    everything but its own table as it was. *)
Theorem dropout_rate_accessors (m : SchoolModel) (ses_level : Z) :
  n_agents m = Z.of_nat (length (agents m)) ->
  (0 < n_agents m)%Z ->
  let tier := filter (fun a => Z.eqb (ses a) ses_level) (agents m) in
  (exists r,
      get_dropout_rate m = Ok r /\
      r = inject_Z (Z.of_nat (num_with_status DroppedOut (agents m)))
          / inject_Z (n_agents m) * 100 /\
      0 <= r <= 100) /\
  (tier = [] -> get_dropout_by_ses m ses_level = 0) /\
  (tier <> [] ->
   get_dropout_by_ses m ses_level
   = inject_Z (Z.of_nat (num_with_status DroppedOut tier))
     / inject_Z (Z.of_nat (length tier)) * 100) /\
  0 <= get_dropout_by_ses m ses_level <= 100 /\
  (exists m',
      datacollector_collect m = Ok m' /\
      m' = with_datacollector m (datacollector m') /\
      agents m' = agents m).
Proof.
  intros Hlen Hpos tier.
  assert (Hrate : get_dropout_rate m
                  = Ok (inject_Z (dropout_count (agents m))
                        / inject_Z (n_agents m) * 100)).
  { unfold get_dropout_rate. destruct (Z.eqb_spec (n_agents m) 0); [lia|reflexivity]. }
  split; [|split; [|split; [|split]]].
  - eexists. split; [exact Hrate|]. split.
    + now rewrite dropout_count_spec.
    + apply percent_range; [|assumption].
      rewrite Hlen. apply dropout_count_bounds.
  - intros Ht. unfold get_dropout_by_ses. fold tier. now rewrite Ht.
  - intros Ht. unfold get_dropout_by_ses. fold tier.
    destruct tier as [|a l]; [congruence|].
    now rewrite dropout_count_spec.
  - apply get_dropout_by_ses_range.
  - unfold datacollector_collect, model_reporters. rewrite Hrate. simpl.
    eexists. split; [reflexivity|]. split; reflexivity.
Qed.

Lemma dropout_rate_accessors_witness :
  n_agents sample_model_2 = Z.of_nat (length (agents sample_model_2)) /\
  (0 < n_agents sample_model_2)%Z /\
  get_dropout_rate sample_model_2 = Ok (inject_Z 3 / inject_Z 5 * 100) /\
  get_dropout_by_ses sample_model_2 7 = 0 /\
  0 <= get_dropout_by_ses sample_model_2 LOW_SES <= 100.
Proof.
  assert (H1 : n_agents sample_model_2 = Z.of_nat (length (agents sample_model_2)))
    by reflexivity.
  assert (H2 : (0 < n_agents sample_model_2)%Z) by reflexivity.
  destruct (dropout_rate_accessors sample_model_2 7 H1 H2)
    as ((r & Hr & Hv & _) & Hempty & _).
  destruct (dropout_rate_accessors sample_model_2 LOW_SES H1 H2)
    as (_ & _ & _ & Hrange & _).
  split; [exact H1|]. split; [exact H2|]. split; [|split].
  - rewrite Hr, Hv. reflexivity.
  - apply Hempty. reflexivity.
  - exact Hrange.
Defined.

(** ** Financial aid *)

Lemma count_dropped_out_nonneg m : forall nodes c0 c,
  count_dropped_out m nodes c0 = Ok c -> (c0 <= c)%Z.
Proof.
  induction nodes as [|n nodes IH]; simpl; intros c0 c H.
  - inversion H. lia.
  - destruct (G_node_agent (G m) n) as [[|ref refs]|e]; simpl in H; try discriminate.
    destruct (deref m ref) as [b|e]; simpl in H; [|discriminate].
    destruct (Status_eqb (status b) DroppedOut); apply IH in H; lia.
Qed.

Lemma peer_influence_score_nonneg m pos score :
  peer_influence_score m pos = Ok score -> 0 <= score.
Proof.
  unfold peer_influence_score.
  destruct (get_neighbors (G m) pos) as [[|n l]|e]; cbn [bind]; try discriminate.
  - intros [= <-]. apply Qle_refl.
  - destruct (count_dropped_out m (n :: l) 0) as [c|e] eqn:E; cbn [bind];
      [|discriminate].
    intros [= <-]. apply count_dropped_out_nonneg in E.
    apply Qle_shift_div_l.
    + change 0 with (inject_Z 0). rewrite <- Zlt_Qlt. simpl length. lia.
    + rewrite Qmult_0_l. change 0 with (inject_Z 0). now rewrite <- Zle_Qle.
Qed.

(** The score reads the graph and the students, nothing else. *)
Lemma count_dropped_out_ext m m' :
  G m = G m' -> schedule m = schedule m' ->
  forall nodes c, count_dropped_out m nodes c = count_dropped_out m' nodes c.
Proof.
  intros HG Hs. induction nodes as [|n nodes IH]; intros c; simpl; [reflexivity|].
  rewrite HG. destruct (G_node_agent (G m') n) as [[|ref refs]|e]; simpl; auto.
  unfold deref. rewrite Hs.
  destruct (dict_get ref (_agents (schedule m'))); simpl; auto.
  destruct (Status_eqb _ _); apply IH.
Qed.

Lemma peer_influence_score_ext m m' pos :
  G m = G m' -> schedule m = schedule m' ->
  peer_influence_score m pos = peer_influence_score m' pos.
Proof.
  intros HG Hs. unfold peer_influence_score. rewrite HG.
  destruct (get_neighbors (G m') pos) as [[|n l]|e]; cbn [bind]; auto.
  now rewrite (count_dropped_out_ext m m' HG Hs).
Qed.

Lemma p_drop_combined_nonneg m risk score :
  0 <= base_dropout_rate m -> 0 <= peer_influence_weight m <= 1 ->
  0 <= risk -> 0 <= score ->
  0 <= p_drop_combined m risk score.
Proof.
  intros Hb [Hw0 Hw1] Hr Hs. unfold p_drop_combined.
  assert (0 <= risk * (1 - peer_influence_weight m))
    by (apply Qmult_le_0_compat; [assumption|lra]).
  assert (0 <= score * peer_influence_weight m)
    by (apply Qmult_le_0_compat; assumption).
  lra.
Qed.

(** C8. With a non-negative base rate and a peer weight between 0 and 1,
    and for the same student in the same surroundings, switching the
    financial aid policy on multiplies the dropout probability of a Low-SES
    student by [1 - 0.4], which never makes it larger; for a student of any
    other tier the policy changes nothing. *)
Theorem financial_aid_never_raises_p_drop (m : SchoolModel) (a : StudentAgent)
  (p_on p_off : Q) :
  0 <= base_dropout_rate m ->
  0 <= peer_influence_weight m <= 1 ->
  p_drop (with_financial_aid m true) a = Ok p_on ->
  p_drop (with_financial_aid m false) a = Ok p_off ->
  (ses a = LOW_SES ->
   p_on = p_off * (1 - FINANCIAL_AID_EFFECTIVENESS) /\ p_on <= p_off) /\
  (ses a <> LOW_SES -> p_on = p_off).
Proof.
  intros Hb Hw Hon Hoff. unfold p_drop in Hon, Hoff.
  rewrite (peer_influence_score_ext (with_financial_aid m true) m) in Hon
    by reflexivity.
  rewrite (peer_influence_score_ext (with_financial_aid m false) m) in Hoff
    by reflexivity.
  destruct (peer_influence_score m (pos a)) as [score|e] eqn:Hs;
    simpl in Hon, Hoff; [|discriminate].
  inversion Hon as [Hon']. inversion Hoff as [Hoff']. clear Hon Hoff.
  unfold apply_intervention. simpl.
  change (p_drop_combined (with_financial_aid m true))
    with (p_drop_combined m).
  change (p_drop_combined (with_financial_aid m false))
    with (p_drop_combined m).
  set (p := p_drop_combined m (performance_risk (performance a)) score).
  assert (Hp : 0 <= p).
  { apply p_drop_combined_nonneg; try assumption.
    - apply performance_risk_nonneg.
    - eapply peer_influence_score_nonneg; eauto. }
  split.
  - intros Hlow. rewrite Hlow. simpl. split; [reflexivity|].
    unfold FINANCIAL_AID_EFFECTIVENESS. lra.
  - intros Hne. destruct (Z.eqb_spec (ses a) LOW_SES); [contradiction|reflexivity].
Qed.

Lemma financial_aid_never_raises_p_drop_witness :
  0 <= base_dropout_rate sample_model_2 /\
  0 <= peer_influence_weight sample_model_2 <= 1 /\
  deref sample_model_2 0 = Ok sample_low /\
  p_drop (with_financial_aid sample_model_2 true) sample_low = Ok sample_p_on /\
  p_drop (with_financial_aid sample_model_2 false) sample_low = Ok sample_p_off /\
  sample_p_off == 3 # 4 /\
  sample_p_on <= sample_p_off.
Proof.
  assert (H1 : 0 <= base_dropout_rate sample_model_2) by discriminate.
  assert (H2 : 0 <= peer_influence_weight sample_model_2 <= 1)
    by (split; discriminate).
  assert (H3 : p_drop (with_financial_aid sample_model_2 true) sample_low
               = Ok sample_p_on) by (vm_compute; reflexivity).
  assert (H4 : p_drop (with_financial_aid sample_model_2 false) sample_low
               = Ok sample_p_off) by (vm_compute; reflexivity).
  destruct (financial_aid_never_raises_p_drop sample_model_2 sample_low
              sample_p_on sample_p_off H1 H2 H3 H4) as [Hlow _].
  destruct (Hlow eq_refl) as [_ Hle].
  repeat split; try assumption; try reflexivity; try discriminate.
Defined.

(** ** The step counter and the order of collection *)

Lemma same_bookkeeping_refl m : same_bookkeeping m m.
Proof. constructor; reflexivity. Qed.

Lemma same_bookkeeping_trans m1 m2 m3 :
  same_bookkeeping m1 m2 -> same_bookkeeping m2 m3 -> same_bookkeeping m1 m3.
Proof. intros [] []. constructor; congruence. Qed.

Lemma same_bookkeeping_store m ref a : same_bookkeeping m (store m ref a).
Proof. constructor; reflexivity. Qed.

Lemma StudentAgent_step_bookkeeping self m np m' np' :
  StudentAgent_step self m np = Ok (m', np') -> same_bookkeeping m m'.
Proof.
  intros H. apply StudentAgent_step_inv in H.
  destruct H as (a & Ha & [(_ & -> & _) | (Hs & z & np1 & p & _ & _ & _ & Hm)]).
  - apply same_bookkeeping_refl.
  - destruct (Qltb _ p); subst m'.
    + eapply same_bookkeeping_trans; apply same_bookkeeping_store.
    + apply same_bookkeeping_store.
Qed.

Lemma do_each_step_bookkeeping keys : forall m np m' np',
  do_each_step keys m np = Ok (m', np') -> same_bookkeeping m m'.
Proof.
  induction keys as [|k keys IH]; simpl; intros m np m' np' H.
  - inversion H; subst. apply same_bookkeeping_refl.
  - destruct (dict_get k _).
    + destruct (StudentAgent_step k m np) as [[m1 np1]|e] eqn:E; simpl in H;
        [|discriminate].
      eapply same_bookkeeping_trans;
        [eapply StudentAgent_step_bookkeeping; eauto|eauto].
    + eauto.
Qed.

(** One call of [step]: the counter goes up by one and exactly one row is
    appended, the row of reporters evaluated on the state [step] was called
    in. *)
Lemma SchoolModel_step_inv m np m' np' :
  SchoolModel_step m np = Ok (m', np') ->
  steps m' = (steps m + 1)%Z /\
  schedule_steps (schedule m') = (schedule_steps (schedule m) + 1)%Z /\
  exists row,
    model_reporters m = Ok row /\
    model_vars (datacollector m') = model_vars (datacollector m) ++ [row].
Proof.
  unfold SchoolModel_step, datacollector_collect.
  change (model_reporters (with_steps m (steps m + 1)%Z))
    with (model_reporters m).
  destruct (model_reporters m) as [row|e]; cbn [bind]; [|discriminate].
  unfold schedule_step. destruct (shuffle _ _) as [keys r].
  match goal with
  | |- context [do_each_step keys ?m0 np] =>
      destruct (do_each_step keys m0 np) as [[m1 np1]|e] eqn:E; cbn [bind];
        [|discriminate]
  end.
  intros [= <- <-]. apply do_each_step_bookkeeping in E. destruct E as [E1 E2 E3 E4].
  simpl in *. split; [exact E1|]. split; [now rewrite E4|].
  exists row. split; [reflexivity|]. now rewrite E2.
Qed.

Lemma run_steps_counts n : forall m np m' np',
  run_steps n m np = Ok (m', np') ->
  steps m' = (steps m + Z.of_nat n)%Z /\
  length (model_vars (datacollector m'))
  = (length (model_vars (datacollector m)) + n)%nat.
Proof.
  induction n as [|n IH]; intros m np m' np' H.
  - simpl in H. inversion H; subst. split; [lia|lia].
  - simpl in H.
    destruct (SchoolModel_step m np) as [[m1 np1]|e] eqn:E; cbn [bind] in H;
      [|discriminate].
    apply SchoolModel_step_inv in E. destruct E as (E1 & _ & row & _ & E2).
    apply IH in H. destruct H as [H1 H2]. rewrite H1, H2, E1, E2.
    rewrite length_app. simpl. split; lia.
Qed.

(** C9. The counter is 0 after construction and every call of [step] adds
    exactly one to it. Each call first collects a row and only then lets the
    agents act: the row collected by call number [k + 1] is the reporters'
    reading of the state left by the first [k] calls, and it is row [k]
    (counting from 0) of the table. *)
Theorem step_counter_and_snapshot_order
  (watts_strogatz_graph : Z -> Z -> Q -> RandomState -> Result (Graph * RandomState))
  (Random : Z -> RandomState)
  (N k_degree : Z) (rewiring_prob base weight volatility : Q) (aid : bool)
  (w w0 : Globals) (m0 mk m' : SchoolModel) (k : nat)
  (np0 npk np' : RandomState) :
  SchoolModel_init watts_strogatz_graph Random N k_degree rewiring_prob
    base weight volatility aid w = Ok (m0, w0) ->
  run_steps k m0 np0 = Ok (mk, npk) ->
  SchoolModel_step mk npk = Ok (m', np') ->
  steps m0 = 0%Z /\
  steps mk = Z.of_nat k /\
  steps m' = (steps mk + 1)%Z /\
  exists row,
    model_reporters mk = Ok row /\
    model_vars (datacollector m') = model_vars (datacollector mk) ++ [row] /\
    nth_error (model_vars (datacollector m')) k = Some row.
Proof.
  intros Hinit Hrun Hstep.
  apply SchoolModel_init_inv in Hinit. destruct Hinit as (g & py & _ & _ & _ & Hc).
  pose proof (co_steps _ _ _ _ _ _ _ _ Hc) as H0.
  pose proof (co_model_vars _ _ _ _ _ _ _ _ Hc) as Hv.
  apply run_steps_counts in Hrun. destruct Hrun as [Hk Hlen].
  rewrite H0 in Hk. rewrite Hv in Hlen. simpl in Hlen.
  apply SchoolModel_step_inv in Hstep. destruct Hstep as (Hs & _ & row & Hrow & Hvars).
  split; [exact H0|]. split; [lia|]. split; [exact Hs|].
  exists row. split; [exact Hrow|]. split; [exact Hvars|].
  rewrite Hvars, nth_error_app2 by lia.
  rewrite Hlen, Nat.sub_diag. reflexivity.
Qed.

Lemma step_counter_and_snapshot_order_witness :
  sample_init = Ok (sample_model, sample_globals_1) /\
  run_steps 2 sample_model sample_np = Ok (sample_model_2, sample_np_2) /\
  SchoolModel_step sample_model_2 sample_np_2 = Ok (sample_model_3, sample_np_3) /\
  steps sample_model = 0%Z /\
  steps sample_model_2 = 2%Z /\
  steps sample_model_3 = 3%Z /\
  option_map total_dropout_rate
    (nth_error (model_vars (datacollector sample_model_3)) 2)
  = option_map total_dropout_rate
      (match model_reporters sample_model_2 with
       | Ok row => Some row
       | Raise _ => None
       end).
Proof.
  assert (H1 : sample_init = Ok (sample_model, sample_globals_1))
    by (vm_compute; reflexivity).
  assert (H2 : run_steps 2 sample_model sample_np
               = Ok (sample_model_2, sample_np_2)) by (vm_compute; reflexivity).
  assert (H3 : SchoolModel_step sample_model_2 sample_np_2
               = Ok (sample_model_3, sample_np_3)) by (vm_compute; reflexivity).
  destruct (step_counter_and_snapshot_order _ _ _ _ _ _ _ _ _ _ _ _ _ _ _ _ _ _
              H1 H2 H3) as (E0 & Ek & E' & row & Hrow & _ & Hnth).
  split; [exact H1|]. split; [exact H2|]. split; [exact H3|].
  split; [exact E0|]. split; [exact Ek|]. split; [rewrite E', Ek; reflexivity|].
  now rewrite Hnth, Hrow.
Defined.

(** ** The dropout probability *)

Lemma py_max_Qmax x : py_max 0 x = Qmax 0 x.
Proof.
  unfold py_max, Qmax, GenericMinMax.gmax.
  destruct (Qcompare_spec 0 x) as [H|H|H].
  - assert (E : Qltb 0 x = false) by (apply Qltb_ge; rewrite H; apply Qle_refl).
    now rewrite E.
  - apply Qltb_lt in H. now rewrite H.
  - assert (E : Qltb 0 x = false) by (apply Qltb_ge; now apply Qlt_le_weak).
    now rewrite E.
Qed.

Lemma performance_risk_spec x : performance_risk x = spec_performance_risk x.
Proof.
  unfold performance_risk, spec_performance_risk, PERFORMANCE_THRESHOLD.
  now rewrite py_max_Qmax.
Qed.

Lemma grid_consistent_cell m node c :
  grid_consistent m = true ->
  G_node_agent (G m) node = Ok c -> c = [node].
Proof.
  unfold grid_consistent, G_node_agent. intros H Hc.
  destruct (dict_get node (_node (G m))) as [c'|] eqn:E; [|discriminate].
  inversion Hc; subst c'. apply dict_get_In in E.
  rewrite forallb_forall in H. specialize (H _ E). simpl in H.
  destruct c as [|ref [|]]; try discriminate.
  apply Z.eqb_eq in H. now subst.
Qed.

(** On a consistent grid the neighbours are listed by their nodes' labels. *)
Lemma get_cell_list_contents_consistent m : forall cells refs,
  grid_consistent m = true ->
  get_cell_list_contents (G m) cells = Ok refs -> refs = cells.
Proof.
  induction cells as [|v cells IH]; simpl; intros refs Hc H.
  - now inversion H.
  - destruct (G_node_agent (G m) v) as [c|e] eqn:E; cbn [bind] in H; [|discriminate].
    destruct (get_cell_list_contents (G m) cells) as [cs|e]; cbn [bind] in H;
      [|discriminate].
    inversion H; subst refs.
    rewrite (grid_consistent_cell m v c Hc E), (IH cs Hc eq_refl). reflexivity.
Qed.

Lemma num_with_status_cons s a l :
  num_with_status s (a :: l)
  = ((if Status_eqb (status a) s then 1 else 0) + num_with_status s l)%nat.
Proof.
  unfold num_with_status. simpl.
  destruct (Status_eq_dec (status a) s) as [E|E].
  - rewrite E. destruct s; reflexivity.
  - destruct (status a), s; try congruence; reflexivity.
Qed.

(** The counting loop, on a consistent grid, counts the dropped-out students
    among those standing on the listed nodes. *)
Lemma count_dropped_out_consistent m : forall nodes c0 c,
  grid_consistent m = true ->
  count_dropped_out m nodes c0 = Ok c ->
  exists neighbours,
    Forall2 (fun node b => dict_get node (_agents (schedule m)) = Some b)
      nodes neighbours /\
    c = (c0 + Z.of_nat (num_with_status DroppedOut neighbours))%Z.
Proof.
  induction nodes as [|v nodes IH]; simpl; intros c0 c Hc H.
  - inversion H; subst. exists []. split; [constructor|]. simpl. lia.
  - destruct (G_node_agent (G m) v) as [cell|e] eqn:E; cbn [bind] in H;
      [|discriminate].
    rewrite (grid_consistent_cell m v cell Hc E) in H.
    destruct (deref m v) as [b|e] eqn:Hb; cbn [bind] in H; [|discriminate].
    apply deref_Ok in Hb.
    destruct (Status_eqb (status b) DroppedOut) eqn:Hs;
      apply IH in H; try assumption;
      destruct H as (nb & HF & ->);
      exists (b :: nb); (split; [constructor; assumption|]);
      rewrite num_with_status_cons, Hs; lia.
Qed.

(** Updating a student's performance changes nobody's status. *)
Lemma count_dropped_out_store m self a perf :
  deref m self = Ok a ->
  forall nodes c0,
    count_dropped_out (store m self (set_performance a perf)) nodes c0
    = count_dropped_out m nodes c0.
Proof.
  intros Ha. induction nodes as [|v nodes IH]; intros c0; simpl; [reflexivity|].
  destruct (G_node_agent (G m) v) as [[|ref refs]|e]; cbn [bind]; auto.
  destruct (Z.eq_dec self ref) as [->|Hne].
  - rewrite deref_store_eq, Ha. cbn [bind]. simpl status.
    destruct (Status_eqb (status a) DroppedOut); apply IH.
  - rewrite deref_store_neq by assumption.
    destruct (deref m ref) as [b|e]; cbn [bind]; auto.
    destruct (Status_eqb (status b) DroppedOut); apply IH.
Qed.

Lemma peer_influence_score_spec m self a perf score :
  grid_consistent m = true ->
  deref m self = Ok a ->
  peer_influence_score (store m self (set_performance a perf)) (pos a) = Ok score ->
  exists neighbours,
    neighbours_of m a neighbours /\
    score = spec_peer_influence_score neighbours.
Proof.
  intros Hc Ha. unfold peer_influence_score, get_neighbors. simpl G.
  destruct (G_neighbors (G m) (pos a)) as [nodes|e] eqn:Hn; cbn [bind];
    [|discriminate].
  destruct (get_cell_list_contents (G m) nodes) as [refs|e] eqn:Hr; cbn [bind];
    [|discriminate].
  apply get_cell_list_contents_consistent in Hr; [|assumption]. subst refs.
  destruct nodes as [|v nodes].
  - intros [= <-]. exists []. split; [|reflexivity].
    exists []. split; [assumption|constructor].
  - rewrite (count_dropped_out_store m self a perf Ha).
    destruct (count_dropped_out m (v :: nodes) 0) as [c|e] eqn:Hcount;
      cbn [bind]; [|discriminate].
    intros [= <-].
    apply count_dropped_out_consistent in Hcount; [|assumption].
    destruct Hcount as (nb & HF & ->).
    exists nb. split; [exists (v :: nodes); split; assumption|].
    pose proof (Forall2_length HF) as Hlen.
    destruct nb as [|b nb]; [discriminate|].
    unfold spec_peer_influence_score. rewrite <- Hlen. reflexivity.
Qed.

(** ** On a well-formed model every step returns *)

Lemma well_formed_parts m :
  well_formed m = true ->
  grid_consistent m = true /\
  Qltb (performance_volatility m) 0 = false /\
  (forall k a, dict_get k (_agents (schedule m)) = Some a ->
               exists n l, pos a = Some n /\ dict_get n (_adj (G m)) = Some l) /\
  (forall u l v, dict_get u (_adj (G m)) = Some l -> In v l ->
                 is_some (dict_get v (_node (G m))) = true /\
                 is_some (dict_get v (_agents (schedule m))) = true).
Proof.
  unfold well_formed. rewrite !andb_true_iff, negb_true_iff.
  intros [[[H1 H2] H3] H4].
  split; [exact H1|]. split; [exact H2|]. split.
  - intros k a Hk. apply dict_get_In in Hk.
    rewrite forallb_forall in H3. specialize (H3 _ Hk). simpl in H3.
    destruct (pos a) as [n|]; [|discriminate].
    destruct (dict_get n (_adj (G m))) as [l|] eqn:E; [|discriminate]. eauto.
  - intros u l v Hu Hv. apply dict_get_In in Hu. rewrite forallb_forall in H4.
    specialize (H4 _ Hu). simpl in H4. rewrite forallb_forall in H4.
    specialize (H4 _ Hv). now apply andb_true_iff in H4.
Qed.

Lemma get_cell_list_contents_total g : forall cells,
  (forall v, In v cells -> is_some (dict_get v (_node g)) = true) ->
  exists refs, get_cell_list_contents g cells = Ok refs.
Proof.
  induction cells as [|v cells IH]; simpl; intros H; [eauto|].
  unfold G_node_agent.
  destruct (dict_get v (_node g)) as [c|] eqn:E.
  2:{ specialize (H v (or_introl eq_refl)). rewrite E in H. discriminate. }
  cbn [bind]. destruct IH as [cs Hcs]; [auto|]. rewrite Hcs. cbn [bind]. eauto.
Qed.

Lemma count_dropped_out_total m : forall nodes c0,
  grid_consistent m = true ->
  (forall v, In v nodes ->
             is_some (dict_get v (_node (G m))) = true /\
             is_some (dict_get v (_agents (schedule m))) = true) ->
  exists c, count_dropped_out m nodes c0 = Ok c.
Proof.
  induction nodes as [|v nodes IH]; simpl; intros c0 Hc H; [eauto|].
  destruct (H v (or_introl eq_refl)) as [Hn Ha].
  destruct (G_node_agent (G m) v) as [cell|e] eqn:E.
  2:{ unfold G_node_agent in E. destruct (dict_get v (_node (G m))); discriminate. }
  rewrite (grid_consistent_cell m v cell Hc E). cbn [bind].
  unfold deref. destruct (dict_get v (_agents (schedule m))) as [b|]; [|discriminate].
  cbn [bind]. destruct (Status_eqb (status b) DroppedOut); apply IH; auto.
Qed.

Lemma StudentAgent_step_total self m np a :
  well_formed m = true ->
  deref m self = Ok a ->
  exists m' np', StudentAgent_step self m np = Ok (m', np').
Proof.
  intros Hwf Ha. apply well_formed_parts in Hwf.
  destruct Hwf as (Hc & Hvol & Hpos & Hadj).
  unfold StudentAgent_step. rewrite Ha. cbn [bind].
  destruct (Status_eqb (status a) DroppedOut); [eauto|].
  unfold np_random_normal. rewrite Hvol.
  destruct (next_draw np) as [z np1]. cbn [bind].
  set (perf := np_clip _ 0 100).
  apply deref_Ok in Ha. destruct (Hpos _ _ Ha) as (n & l & Hn & Hl).
  apply deref_Ok in Ha.
  assert (Hp : exists p, p_drop (store m self (set_performance a perf))
                           (set_performance a perf) = Ok p).
  { unfold p_drop, peer_influence_score, get_neighbors. simpl G. simpl pos.
    unfold G_neighbors. rewrite Hn, Hl. cbn [bind].
    destruct (get_cell_list_contents_total (G m) l) as [refs Hr].
    { intros v Hv. now apply (Hadj n l v). }
    rewrite Hr. cbn [bind].
    apply get_cell_list_contents_consistent in Hr; [|assumption]. subst refs.
    destruct l as [|v l]; [cbn [bind]; eauto|].
    rewrite (count_dropped_out_store m self a perf Ha).
    destruct (count_dropped_out_total m (v :: l) 0%Z Hc) as [c Hcount].
    { intros v' Hv'. now apply (Hadj n (v :: l) v'). }
    rewrite Hcount. cbn [bind]. eauto. }
  destruct Hp as [p Hp]. rewrite Hp. cbn [bind].
  destruct (np_random_rand np1) as [u np2].
  destruct (Qltb u p); eauto.
Qed.

Lemma entries_evolve_is_some d d' k :
  Forall2 entry_evolves d d' ->
  is_some (dict_get k d') = is_some (dict_get k d).
Proof.
  induction 1 as [|[k1 v1] [k2 v2] l l' [Hk _] _ IH]; simpl; [reflexivity|].
  simpl in Hk. subst k2. destruct (Z.eqb k k1); [reflexivity|exact IH].
Qed.

Lemma agent_evolves_pos a a' : agent_evolves a a' -> pos a' = pos a.
Proof.
  intros [->|[_ (perf & s & _ & ->)]]; reflexivity.
Qed.

Lemma evolves_well_formed m m' :
  evolves m m' -> well_formed m = true -> well_formed m' = true.
Proof.
  intros [_ _ _ Hvol _ HG Hag]. unfold well_formed, grid_consistent.
  rewrite HG, Hvol. rewrite !andb_true_iff. intros [[[H1 H2] H3] H4].
  repeat split; try assumption.
  - clear H4. induction Hag as [|x y l l' [_ He] _ IH]; [reflexivity|].
    simpl in H3 |- *. apply andb_true_iff in H3. destruct H3 as [Hx Hl].
    rewrite (agent_evolves_pos _ _ He), Hx. simpl. now apply IH.
  - rewrite forallb_forall in H4 |- *. intros ul Hul.
    specialize (H4 ul Hul). rewrite forallb_forall in H4 |- *.
    intros v Hv. specialize (H4 v Hv).
    now rewrite (entries_evolve_is_some _ _ v Hag).
Qed.

Lemma do_each_step_total keys : forall m np,
  well_formed m = true ->
  exists m' np', do_each_step keys m np = Ok (m', np').
Proof.
  induction keys as [|k keys IH]; simpl; intros m np Hwf; [eauto|].
  destruct (dict_get k (_agents (schedule m))) as [a|] eqn:E; [|auto].
  destruct (StudentAgent_step_total k m np a Hwf) as (m1 & np1 & H1).
  { now apply deref_Ok. }
  rewrite H1. cbn [bind]. apply IH.
  eapply evolves_well_formed; [eapply StudentAgent_step_evolves|]; eauto.
Qed.

Lemma SchoolModel_step_total m np :
  well_formed m = true -> n_agents m <> 0%Z ->
  exists m' np', SchoolModel_step m np = Ok (m', np').
Proof.
  intros Hwf HN. unfold SchoolModel_step, datacollector_collect, model_reporters,
    get_dropout_rate.
  simpl n_agents. destruct (Z.eqb_spec (n_agents m) 0); [contradiction|].
  cbn [bind]. unfold schedule_step.
  destruct (shuffle _ _) as [keys r].
  match goal with
  | |- context [do_each_step keys ?m0 np] =>
      destruct (do_each_step_total keys m0 np) as (m1 & np1 & H1);
        [exact Hwf|rewrite H1]
  end.
  cbn [bind]. eauto.
Qed.

(** From a well-formed model with [N <> 0], any number of steps runs to
    completion, and the model stays well-formed. *)
Lemma run_steps_total n : forall m np,
  well_formed m = true -> n_agents m <> 0%Z ->
  exists m' np',
    run_steps n m np = Ok (m', np') /\
    well_formed m' = true /\ n_agents m' = n_agents m.
Proof.
  induction n as [|n IH]; simpl; intros m np Hwf HN; [eauto|].
  destruct (SchoolModel_step_total m np Hwf HN) as (m1 & np1 & H1).
  rewrite H1. cbn [bind].
  pose proof (SchoolModel_step_evolves _ _ _ _ H1) as Hev.
  destruct (IH m1 np1) as (m' & np' & Hrun & Hwf' & HN').
  - eapply evolves_well_formed; eauto.
  - rewrite (ev_n_agents _ _ Hev). exact HN.
  - exists m', np'. split; [exact Hrun|]. split; [exact Hwf'|].
    rewrite HN'. exact (ev_n_agents _ _ Hev).
Qed.

Lemma spec_peer_influence_score_nonneg neighbours :
  0 <= spec_peer_influence_score neighbours.
Proof.
  destruct neighbours as [|b l]; [apply Qle_refl|].
  unfold spec_peer_influence_score.
  apply Qle_shift_div_l.
  - change 0 with (inject_Z 0). rewrite <- Zlt_Qlt. simpl length. lia.
  - rewrite Qmult_0_l. change 0 with (inject_Z 0). rewrite <- Zle_Qle. lia.
Qed.

(** C1. When an attending student takes a step on a well-formed model, the
    step returns; the student's performance has become the old one plus the
    normal fluctuation, clipped to the interval from 0 to 100; the dropout
    probability is [base_dropout_rate + performance_risk * (1 -
    peer_influence_weight) + peer_influence_score * peer_influence_weight],
    where the risk is [max(0, 60 - performance) / 60] of the new performance
    and the score is the dropped-out share of the neighbours (0 without
    neighbours); it is not clamped (it is at least the base rate, whatever
    that is); after the financial aid discount it is compared with a uniform
    draw to decide the new status. *)
Theorem dropout_probability_formula (self : Z) (m : SchoolModel)
  (np : RandomState) (a : StudentAgent) :
  well_formed m = true ->
  deref m self = Ok a ->
  status a = Attending ->
  let fluctuation := 0 + performance_volatility m * fst (next_draw np) in
  let performance' := np_clip (performance a + fluctuation) 0 100 in
  let u := fst (np_random_rand (snd (next_draw np))) in
  exists (m' : SchoolModel) (np' : RandomState) (a' : StudentAgent)
         (neighbours : list StudentAgent),
    StudentAgent_step self m np = Ok (m', np') /\
    deref m' self = Ok a' /\
    performance a' = performance' /\
    neighbours_of m a neighbours /\
    let p_drop_spec :=
      spec_p_drop (base_dropout_rate m) (peer_influence_weight m)
        performance' neighbours in
    let p_final :=
      if financial_aid_policy m && Z.eqb (ses a) LOW_SES
      then p_drop_spec * (1 - 0.4) else p_drop_spec in
    p_drop (store m self (set_performance a performance'))
      (set_performance a performance') = Ok p_final /\
    status a' = (if Qltb u p_final then DroppedOut else Attending) /\
    (0 <= peer_influence_weight m <= 1 -> base_dropout_rate m <= p_drop_spec).
Proof.
  intros Hwf Ha Hs fluctuation performance' u.
  destruct (StudentAgent_step_total self m np a Hwf Ha) as (m' & np' & Hstep).
  pose proof (proj1 (well_formed_parts m Hwf)) as Hc.
  pose proof (StudentAgent_step_inv _ _ _ _ _ Hstep) as Hinv.
  destruct Hinv as (a0 & Ha0 & Hcases).
  rewrite Ha in Ha0. inversion Ha0; subst a0. clear Ha0.
  destruct Hcases as [(Hd & _) | (_ & z & np1 & p & Hz & Hp & Hnp & Hm')];
    [congruence|].
  assert (Ez : z = fst (next_draw np)) by now rewrite Hz.
  assert (Enp : np1 = snd (next_draw np)) by now rewrite Hz.
  subst z np1. fold fluctuation performance' u in Hp, Hm'.
  set (a1 := set_performance a performance') in *.
  unfold p_drop in Hp. simpl pos in Hp.
  destruct (peer_influence_score (store m self a1) (pos a)) as [score|e] eqn:Hsc;
    cbn [bind] in Hp; [|discriminate].
  destruct (peer_influence_score_spec m self a performance' score Hc Ha Hsc)
    as (neighbours & Hnb & Hscore).
  assert (Hspec : apply_intervention (store m self a1) (ses a1)
                    (p_drop_combined (store m self a1)
                       (performance_risk (performance a1)) score)
                  = if financial_aid_policy m && Z.eqb (ses a) LOW_SES
                    then spec_p_drop (base_dropout_rate m)
                           (peer_influence_weight m) performance' neighbours
                         * (1 - 0.4)
                    else spec_p_drop (base_dropout_rate m)
                           (peer_influence_weight m) performance' neighbours).
  { unfold apply_intervention, p_drop_combined, spec_p_drop. simpl.
    rewrite performance_risk_spec, Hscore. reflexivity. }
  rewrite Hspec in Hp. inversion Hp as [Hp']. clear Hp.
  exists m', np',
    (if Qltb u p then set_status a1 DroppedOut else a1), neighbours.
  split; [exact Hstep|].
  split; [subst m'; destruct (Qltb u p); apply deref_store_eq|].
  split; [destruct (Qltb u p); reflexivity|].
  split; [exact Hnb|].
  split; [unfold p_drop; simpl pos; rewrite Hsc; cbn [bind]; now rewrite Hspec|].
  split.
  - rewrite Hp'. destruct (Qltb u p); simpl; [reflexivity|exact Hs].
  - intros [Hw0 Hw1]. unfold spec_p_drop.
    assert (0 <= spec_performance_risk performance').
    { rewrite <- performance_risk_spec. apply performance_risk_nonneg. }
    pose proof (spec_peer_influence_score_nonneg neighbours).
    assert (0 <= spec_performance_risk performance' * (1 - peer_influence_weight m))
      by (apply Qmult_le_0_compat; [assumption|lra]).
    assert (0 <= spec_peer_influence_score neighbours * peer_influence_weight m)
      by (apply Qmult_le_0_compat; assumption).
    lra.
Qed.

Lemma dropout_probability_formula_witness :
  well_formed sample_model_2 = true /\
  deref sample_model_2 0 = Ok sample_low /\
  status sample_low = Attending /\
  exists m' np', StudentAgent_step 0 sample_model_2 sample_np_2 = Ok (m', np').
Proof.
  assert (H1 : well_formed sample_model_2 = true) by (vm_compute; reflexivity).
  assert (H2 : deref sample_model_2 0 = Ok sample_low) by reflexivity.
  assert (H3 : status sample_low = Attending) by reflexivity.
  destruct (dropout_probability_formula 0 sample_model_2 sample_np_2 sample_low
              H1 H2 H3) as (m' & np' & a' & nb & Hstep & _).
  repeat split; try assumption. now exists m', np'.
Defined.

(** ** The constructor returns a well-formed model *)

Lemma dict_set_In {V : Type} k (v : V) d n c :
  NoDup (dict_keys d) ->
  In (n, c) (dict_set k v d) ->
  (n = k /\ c = v) \/ (n <> k /\ In (n, c) d).
Proof.
  unfold dict_keys. induction d as [|[k' v'] d IH]; simpl; intros Hnd H.
  - destruct H as [[= <- <-]|[]]. now left.
  - inversion Hnd as [|? ? Hnotin Hnd']; subst.
    destruct (Z.eqb_spec k k') as [<-|Hne].
    + destruct H as [[= <- <-]|H]; [now left|].
      right. split; [|now right].
      intros ->. apply Hnotin. change k with (fst (k, c)). now apply in_map.
    + destruct H as [[= <- <-]|H]; [right; split; [congruence|now left]|].
      destruct (IH Hnd' H) as [?|[? ?]]; [now left|right; auto].
Qed.

Lemma make_agents_loop_cons sd i node rest m np m' np' :
  In node (G_nodes (G m)) ->
  (forall k, In k (dict_keys (_agents (schedule m))) -> (k < i)%Z) ->
  make_agents_loop sd i (node :: rest) m np = Ok (m', np') ->
  exists m1 c,
    dict_get node (_node (G m)) = Some c /\
    _node (G m1) = dict_set node (c ++ [i]) (_node (G m)) /\
    extends m m1 /\
    (forall k, In k (dict_keys (_agents (schedule m1))) -> (k < i + 1)%Z) /\
    make_agents_loop sd (i + 1)%Z rest m1 (snd (next_draw np)) = Ok (m', np').
Proof.
  intros Hnode Hkeys. simpl. rewrite initial_normal_Ok. cbn [bind].
  set (perf := np_clip _ 50 95).
  destruct (list_index sd i) as [s|e]; cbn [bind]; [|discriminate].
  destruct (place_new_agent m i perf s node Hnode) as (m1 & Hp & Hext & Hag).
  { intros k Hk. apply Hkeys in Hk. lia. }
  rewrite Hp. cbn [bind]. intros Hrun.
  destruct (dict_get_present _ _ Hnode) as [c Hc].
  exists m1, c. split; [exact Hc|]. split.
  - unfold place_agent, place_in_cell, G_node_agent in Hp. simpl in Hp.
    rewrite Hc in Hp. cbn [bind] in Hp. inversion Hp. reflexivity.
  - split; [exact Hext|]. split; [|exact Hrun].
    intros k Hk. rewrite Hag in Hk. unfold dict_keys in Hk.
    rewrite map_app in Hk. apply in_app_or in Hk. destruct Hk as [Hk|Hk].
    + apply Hkeys in Hk. lia.
    + simpl in Hk. destruct Hk as [<-|[]]. lia.
Qed.

Lemma make_agents_loop_cells sd : forall len i m np m' np',
  NoDup (G_nodes (G m)) ->
  (forall j, (j < len)%nat -> In (i + Z.of_nat j)%Z (G_nodes (G m))) ->
  (forall k, In k (dict_keys (_agents (schedule m))) -> (k < i)%Z) ->
  cells_upto i (_node (G m)) ->
  make_agents_loop sd i (map (fun j => (i + Z.of_nat j)%Z) (seq 0 len)) m np
  = Ok (m', np') ->
  cells_upto (i + Z.of_nat len) (_node (G m')).
Proof.
  induction len as [|len IH]; intros i m np m' np' Hnd Hin Hkeys Hcells Hrun.
  - simpl in Hrun. inversion Hrun; subst. now rewrite Z.add_0_r.
  - simpl seq in Hrun. simpl map in Hrun. rewrite Z.add_0_r in Hrun.
    rewrite <- seq_shift, map_map in Hrun.
    rewrite (map_ext _ (fun j => (i + 1 + Z.of_nat j)%Z)) in Hrun
      by (intros j; lia).
    apply make_agents_loop_cons in Hrun; [| |exact Hkeys].
    2:{ specialize (Hin 0%nat). rewrite Z.add_0_r in Hin. apply Hin. lia. }
    destruct Hrun as (m1 & c & Hc & Hnode1 & Hext & Hkeys1 & Hrun).
    replace (i + Z.of_nat (S len))%Z with (i + 1 + Z.of_nat len)%Z by lia.
    apply (IH (i + 1)%Z m1 (snd (next_draw np)) m' np').
    + now rewrite (ex_nodes _ _ Hext).
    + intros j Hj. rewrite (ex_nodes _ _ Hext).
      replace (i + 1 + Z.of_nat j)%Z with (i + Z.of_nat (S j))%Z by lia.
      apply Hin. lia.
    + exact Hkeys1.
    + intros n c' Hn. rewrite Hnode1 in Hn.
      apply dict_set_In in Hn; [|exact Hnd].
      apply dict_get_In in Hc. apply Hcells in Hc.
      rewrite Z.ltb_irrefl in Hc. subst c.
      destruct Hn as [[-> ->]|[Hne Hn]].
      * assert (E : (i <? i + 1)%Z = true) by (apply Z.ltb_lt; lia).
        now rewrite E.
      * apply Hcells in Hn. subst c'.
        destruct (Z.ltb_spec n i), (Z.ltb_spec n (i + 1)); try reflexivity; lia.
    + exact Hrun.
Qed.

Lemma Forall2_In_l {A B : Type} (R : A -> B -> Prop) l l' x :
  Forall2 R l l' -> In x l -> exists y, In y l' /\ R x y.
Proof.
  induction 1 as [|a b l l' Hab _ IH]; simpl; [contradiction|].
  intros [<-|Hx]; [eauto|]. destruct (IH Hx) as (y & Hy & HR). eauto.
Qed.

(** If the library's graph has the nodes [0 .. N-1] and is closed under its
    edges, and the volatility is not negative, the model the constructor
    returns is well-formed. *)
Lemma SchoolModel_init_well_formed
  (watts_strogatz_graph : Z -> Z -> Q -> RandomState -> Result (Graph * RandomState))
  (Random : Z -> RandomState)
  (N k_degree : Z) (rewiring_prob base weight volatility : Q) (aid : bool)
  (w w1 : Globals) (m : SchoolModel) (g : Graph) (py : RandomState) :
  watts_strogatz_graph N k_degree rewiring_prob (py_global w) = Ok (g, py) ->
  graph_closed g N = true ->
  0 <= volatility ->
  SchoolModel_init watts_strogatz_graph Random N k_degree rewiring_prob
    base weight volatility aid w = Ok (m, w1) ->
  well_formed m = true.
Proof.
  intros Hg Hclosed Hvol Hinit.
  pose proof Hinit as Hinv. apply SchoolModel_init_inv in Hinv.
  destruct Hinv as (g' & py' & Hg' & _ & _ & Hc).
  rewrite Hg in Hg'. inversion Hg'; subst g' py'. clear Hg'.
  unfold graph_closed in Hclosed. rewrite !andb_true_iff in Hclosed.
  destruct Hclosed as [[Hrange Hadj1] Hadj2].
  destruct (list_eq_dec Z.eq_dec (G_nodes g) (py_range N)) as [Hnodes|];
    [|discriminate]. clear Hrange.
  assert (Hcells : grid_consistent m = true).
  { unfold SchoolModel_init in Hinit. rewrite Hg in Hinit. cbn [bind] in Hinit.
    unfold make_agents in Hinit. simpl n_agents in Hinit. simpl G in Hinit.
    destruct (shuffle (ses_distribution N) (np_global w)) as [sd np0].
    rewrite G_nodes_NetworkGrid_init, Hnodes in Hinit.
    match type of Hinit with
    | context [make_agents_loop ?a ?b ?c ?d ?e] =>
        destruct (make_agents_loop a b c d e) as [[m1 np1]|e0] eqn:Hloop;
          cbn [bind] in Hinit; [|discriminate]
    end.
    inversion Hinit; subst m w1. clear Hinit.
    unfold py_range in Hloop.
    apply (make_agents_loop_cells sd (Z.to_nat N) 0%Z) in Hloop.
    - unfold grid_consistent. simpl G. apply forallb_forall.
      intros [n c] Hin. simpl.
      assert (Hn : In n (py_range N)).
      { rewrite <- Hnodes, <- (co_nodes _ _ _ _ _ _ _ _ Hc). simpl G.
        unfold G_nodes, dict_keys. change n with (fst (n, c)). now apply in_map. }
      apply py_range_In in Hn. apply Hloop in Hin.
      assert (E : (n <? 0 + Z.of_nat (Z.to_nat N))%Z = true)
        by (apply Z.ltb_lt; lia).
      rewrite E in Hin. subst c. apply Z.eqb_refl.
    - simpl G. rewrite G_nodes_NetworkGrid_init, Hnodes. apply py_range_NoDup.
    - intros j Hj. simpl G. rewrite G_nodes_NetworkGrid_init, Hnodes.
      apply py_range_In. lia.
    - simpl. intros k0 [].
    - simpl. intros n c Hin. apply in_map_iff in Hin.
      destruct Hin as ([n' c'] & [= <- <-] & Hin').
      destruct (Z.ltb_spec n' 0); [|reflexivity].
      (* a label is never negative *)
      exfalso.
      assert (Hn : In n' (py_range N)).
      { rewrite <- Hnodes. unfold G_nodes, dict_keys.
        change n' with (fst (n', c')). now apply in_map. }
      apply py_range_In in Hn. lia. }
  unfold well_formed. rewrite Hcells. simpl andb.
  rewrite (co_volatility _ _ _ _ _ _ _ _ Hc).
  assert (Ev : Qltb volatility 0 = false) by now apply Qltb_ge.
  rewrite Ev. simpl andb. apply andb_true_iff. split.
  - apply forallb_forall. intros [k a] Hka. simpl.
    destruct (Forall2_In_l _ _ _ _ (co_placed _ _ _ _ _ _ _ _ Hc) Hka)
      as (node & Hnode & _ & Hpos).
    simpl in Hpos. rewrite Hpos, (co_adj _ _ _ _ _ _ _ _ Hc).
    rewrite forallb_forall in Hadj1. now apply Hadj1.
  - rewrite (co_adj _ _ _ _ _ _ _ _ Hc). apply forallb_forall.
    intros ul Hul. apply forallb_forall. intros v Hv.
    rewrite forallb_forall in Hadj2. specialize (Hadj2 ul Hul).
    rewrite forallb_forall in Hadj2. specialize (Hadj2 v Hv).
    apply existsb_exists in Hadj2. destruct Hadj2 as (v' & Hv' & E).
    apply Z.eqb_eq in E. subst v'.
    apply andb_true_iff. split.
    + destruct (dict_get_present v (_node (G m))) as [c Hcell].
      { fold (G_nodes (G m)). now rewrite (co_nodes _ _ _ _ _ _ _ _ Hc). }
      now rewrite Hcell.
    + destruct (dict_get_present v (_agents (schedule m))) as [b Hb].
      { rewrite (co_keys _ _ _ _ _ _ _ _ Hc).
        rewrite Hnodes in Hv' |- *. unfold py_range in *.
        now rewrite length_map, length_seq. }
      now rewrite Hb.
Qed.

(** ** The accessors on the models a run goes through *)

Lemma evolves_agents_length m m' :
  evolves m m' -> length (agents m') = length (agents m).
Proof.
  intros Hev. rewrite !agents_length_keys.
  now rewrite (entries_evolve_keys _ _ (ev_agents _ _ Hev)).
Qed.

(** On a graph of [N] nodes, [n_agents] is the number of students, at
    construction and after any number of steps. *)
Lemma n_agents_counts_the_students
  (watts_strogatz_graph : Z -> Z -> Q -> RandomState -> Result (Graph * RandomState))
  (Random : Z -> RandomState)
  (N k_degree : Z) (rewiring_prob base weight volatility : Q) (aid : bool)
  (w w1 : Globals) (m m' : SchoolModel) (g : Graph) (py : RandomState)
  (num_steps : nat) (np np' : RandomState) :
  watts_strogatz_graph N k_degree rewiring_prob (py_global w) = Ok (g, py) ->
  Z.of_nat (length (G_nodes g)) = N ->
  SchoolModel_init watts_strogatz_graph Random N k_degree rewiring_prob
    base weight volatility aid w = Ok (m, w1) ->
  run_steps num_steps m np = Ok (m', np') ->
  n_agents m' = Z.of_nat (length (agents m')).
Proof.
  intros Hg HN Hinit Hrun.
  apply SchoolModel_init_inv in Hinit.
  destruct Hinit as (g' & py' & Hg' & _ & _ & Hc).
  rewrite Hg in Hg'. inversion Hg'; subst g' py'.
  apply run_steps_evolves in Hrun.
  rewrite (ev_n_agents _ _ Hrun), (evolves_agents_length _ _ Hrun).
  rewrite (co_n_agents _ _ _ _ _ _ _ _ Hc).
  now rewrite (constructed_agents_length _ _ _ _ _ _ _ _ Hc).
Qed.

(** ** The shuffles permute *)

Lemma list_set_Permutation {A : Type} (a b : A) : forall l j,
  nth_error l j = Some b -> Permutation (a :: l) (b :: list_set j a l).
Proof.
  induction l as [|x l IH]; intros [|j] H; simpl in *; try discriminate.
  - inversion H; subst. apply perm_swap.
  - apply IH in H.
    apply perm_trans with (x :: a :: l); [apply perm_swap|].
    apply perm_trans with (x :: b :: list_set j a l); [now constructor|].
    apply perm_swap.
Qed.

Lemma nth_error_list_set {A : Type} (x : A) : forall l i j,
  (i < length l)%nat ->
  nth_error (list_set i x l) j = if Nat.eqb j i then Some x else nth_error l j.
Proof.
  induction l as [|y l IH]; intros [|i] [|j] H; simpl in *; try lia; auto.
  apply IH. lia.
Qed.

Lemma swap_Permutation {A : Type} i j (l : list A) : Permutation l (swap i j l).
Proof.
  unfold swap.
  destruct (nth_error l i) as [a|] eqn:Hi; [|reflexivity].
  destruct (nth_error l j) as [b|] eqn:Hj; [|reflexivity].
  apply Permutation_cons_inv with b.
  apply perm_trans with (a :: list_set i b l).
  - now apply list_set_Permutation.
  - apply list_set_Permutation.
    rewrite nth_error_list_set by (apply nth_error_Some; congruence).
    destruct (Nat.eqb j i); [reflexivity|exact Hj].
Qed.

Lemma shuffle_from_Permutation {A : Type} i : forall (l : list A) s,
  Permutation l (fst (shuffle_from i l s)).
Proof.
  induction i as [|i IH]; intros l s; simpl; [reflexivity|].
  destruct (randbelow (S (S i)) s) as [j s'].
  eapply perm_trans; [apply swap_Permutation|apply IH].
Qed.

Lemma shuffle_Permutation {A : Type} (l : list A) s :
  Permutation l (fst (shuffle l s)).
Proof. apply shuffle_from_Permutation. Qed.

(** ** The tiers the constructor hands out *)

Lemma skipn_nth_error {A : Type} (l : list A) k x :
  nth_error l k = Some x -> skipn k l = x :: skipn (S k) l.
Proof.
  revert k. induction l as [|y l IH]; intros [|k] H; simpl in *; try discriminate.
  - now inversion H.
  - now apply IH.
Qed.

Lemma agents_app m d :
  _agents (schedule m) = d -> agents m = dict_values d.
Proof. intros <-. reflexivity. Qed.

(** Student number [i] gets entry [i] of the shuffled tier list. *)
Lemma make_agents_loop_ses sd : forall nodes i m np m' np',
  (0 <= i)%Z ->
  (forall node, In node nodes -> In node (G_nodes (G m))) ->
  (forall k, In k (dict_keys (_agents (schedule m))) -> (k < i)%Z) ->
  make_agents_loop sd i nodes m np = Ok (m', np') ->
  map ses (agents m')
  = map ses (agents m) ++ firstn (length nodes) (skipn (Z.to_nat i) sd).
Proof.
  induction nodes as [|node rest IH]; intros i m np m' np' Hi Hnodes Hkeys Hrun.
  - simpl in Hrun. inversion Hrun; subst. simpl. now rewrite app_nil_r.
  - simpl in Hrun. rewrite initial_normal_Ok in Hrun. cbn [bind] in Hrun.
    unfold list_index in Hrun.
    destruct (nth_error sd (Z.to_nat i)) as [s|] eqn:Hs; cbn [bind] in Hrun;
      [|discriminate].
    match type of Hrun with
    | context [place_agent (schedule_add m (StudentAgent_init i ?perf s)) _ node] =>
        destruct (place_new_agent m i perf s node) as (m1 & Hp & Hext & Hag)
    end.
    { apply Hnodes. now left. }
    { intros k Hk. apply Hkeys in Hk. lia. }
    rewrite Hp in Hrun. cbn [bind] in Hrun.
    apply IH in Hrun.
    + rewrite Hrun. unfold agents. rewrite Hag. unfold dict_values.
      rewrite !map_app. simpl map. rewrite <- app_assoc. f_equal.
      rewrite (skipn_nth_error sd (Z.to_nat i) s Hs). simpl.
      replace (Z.to_nat (i + 1)) with (S (Z.to_nat i)) by lia. reflexivity.
    + lia.
    + intros n Hn. rewrite (ex_nodes _ _ Hext). apply Hnodes. now right.
    + intros k Hk. rewrite Hag in Hk. unfold dict_keys in Hk.
      rewrite map_app in Hk. apply in_app_or in Hk. destruct Hk as [Hk|Hk].
      * apply Hkeys in Hk. lia.
      * simpl in Hk. destruct Hk as [<-|[]]. lia.
Qed.

Lemma count_occ_repeat_other (x y : Z) n :
  x <> y -> count_occ Z.eq_dec (repeat x n) y = 0%nat.
Proof.
  intros Hne. induction n as [|n IH]; simpl; [reflexivity|].
  destruct (Z.eq_dec x y); [contradiction|exact IH].
Qed.

Lemma count_occ_repeat_same (x : Z) n :
  count_occ Z.eq_dec (repeat x n) x = n.
Proof.
  induction n as [|n IH]; simpl; [reflexivity|].
  destruct (Z.eq_dec x x); [now rewrite IH|congruence].
Qed.

Lemma ses_distribution_counts N :
  (0 <= N)%Z -> (N mod 5 = 0)%Z ->
  (5 * Z.of_nat (count_occ Z.eq_dec (ses_distribution N) LOW_SES) = 2 * N)%Z /\
  (5 * Z.of_nat (count_occ Z.eq_dec (ses_distribution N) MEDIUM_SES) = 2 * N)%Z /\
  (5 * Z.of_nat (count_occ Z.eq_dec (ses_distribution N) HIGH_SES) = N)%Z.
Proof.
  intros H0 Hmod. unfold ses_distribution, list_times.
  change 0.4 with (4 # 10). change 0.2 with (2 # 10).
  rewrite !py_int_scaled by lia.
  rewrite !count_occ_app.
  rewrite !count_occ_repeat_same.
  rewrite !count_occ_repeat_other by discriminate.
  assert (0 <= N * 4 / 10)%Z by (apply Z.div_pos; lia).
  assert (0 <= N * 2 / 10)%Z by (apply Z.div_pos; lia).
  repeat split; rewrite ?Nat.add_0_r, ?Nat.add_0_l, Z2Nat.id by assumption;
    Z.div_mod_to_equations; lia.
Qed.

(** The tiers handed out are a rearrangement of the tier list. *)
Lemma SchoolModel_init_tiers
  (watts_strogatz_graph : Z -> Z -> Q -> RandomState -> Result (Graph * RandomState))
  (Random : Z -> RandomState)
  (N k_degree : Z) (rewiring_prob base weight volatility : Q) (aid : bool)
  (w w1 : Globals) (m : SchoolModel) (g : Graph) (py : RandomState) :
  watts_strogatz_graph N k_degree rewiring_prob (py_global w) = Ok (g, py) ->
  Z.of_nat (length (G_nodes g)) = N ->
  SchoolModel_init watts_strogatz_graph Random N k_degree rewiring_prob
    base weight volatility aid w = Ok (m, w1) ->
  (N mod 5 = 0)%Z /\ Permutation (ses_distribution N) (map ses (agents m)).
Proof.
  intros Hg HN Hinit.
  assert (H0 : (0 <= N)%Z) by lia.
  pose proof Hinit as Hinv. apply SchoolModel_init_inv in Hinv.
  destruct Hinv as (g' & py' & Hg' & _ & Hlen & _).
  rewrite Hg in Hg'. inversion Hg'; subst g' py'. clear Hg'.
  assert (Hmod : (N mod 5 = 0)%Z).
  { destruct (Z.eq_dec (N mod 5) 0) as [E|E]; [exact E|].
    pose proof (ses_distribution_short N H0 E). lia. }
  pose proof (ses_distribution_complete N H0 Hmod) as Hfull.
  split; [exact Hmod|].
  unfold SchoolModel_init in Hinit. rewrite Hg in Hinit. cbn [bind] in Hinit.
  unfold make_agents in Hinit. simpl n_agents in Hinit. simpl G in Hinit.
  pose proof (shuffle_Permutation (ses_distribution N) (np_global w)) as Hsh.
  pose proof (shuffle_length (ses_distribution N) (np_global w)) as Hshl.
  destruct (shuffle (ses_distribution N) (np_global w)) as [sd np0].
  simpl in Hsh, Hshl.
  match type of Hinit with
  | context [make_agents_loop ?a ?b ?c ?d ?e] =>
      destruct (make_agents_loop a b c d e) as [[m1 np1]|e0] eqn:Hloop;
        cbn [bind] in Hinit; [|discriminate]
  end.
  inversion Hinit; subst m w1. clear Hinit.
  apply make_agents_loop_ses in Hloop; [|lia|auto|simpl; intros k0 []].
  simpl in Hloop. rewrite G_nodes_NetworkGrid_init in Hloop.
  rewrite firstn_all2 in Hloop by lia.
  change (agents (setup_datacollector m1)) with (agents m1).
  now rewrite Hloop.
Qed.

(** X1. On a graph of [N] nodes, whenever the constructor returns, the tiers
    of the students are a rearrangement of the tier list: exactly two fifths
    of the students are Low, two fifths are Medium and one fifth is High. *)
Theorem tiers_are_40_40_20
  (watts_strogatz_graph : Z -> Z -> Q -> RandomState -> Result (Graph * RandomState))
  (Random : Z -> RandomState)
  (N k_degree : Z) (rewiring_prob base weight volatility : Q) (aid : bool)
  (w w1 : Globals) (m : SchoolModel) (g : Graph) (py : RandomState) :
  watts_strogatz_graph N k_degree rewiring_prob (py_global w) = Ok (g, py) ->
  Z.of_nat (length (G_nodes g)) = N ->
  SchoolModel_init watts_strogatz_graph Random N k_degree rewiring_prob
    base weight volatility aid w = Ok (m, w1) ->
  let tiers := map ses (agents m) in
  Permutation (ses_distribution N) tiers /\
  (5 * Z.of_nat (count_occ Z.eq_dec tiers LOW_SES) = 2 * N)%Z /\
  (5 * Z.of_nat (count_occ Z.eq_dec tiers MEDIUM_SES) = 2 * N)%Z /\
  (5 * Z.of_nat (count_occ Z.eq_dec tiers HIGH_SES) = N)%Z.
Proof.
  intros Hg HN Hinit tiers.
  assert (H0 : (0 <= N)%Z) by lia.
  destruct (SchoolModel_init_tiers _ _ _ _ _ _ _ _ _ _ _ _ _ _ Hg HN Hinit)
    as [Hmod Hperm].
  split; [exact Hperm|].
  unfold tiers in *.
  pose proof (proj1 (Permutation_count_occ Z.eq_dec _ _) Hperm) as Hcount.
  rewrite <- !Hcount. now apply ses_distribution_counts.
Qed.

Lemma tiers_are_40_40_20_witness :
  watts_strogatz_graph_p0 5 2 0 (py_global sample_globals) = Ok (sample_graph, []) /\
  Z.of_nat (length (G_nodes sample_graph)) = 5%Z /\
  sample_init = Ok (sample_model, sample_globals_1) /\
  (5 * Z.of_nat (count_occ Z.eq_dec (map ses (agents sample_model)) LOW_SES)
   = 2 * 5)%Z.
Proof.
  assert (H1 : watts_strogatz_graph_p0 5 2 0 (py_global sample_globals)
               = Ok (sample_graph, [])) by reflexivity.
  assert (H2 : Z.of_nat (length (G_nodes sample_graph)) = 5%Z) by reflexivity.
  assert (H3 : sample_init = Ok (sample_model, sample_globals_1))
    by (vm_compute; reflexivity).
  destruct (tiers_are_40_40_20 watts_strogatz_graph_p0 Random_const 5 2 0
              (1 # 4) (1 # 2) (3 # 2) true sample_globals sample_globals_1
              sample_model sample_graph [] H1 H2 H3) as (_ & Hlow & _).
  repeat split; assumption.
Defined.

(** ** What a step leaves alone *)

Lemma agent_evolves_identity a a' :
  agent_evolves a a' ->
  unique_id a' = unique_id a /\ pos a' = pos a /\ ses a' = ses a.
Proof.
  intros [->|[_ (perf & s & _ & ->)]]; repeat split; reflexivity.
Qed.

(** X2. A run neither adds nor removes students, and it never changes a
    student's [unique_id], position or tier: only performance and status
    move. *)
Theorem identity_position_and_tier_are_fixed (num_steps : nat)
  (m m' : SchoolModel) (np np' : RandomState) (k : Z) (a : StudentAgent) :
  run_steps num_steps m np = Ok (m', np') ->
  dict_get k (_agents (schedule m)) = Some a ->
  dict_keys (_agents (schedule m')) = dict_keys (_agents (schedule m)) /\
  exists a',
    dict_get k (_agents (schedule m')) = Some a' /\
    unique_id a' = unique_id a /\ pos a' = pos a /\ ses a' = ses a.
Proof.
  intros Hrun Hk. apply run_steps_evolves in Hrun.
  split; [exact (entries_evolve_keys _ _ (ev_agents _ _ Hrun))|].
  destruct (entries_evolve_get _ _ _ _ (ev_agents _ _ Hrun) Hk) as (a' & Hk' & Hev).
  exists a'. split; [exact Hk'|]. now apply agent_evolves_identity.
Qed.

Lemma identity_position_and_tier_are_fixed_witness :
  run_steps 2 sample_model sample_np = Ok (sample_model_2, sample_np_2) /\
  dict_get 1 (_agents (schedule sample_model))
  = Some {| unique_id := 1; pos := Some 1%Z; performance := 50;
            ses := 1; status := Attending |} /\
  exists a',
    dict_get 1 (_agents (schedule sample_model_2)) = Some a' /\
    unique_id a' = 1%Z /\ pos a' = Some 1%Z /\ ses a' = 1%Z.
Proof.
  assert (H1 : run_steps 2 sample_model sample_np
               = Ok (sample_model_2, sample_np_2)) by (vm_compute; reflexivity).
  assert (H2 : dict_get 1 (_agents (schedule sample_model))
               = Some {| unique_id := 1; pos := Some 1%Z; performance := 50;
                         ses := 1; status := Attending |}) by reflexivity.
  destruct (identity_position_and_tier_are_fixed 2 _ _ _ _ 1%Z _ H1 H2)
    as (_ & a' & Ha' & H3).
  split; [exact H1|]. split; [exact H2|]. exists a'. split; [exact Ha'|exact H3].
Defined.

(** X3. Once the constructor has returned a model on a graph whose nodes are
    [0 .. N-1] and whose edges stay among them, with [N <> 0] and a
    volatility that is not negative, no later call of [step] raises: any
    number of steps runs to completion. *)
Theorem steps_never_raise
  (watts_strogatz_graph : Z -> Z -> Q -> RandomState -> Result (Graph * RandomState))
  (Random : Z -> RandomState)
  (N k_degree : Z) (rewiring_prob base weight volatility : Q) (aid : bool)
  (w w1 : Globals) (m : SchoolModel) (g : Graph) (py : RandomState)
  (num_steps : nat) (np : RandomState) :
  watts_strogatz_graph N k_degree rewiring_prob (py_global w) = Ok (g, py) ->
  graph_closed g N = true ->
  0 <= volatility ->
  N <> 0%Z ->
  SchoolModel_init watts_strogatz_graph Random N k_degree rewiring_prob
    base weight volatility aid w = Ok (m, w1) ->
  exists m' np', run_steps num_steps m np = Ok (m', np').
Proof.
  intros Hg Hclosed Hvol HN Hinit.
  pose proof (SchoolModel_init_well_formed _ _ _ _ _ _ _ _ _ _ _ _ _ _
                Hg Hclosed Hvol Hinit) as Hwf.
  apply SchoolModel_init_inv in Hinit.
  destruct Hinit as (g' & py' & _ & _ & _ & Hc).
  destruct (run_steps_total num_steps m np Hwf) as (m' & np' & Hrun & _).
  - now rewrite (co_n_agents _ _ _ _ _ _ _ _ Hc).
  - eauto.
Qed.

Lemma steps_never_raise_witness :
  watts_strogatz_graph_p0 5 2 0 (py_global sample_globals) = Ok (sample_graph, []) /\
  graph_closed sample_graph 5 = true /\
  0 <= 3 # 2 /\
  5%Z <> 0%Z /\
  sample_init = Ok (sample_model, sample_globals_1) /\
  exists m' np', run_steps 7 sample_model [] = Ok (m', np').
Proof.
  assert (H1 : watts_strogatz_graph_p0 5 2 0 (py_global sample_globals)
               = Ok (sample_graph, [])) by reflexivity.
  assert (H2 : graph_closed sample_graph 5 = true) by reflexivity.
  assert (H3 : 0 <= 3 # 2) by discriminate.
  assert (H4 : 5%Z <> 0%Z) by discriminate.
  assert (H5 : sample_init = Ok (sample_model, sample_globals_1))
    by (vm_compute; reflexivity).
  repeat (split; [assumption|]).
  exact (steps_never_raise watts_strogatz_graph_p0 Random_const 5 2 0
           (1 # 4) (1 # 2) (3 # 2) true sample_globals sample_globals_1
           sample_model sample_graph [] 7 [] H1 H2 H3 H4 H5).
Defined.

(** X4. An agent's step has no side effect on anybody else: every other
    student's record, the graph and the model's parameters are exactly as
    before. *)
Theorem agent_step_touches_only_itself (self : Z) (m m' : SchoolModel)
  (np np' : RandomState) :
  StudentAgent_step self m np = Ok (m', np') ->
  (forall k, k <> self ->
             dict_get k (_agents (schedule m')) = dict_get k (_agents (schedule m))) /\
  G m' = G m /\
  n_agents m' = n_agents m /\
  base_dropout_rate m' = base_dropout_rate m /\
  peer_influence_weight m' = peer_influence_weight m /\
  performance_volatility m' = performance_volatility m /\
  financial_aid_policy m' = financial_aid_policy m /\
  steps m' = steps m /\
  datacollector m' = datacollector m.
Proof.
  intros H. apply StudentAgent_step_inv in H.
  destruct H as (a & Ha & [(_ & -> & _) | (Hs & z & np1 & p & _ & _ & _ & Hm)]).
  - repeat split; reflexivity.
  - destruct (Qltb _ p); subst m'; (split; [|repeat split; reflexivity]);
      intros k Hk; simpl; rewrite ?dict_get_set_neq by congruence; reflexivity.
Qed.

Lemma agent_step_touches_only_itself_witness :
  StudentAgent_step 0 sample_model_2 sample_np_2
  = Ok (model_of (StudentAgent_step 0 sample_model_2 sample_np_2),
        state_of [] (StudentAgent_step 0 sample_model_2 sample_np_2)) /\
  dict_get 1 (_agents (schedule
                (model_of (StudentAgent_step 0 sample_model_2 sample_np_2))))
  = Some sample_dropout.
Proof.
  assert (H1 : StudentAgent_step 0 sample_model_2 sample_np_2
               = Ok (model_of (StudentAgent_step 0 sample_model_2 sample_np_2),
                     state_of [] (StudentAgent_step 0 sample_model_2 sample_np_2)))
    by (vm_compute; reflexivity).
  split; [exact H1|].
  destruct (agent_step_touches_only_itself 0 _ _ _ _ H1) as (Hk & _).
  rewrite (Hk 1%Z) by discriminate. reflexivity.
Defined.

(** ** The collected table *)

Lemma entries_evolve_agents d d' :
  Forall2 entry_evolves d d' ->
  Forall2 agent_evolves (dict_values d) (dict_values d').
Proof.
  unfold dict_values. induction 1 as [|x y l l' [_ He] _ IH]; simpl; constructor; auto.
Qed.

Lemma evolves_agents m m' :
  evolves m m' -> Forall2 agent_evolves (agents m) (agents m').
Proof. intros H. apply entries_evolve_agents, (ev_agents _ _ H). Qed.

Lemma agents_evolve_filter_ses s l l' :
  Forall2 agent_evolves l l' ->
  Forall2 agent_evolves (filter (fun a => Z.eqb (ses a) s) l)
    (filter (fun a => Z.eqb (ses a) s) l').
Proof.
  induction 1 as [|a a' l l' He _ IH]; simpl; [constructor|].
  destruct (agent_evolves_identity _ _ He) as (_ & _ & ->).
  destruct (Z.eqb (ses a) s); [constructor|]; assumption.
Qed.

Lemma agents_evolve_dropout_count l l' :
  Forall2 agent_evolves l l' -> (dropout_count l <= dropout_count l')%Z.
Proof.
  unfold dropout_count. induction 1 as [|a a' l l' He _ IH]; simpl; [lia|].
  destruct (is_dropped_out a) eqn:Ea, (is_dropped_out a') eqn:Ea';
    simpl length; try lia.
  exfalso. unfold is_dropped_out in Ea.
  destruct (status a) eqn:Hs; [discriminate|].
  rewrite (agent_evolves_dropped _ _ He Hs) in Ea'.
  unfold is_dropped_out in Ea'. rewrite Hs in Ea'. discriminate.
Qed.

Lemma percent_mono (c c' n : Z) :
  (c <= c')%Z -> (0 < n)%Z ->
  inject_Z c / inject_Z n * 100 <= inject_Z c' / inject_Z n * 100.
Proof.
  intros H Hn.
  assert (Hn' : 0 < inject_Z n)
    by (change 0 with (inject_Z 0); now rewrite <- Zlt_Qlt).
  apply Qmult_le_compat_r; [|discriminate].
  unfold Qdiv. apply Qmult_le_compat_r.
  - now rewrite <- Zle_Qle.
  - apply Qlt_le_weak. now apply Qinv_lt_0_compat.
Qed.

Lemma model_reporters_Ok m :
  n_agents m <> 0%Z -> exists r, model_reporters m = Ok r.
Proof.
  intros H. unfold model_reporters, get_dropout_rate.
  destruct (Z.eqb_spec (n_agents m) 0); [contradiction|]. cbn [bind]. eauto.
Qed.

Lemma model_reporters_inv m r :
  model_reporters m = Ok r ->
  n_agents m <> 0%Z /\
  total_dropout_rate r
  = inject_Z (dropout_count (agents m)) / inject_Z (n_agents m) * 100 /\
  low_ses_dropout_rate r = get_dropout_by_ses m LOW_SES /\
  medium_ses_dropout_rate r = get_dropout_by_ses m MEDIUM_SES /\
  high_ses_dropout_rate r = get_dropout_by_ses m HIGH_SES.
Proof.
  unfold model_reporters, get_dropout_rate.
  destruct (Z.eqb_spec (n_agents m) 0); cbn [bind]; [discriminate|].
  intros [= <-]. repeat split; auto.
Qed.

Lemma get_dropout_by_ses_mono m m' s :
  evolves m m' -> get_dropout_by_ses m s <= get_dropout_by_ses m' s.
Proof.
  intros Hev. unfold get_dropout_by_ses.
  pose proof (agents_evolve_filter_ses s _ _ (evolves_agents _ _ Hev)) as HF.
  pose proof (Forall2_length HF) as Hlen.
  pose proof (agents_evolve_dropout_count _ _ HF) as Hc.
  destruct (filter _ (agents m)) as [|a l], (filter _ (agents m')) as [|a' l'];
    try discriminate Hlen; [apply Qle_refl|].
  rewrite <- Hlen. apply percent_mono; [exact Hc|simpl; lia].
Qed.

(** The rates never go down while the model is stepped. *)
Lemma model_reporters_mono m m' r r' :
  evolves m m' -> (0 < n_agents m)%Z ->
  model_reporters m = Ok r -> model_reporters m' = Ok r' -> rates_le r r'.
Proof.
  intros Hev HN Hr Hr'. unfold rates_le.
  apply model_reporters_inv in Hr. destruct Hr as (_ & -> & -> & -> & ->).
  apply model_reporters_inv in Hr'. destruct Hr' as (_ & -> & -> & -> & ->).
  rewrite (ev_n_agents _ _ Hev).
  repeat split; try now apply get_dropout_by_ses_mono.
  apply percent_mono; [|assumption].
  apply agents_evolve_dropout_count, evolves_agents, Hev.
Qed.

(** The rows a run appends: one per call, each the reporters' reading of a
    state the run went through. *)
Lemma run_steps_rows n : forall m np m' np',
  run_steps n m np = Ok (m', np') ->
  exists rows,
    model_vars (datacollector m') = model_vars (datacollector m) ++ rows /\
    length rows = n /\
    Forall (fun r => exists mi, evolves m mi /\ evolves mi m' /\
                                model_reporters mi = Ok r) rows /\
    (forall r, hd_error rows = Some r -> model_reporters m = Ok r).
Proof.
  induction n as [|n IH]; intros m np m' np' H.
  - simpl in H. inversion H; subst. exists []. rewrite app_nil_r.
    repeat split; auto. discriminate.
  - simpl in H.
    destruct (SchoolModel_step m np) as [[m1 np1]|e] eqn:E; cbn [bind] in H;
      [|discriminate].
    pose proof (SchoolModel_step_evolves _ _ _ _ E) as Hev1.
    pose proof (run_steps_evolves _ _ _ _ _ H) as Hev2.
    apply SchoolModel_step_inv in E. destruct E as (_ & _ & row & Hrow & Hvars).
    apply IH in H. destruct H as (rows & Htab & Hlen & Hall & _).
    exists (row :: rows). rewrite Htab, Hvars, <- app_assoc. simpl.
    split; [reflexivity|]. split; [now rewrite Hlen|]. split.
    + constructor.
      * exists m. split; [apply evolves_refl|]. split; [|exact Hrow].
        eapply evolves_trans; eauto.
      * eapply Forall_impl; [|exact Hall].
        intros r (mi & H1 & H2 & H3). exists mi.
        split; [eapply evolves_trans; eauto|]. split; assumption.
    + intros r [= <-]. exact Hrow.
Qed.

Lemma rates_le_refl r : rates_le r r.
Proof. repeat split; apply Qle_refl. Qed.

Lemma rates_le_trans r1 r2 r3 : rates_le r1 r2 -> rates_le r2 r3 -> rates_le r1 r3.
Proof.
  intros (A1 & A2 & A3 & A4) (B1 & B2 & B3 & B4).
  repeat split; eapply Qle_trans; eauto.
Qed.

(** Rows collected from here on are in non-decreasing order and no larger
    than what the reporters read at the end. *)
Lemma run_steps_rows_sorted n : forall m np m' np' rows,
  (0 < n_agents m)%Z ->
  run_steps n m np = Ok (m', np') ->
  model_vars (datacollector m') = model_vars (datacollector m) ++ rows ->
  (forall i j x y, (i <= j)%nat -> nth_error rows i = Some x ->
                   nth_error rows j = Some y -> rates_le x y) /\
  (forall x r', In x rows -> model_reporters m' = Ok r' -> rates_le x r').
Proof.
  induction n as [|n IH]; intros m np m' np' rows HN H Htab.
  - simpl in H. inversion H; subst.
    assert (rows = []).
    { apply (f_equal (@length _)) in Htab. rewrite length_app in Htab.
      destruct rows; [reflexivity|simpl in Htab; lia]. }
    subst rows. split.
    + intros i j x y _ Hx. destruct i; discriminate.
    + intros x r' [].
  - simpl in H.
    destruct (SchoolModel_step m np) as [[m1 np1]|e] eqn:E; cbn [bind] in H;
      [|discriminate].
    pose proof (SchoolModel_step_evolves _ _ _ _ E) as Hev1.
    pose proof (run_steps_evolves _ _ _ _ _ H) as Hev2.
    apply SchoolModel_step_inv in E. destruct E as (_ & _ & row & Hrow & Hvars).
    destruct (run_steps_rows _ _ _ _ _ H) as (rest & Htab' & _).
    assert (Hrows : rows = row :: rest).
    { rewrite Htab', Hvars, <- app_assoc in Htab.
      apply app_inv_head in Htab. now symmetry. }
    subst rows.
    assert (HN1 : (0 < n_agents m1)%Z) by now rewrite (ev_n_agents _ _ Hev1).
    destruct (IH m1 np1 m' np' rest HN1 H Htab') as [Hsorted Hbound].
    assert (Hfirst : forall y, In y rest -> rates_le row y).
    { intros y Hy. destruct (run_steps_rows _ _ _ _ _ H) as (rest' & Htab'' & _ & Hall & _).
      assert (rest' = rest).
      { rewrite Htab' in Htab''. now apply app_inv_head in Htab''. }
      subst rest'. rewrite Forall_forall in Hall.
      destruct (Hall y Hy) as (mi & H1 & _ & H3).
      eapply model_reporters_mono; [| exact HN | exact Hrow | exact H3].
      eapply evolves_trans; eauto. }
    split.
    + intros [|i] [|j] x y Hij Hx Hy; simpl in *.
      * inversion Hx; inversion Hy; subst. apply rates_le_refl.
      * inversion Hx; subst. apply Hfirst. eapply nth_error_In; eauto.
      * lia.
      * eapply Hsorted; [|eauto|eauto]. lia.
    + intros x r' [<-|Hx] Hr'.
      * eapply model_reporters_mono; [| exact HN | exact Hrow | exact Hr'].
        eapply evolves_trans; eauto.
      * eapply Hbound; eauto.
Qed.

(** X5. The table's rates never go down: in the table collected by a run
    that starts at construction, a later row reports at least as much
    dropout as an earlier one, overall and in each tier. *)
Theorem dropout_series_never_decreases
  (watts_strogatz_graph : Z -> Z -> Q -> RandomState -> Result (Graph * RandomState))
  (Random : Z -> RandomState)
  (N k_degree : Z) (rewiring_prob base weight volatility : Q) (aid : bool)
  (w w0 : Globals) (m0 m' : SchoolModel) (num_steps : nat)
  (np np' : RandomState) (i j : nat) (x y : ModelRow) :
  SchoolModel_init watts_strogatz_graph Random N k_degree rewiring_prob
    base weight volatility aid w = Ok (m0, w0) ->
  (0 < N)%Z ->
  run_steps num_steps m0 np = Ok (m', np') ->
  (i <= j)%nat ->
  nth_error (model_vars (datacollector m')) i = Some x ->
  nth_error (model_vars (datacollector m')) j = Some y ->
  rates_le x y.
Proof.
  intros Hinit HN Hrun Hij Hx Hy.
  apply SchoolModel_init_inv in Hinit. destruct Hinit as (g & py & _ & _ & _ & Hc).
  assert (HN0 : (0 < n_agents m0)%Z) by now rewrite (co_n_agents _ _ _ _ _ _ _ _ Hc).
  destruct (run_steps_rows_sorted num_steps m0 np m' np'
              (model_vars (datacollector m')) HN0 Hrun) as [Hsorted _].
  - now rewrite (co_model_vars _ _ _ _ _ _ _ _ Hc).
  - eapply Hsorted; eauto.
Qed.

Lemma dropout_series_never_decreases_witness :
  sample_init = Ok (sample_model, sample_globals_1) /\
  (0 < 5)%Z /\
  run_steps 5 sample_model sample_np = Ok (sample_model_5, sample_np_5) /\
  (1 <= 3)%nat /\
  nth_error (model_vars (datacollector sample_model_5)) 1 = Some sample_row_1 /\
  nth_error (model_vars (datacollector sample_model_5)) 3 = Some sample_row_3 /\
  rates_le sample_row_1 sample_row_3.
Proof.
  assert (H1 : sample_init = Ok (sample_model, sample_globals_1))
    by (vm_compute; reflexivity).
  assert (H2 : (0 < 5)%Z) by reflexivity.
  assert (H3 : run_steps 5 sample_model sample_np = Ok (sample_model_5, sample_np_5))
    by (vm_compute; reflexivity).
  assert (H4 : (1 <= 3)%nat) by lia.
  assert (H5 : nth_error (model_vars (datacollector sample_model_5)) 1
               = Some sample_row_1) by reflexivity.
  assert (H6 : nth_error (model_vars (datacollector sample_model_5)) 3
               = Some sample_row_3) by reflexivity.
  repeat (split; [assumption|]).
  exact (dropout_series_never_decreases watts_strogatz_graph_p0 Random_const
           5 2 0 (1 # 4) (1 # 2) (3 # 2) true sample_globals sample_globals_1
           sample_model sample_model_5 5 sample_np sample_np_5 1 3
           sample_row_1 sample_row_3 H1 H2 H3 H4 H5 H6).
Defined.

Lemma dropout_count_all_attending l :
  Forall (fun a => status a = Attending) l -> dropout_count l = 0%Z.
Proof.
  unfold dropout_count. induction 1 as [|a l Ha _ IH]; simpl; [reflexivity|].
  unfold is_dropped_out at 1. rewrite Ha. simpl. exact IH.
Qed.

Lemma Forall_filter {A : Type} (P : A -> Prop) f (l : list A) :
  Forall P l -> Forall P (filter f l).
Proof.
  induction 1 as [|a l Ha _ IH]; simpl; [constructor|].
  destruct (f a); [constructor|]; assumption.
Qed.

Lemma zero_percent n : inject_Z 0 / n * 100 == 0.
Proof. unfold Qdiv. ring. Qed.

(** While everybody attends, the reporters read zero everywhere. *)
Lemma model_reporters_all_attending m r :
  Forall (fun a => status a = Attending) (agents m) ->
  model_reporters m = Ok r -> all_rates (fun q => q == 0) r.
Proof.
  intros Hall Hr. unfold all_rates.
  apply model_reporters_inv in Hr. destruct Hr as (_ & -> & -> & -> & ->).
  assert (Htier : forall s, get_dropout_by_ses m s == 0).
  { intros s. unfold get_dropout_by_ses.
    pose proof (Forall_filter _ (fun a => Z.eqb (ses a) s) _ Hall) as Hf.
    destruct (filter _ (agents m)) as [|a l]; [reflexivity|].
    rewrite (dropout_count_all_attending _ Hf). apply zero_percent. }
  split; [|repeat split; apply Htier].
  rewrite (dropout_count_all_attending _ Hall). apply zero_percent.
Qed.

(** X6. The first row of every table reports no dropout at all: it is
    collected before any student has acted. *)
Theorem first_row_reports_no_dropout
  (watts_strogatz_graph : Z -> Z -> Q -> RandomState -> Result (Graph * RandomState))
  (Random : Z -> RandomState)
  (N k_degree : Z) (rewiring_prob base weight volatility : Q) (aid : bool)
  (w w0 : Globals) (m0 m' : SchoolModel) (num_steps : nat)
  (np np' : RandomState) (r : ModelRow) :
  SchoolModel_init watts_strogatz_graph Random N k_degree rewiring_prob
    base weight volatility aid w = Ok (m0, w0) ->
  run_steps num_steps m0 np = Ok (m', np') ->
  nth_error (model_vars (datacollector m')) 0 = Some r ->
  all_rates (fun q => q == 0) r.
Proof.
  intros Hinit Hrun Hr.
  apply SchoolModel_init_inv in Hinit. destruct Hinit as (g & py & _ & _ & _ & Hc).
  destruct (run_steps_rows _ _ _ _ _ Hrun) as (rows & Htab & _ & _ & Hhd).
  rewrite (co_model_vars _ _ _ _ _ _ _ _ Hc) in Htab. simpl in Htab.
  rewrite Htab in Hr.
  assert (Hrow : model_reporters m0 = Ok r).
  { apply Hhd. destruct rows; [discriminate|exact Hr]. }
  eapply model_reporters_all_attending; [|exact Hrow].
  eapply Forall_impl; [|exact (co_fresh _ _ _ _ _ _ _ _ Hc)].
  intros a [Ha _]. exact Ha.
Qed.

Lemma first_row_reports_no_dropout_witness :
  sample_init = Ok (sample_model, sample_globals_1) /\
  run_steps 5 sample_model sample_np = Ok (sample_model_5, sample_np_5) /\
  nth_error (model_vars (datacollector sample_model_5)) 0 = Some sample_row_0 /\
  all_rates (fun q => q == 0) sample_row_0.
Proof.
  assert (H1 : sample_init = Ok (sample_model, sample_globals_1))
    by (vm_compute; reflexivity).
  assert (H2 : run_steps 5 sample_model sample_np = Ok (sample_model_5, sample_np_5))
    by (vm_compute; reflexivity).
  assert (H3 : nth_error (model_vars (datacollector sample_model_5)) 0
               = Some sample_row_0) by reflexivity.
  repeat (split; [assumption|]).
  exact (first_row_reports_no_dropout watts_strogatz_graph_p0 Random_const
           5 2 0 (1 # 4) (1 # 2) (3 # 2) true sample_globals sample_globals_1
           sample_model sample_model_5 5 sample_np sample_np_5 sample_row_0
           H1 H2 H3).
Defined.

Lemma evolves_tier_length m m' s :
  evolves m m' -> length (tier m' s) = length (tier m s).
Proof.
  intros Hev. unfold tier. symmetry.
  exact (Forall2_length (agents_evolve_filter_ses s _ _ (evolves_agents _ _ Hev))).
Qed.

(** X7. On a graph of [N] nodes, every rate in every row of a table is a
    percentage: it lies between 0 and 100. *)
Theorem every_recorded_rate_is_a_percentage
  (watts_strogatz_graph : Z -> Z -> Q -> RandomState -> Result (Graph * RandomState))
  (Random : Z -> RandomState)
  (N k_degree : Z) (rewiring_prob base weight volatility : Q) (aid : bool)
  (w w0 : Globals) (m0 m' : SchoolModel) (g : Graph) (py : RandomState)
  (num_steps : nat) (np np' : RandomState) (r : ModelRow) :
  watts_strogatz_graph N k_degree rewiring_prob (py_global w) = Ok (g, py) ->
  Z.of_nat (length (G_nodes g)) = N ->
  SchoolModel_init watts_strogatz_graph Random N k_degree rewiring_prob
    base weight volatility aid w = Ok (m0, w0) ->
  run_steps num_steps m0 np = Ok (m', np') ->
  In r (model_vars (datacollector m')) ->
  all_rates (fun q => 0 <= q <= 100) r.
Proof.
  intros Hg HN Hinit Hrun Hr.
  apply SchoolModel_init_inv in Hinit.
  destruct Hinit as (g' & py' & Hg' & _ & _ & Hc).
  rewrite Hg in Hg'. inversion Hg'; subst g' py'. clear Hg'.
  destruct (run_steps_rows _ _ _ _ _ Hrun) as (rows & Htab & _ & Hall & _).
  rewrite (co_model_vars _ _ _ _ _ _ _ _ Hc) in Htab. simpl in Htab.
  rewrite Htab in Hr. rewrite Forall_forall in Hall.
  destruct (Hall r Hr) as (mi & Hev & _ & Hrow).
  apply model_reporters_inv in Hrow.
  destruct Hrow as (Hne & Ht & Hl & Hm & Hh).
  unfold all_rates. rewrite Ht, Hl, Hm, Hh.
  split; [|repeat split; apply get_dropout_by_ses_range].
  assert (Hn : n_agents mi = Z.of_nat (length (agents mi))).
  { rewrite (ev_n_agents _ _ Hev), (evolves_agents_length _ _ Hev).
    rewrite (co_n_agents _ _ _ _ _ _ _ _ Hc).
    now rewrite (constructed_agents_length _ _ _ _ _ _ _ _ Hc). }
  apply percent_range; [|lia].
  rewrite Hn. apply dropout_count_bounds.
Qed.

Lemma every_recorded_rate_is_a_percentage_witness :
  watts_strogatz_graph_p0 5 2 0 (py_global sample_globals) = Ok (sample_graph, []) /\
  Z.of_nat (length (G_nodes sample_graph)) = 5%Z /\
  sample_init = Ok (sample_model, sample_globals_1) /\
  run_steps 5 sample_model sample_np = Ok (sample_model_5, sample_np_5) /\
  In sample_row_3 (model_vars (datacollector sample_model_5)) /\
  all_rates (fun q => 0 <= q <= 100) sample_row_3.
Proof.
  assert (H1 : watts_strogatz_graph_p0 5 2 0 (py_global sample_globals)
               = Ok (sample_graph, [])) by reflexivity.
  assert (H2 : Z.of_nat (length (G_nodes sample_graph)) = 5%Z) by reflexivity.
  assert (H3 : sample_init = Ok (sample_model, sample_globals_1))
    by (vm_compute; reflexivity).
  assert (H4 : run_steps 5 sample_model sample_np = Ok (sample_model_5, sample_np_5))
    by (vm_compute; reflexivity).
  assert (H5 : In sample_row_3 (model_vars (datacollector sample_model_5)))
    by (apply (nth_error_In _ 3); reflexivity).
  repeat (split; [assumption|]).
  exact (every_recorded_rate_is_a_percentage watts_strogatz_graph_p0 Random_const
           5 2 0 (1 # 4) (1 # 2) (3 # 2) true sample_globals sample_globals_1
           sample_model sample_model_5 sample_graph [] 5 sample_np sample_np_5
           sample_row_3 H1 H2 H3 H4 H5).
Defined.

(** ** How the tier rates make up the total *)

Lemma filter_ses_count_occ s l :
  length (filter (fun a => Z.eqb (ses a) s) l)
  = count_occ Z.eq_dec (map ses l) s.
Proof.
  induction l as [|a l IH]; simpl; [reflexivity|].
  destruct (Z.eqb_spec (ses a) s), (Z.eq_dec (ses a) s); try contradiction;
    simpl; now rewrite IH.
Qed.

Lemma dropout_count_cons a l :
  dropout_count (a :: l)
  = ((if is_dropped_out a then 1 else 0) + dropout_count l)%Z.
Proof.
  unfold dropout_count. simpl. destruct (is_dropped_out a); simpl length; lia.
Qed.

Lemma dropout_count_partition l :
  Forall (fun a => In (ses a) [LOW_SES; MEDIUM_SES; HIGH_SES]) l ->
  dropout_count l
  = (dropout_count (filter (fun a => Z.eqb (ses a) LOW_SES) l)
     + dropout_count (filter (fun a => Z.eqb (ses a) MEDIUM_SES) l)
     + dropout_count (filter (fun a => Z.eqb (ses a) HIGH_SES) l))%Z.
Proof.
  induction 1 as [|a l Ha _ IH]; [reflexivity|].
  rewrite dropout_count_cons, IH. simpl filter.
  destruct Ha as [E|[E|[E|[]]]]; rewrite <- E; simpl;
    rewrite dropout_count_cons; lia.
Qed.

Lemma In_ses_distribution N s :
  In s (ses_distribution N) -> In s [LOW_SES; MEDIUM_SES; HIGH_SES].
Proof.
  unfold ses_distribution, list_times. rewrite !in_app_iff.
  intros [H|[H|H]]; apply repeat_spec in H; subst; simpl; auto.
Qed.

Lemma inject_Z_nonzero n : n <> 0%Z -> ~ inject_Z n == 0.
Proof. intros H E. apply H. unfold Qeq in E. simpl in E. lia. Qed.

(** In the exact arithmetic of the model the total rate of a row is the
    weighted sum of its tier rates, with the weights of the fixed split. The
    floats the program records satisfy this up to rounding only; what is
    stated of them below is the ordering that rounding preserves. *)
Lemma rows_weighted_sum
  (watts_strogatz_graph : Z -> Z -> Q -> RandomState -> Result (Graph * RandomState))
  (Random : Z -> RandomState)
  (N k_degree : Z) (rewiring_prob base weight volatility : Q) (aid : bool)
  (w w0 : Globals) (m0 m' : SchoolModel) (g : Graph) (py : RandomState)
  (num_steps : nat) (np np' : RandomState) (r : ModelRow) :
  watts_strogatz_graph N k_degree rewiring_prob (py_global w) = Ok (g, py) ->
  Z.of_nat (length (G_nodes g)) = N ->
  SchoolModel_init watts_strogatz_graph Random N k_degree rewiring_prob
    base weight volatility aid w = Ok (m0, w0) ->
  run_steps num_steps m0 np = Ok (m', np') ->
  In r (model_vars (datacollector m')) ->
  total_dropout_rate r
  == 0.4 * low_ses_dropout_rate r + 0.4 * medium_ses_dropout_rate r
     + 0.2 * high_ses_dropout_rate r.
Proof.
  intros Hg HN Hinit Hrun Hr.
  destruct (SchoolModel_init_tiers _ _ _ _ _ _ _ _ _ _ _ _ _ _ Hg HN Hinit)
    as [Hmod Hperm].
  assert (H0 : (0 <= N)%Z) by lia.
  apply SchoolModel_init_inv in Hinit.
  destruct Hinit as (g' & py' & Hg' & _ & _ & Hc).
  rewrite Hg in Hg'. inversion Hg'; subst g' py'. clear Hg'.
  destruct (run_steps_rows _ _ _ _ _ Hrun) as (rows & Htab & _ & Hall & _).
  rewrite (co_model_vars _ _ _ _ _ _ _ _ Hc) in Htab. simpl in Htab.
  rewrite Htab in Hr. rewrite Forall_forall in Hall.
  destruct (Hall r Hr) as (mi & Hev & _ & Hrow).
  apply model_reporters_inv in Hrow.
  destruct Hrow as (Hne & -> & -> & -> & ->).
  rewrite (ev_n_agents _ _ Hev), (co_n_agents _ _ _ _ _ _ _ _ Hc) in *.
  (* the tiers of the state the row was read from *)
  assert (Hses : map ses (agents mi) = map ses (agents m0)).
  { pose proof (evolves_agents _ _ Hev) as HF. clear - HF.
    induction HF as [|a a' l l' He _ IH]; simpl; [reflexivity|].
    destruct (agent_evolves_identity _ _ He) as (_ & _ & ->). now rewrite IH. }
  assert (Hin : Forall (fun a => In (ses a) [LOW_SES; MEDIUM_SES; HIGH_SES])
                  (agents mi)).
  { apply Forall_forall. intros a Ha. apply (In_ses_distribution N).
    apply Permutation_in with (map ses (agents m0)); [now symmetry|].
    rewrite <- Hses. now apply in_map. }
  pose proof (dropout_count_partition _ Hin) as Hpart.
  destruct (ses_distribution_counts N H0 Hmod) as (HL & HM & HH).
  pose proof (proj1 (Permutation_count_occ Z.eq_dec _ _) Hperm) as Hcount.
  rewrite !Hcount, <- !Hses, <- !filter_ses_count_occ in HL, HM, HH.
  unfold get_dropout_by_ses.
  set (L := filter (fun a => Z.eqb (ses a) LOW_SES) (agents mi)) in *.
  set (M := filter (fun a => Z.eqb (ses a) MEDIUM_SES) (agents mi)) in *.
  set (H := filter (fun a => Z.eqb (ses a) HIGH_SES) (agents mi)) in *.
  assert (HnL : inject_Z (Z.of_nat (length L)) == (2 # 5) * inject_Z N).
  { unfold Qeq, Qmult, inject_Z. cbn [Qnum Qden]. lia. }
  assert (HnM : inject_Z (Z.of_nat (length M)) == (2 # 5) * inject_Z N).
  { unfold Qeq, Qmult, inject_Z. cbn [Qnum Qden]. lia. }
  assert (HnH : inject_Z (Z.of_nat (length H)) == (1 # 5) * inject_Z N).
  { unfold Qeq, Qmult, inject_Z. cbn [Qnum Qden]. lia. }
  assert (HN' : ~ inject_Z N == 0) by now apply inject_Z_nonzero.
  rewrite Hpart, !inject_Z_plus.
  assert (EL : (match L with
                | [] => 0
                | _ :: _ => inject_Z (dropout_count L)
                            / inject_Z (Z.of_nat (length L)) * 100
                end) == inject_Z (dropout_count L) / ((2 # 5) * inject_Z N) * 100).
  { destruct L; [simpl length in HL; lia|]. now rewrite HnL. }
  assert (EM : (match M with
                | [] => 0
                | _ :: _ => inject_Z (dropout_count M)
                            / inject_Z (Z.of_nat (length M)) * 100
                end) == inject_Z (dropout_count M) / ((2 # 5) * inject_Z N) * 100).
  { destruct M; [simpl length in HM; lia|]. now rewrite HnM. }
  assert (EH : (match H with
                | [] => 0
                | _ :: _ => inject_Z (dropout_count H)
                            / inject_Z (Z.of_nat (length H)) * 100
                end) == inject_Z (dropout_count H) / ((1 # 5) * inject_Z N) * 100).
  { destruct H; [simpl length in HH; lia|]. now rewrite HnH. }
  rewrite EL, EM, EH. field. exact HN'.
Qed.


(** X8. On a graph of [N > 0] nodes, in every row of a table the total rate
    lies between the lowest and the highest of the three tier rates: the
    school as a whole never looks better than its best tier nor worse than
    its worst. *)
Theorem total_lies_between_the_tier_rates
  (watts_strogatz_graph : Z -> Z -> Q -> RandomState -> Result (Graph * RandomState))
  (Random : Z -> RandomState)
  (N k_degree : Z) (rewiring_prob base weight volatility : Q) (aid : bool)
  (w w0 : Globals) (m0 m' : SchoolModel) (g : Graph) (py : RandomState)
  (num_steps : nat) (np np' : RandomState) (r : ModelRow) :
  watts_strogatz_graph N k_degree rewiring_prob (py_global w) = Ok (g, py) ->
  Z.of_nat (length (G_nodes g)) = N ->
  SchoolModel_init watts_strogatz_graph Random N k_degree rewiring_prob
    base weight volatility aid w = Ok (m0, w0) ->
  run_steps num_steps m0 np = Ok (m', np') ->
  In r (model_vars (datacollector m')) ->
  Qmin (low_ses_dropout_rate r)
    (Qmin (medium_ses_dropout_rate r) (high_ses_dropout_rate r))
  <= total_dropout_rate r
  /\ total_dropout_rate r
     <= Qmax (low_ses_dropout_rate r)
          (Qmax (medium_ses_dropout_rate r) (high_ses_dropout_rate r)).
Proof.
  intros Hg HN Hinit Hrun Hr.
  pose proof (rows_weighted_sum _ _ _ _ _ _ _ _ _ _ _ _ _ _ _ _ _ _ _
                Hg HN Hinit Hrun Hr) as E.
  set (t := total_dropout_rate r) in *.
  set (l := low_ses_dropout_rate r) in *.
  set (m := medium_ses_dropout_rate r) in *.
  set (h := high_ses_dropout_rate r) in *.
  assert (E' : t == (2 # 5) * l + (2 # 5) * m + (1 # 5) * h)
    by (rewrite E; change 0.4 with (4 # 10); change 0.2 with (2 # 10); ring).
  clear E. split.
  - destruct (Q.min_spec m h) as [[? ->]|[? ->]];
      [destruct (Q.min_spec l m) as [[? ->]|[? ->]]
      |destruct (Q.min_spec l h) as [[? ->]|[? ->]]]; lra.
  - destruct (Q.max_spec m h) as [[? ->]|[? ->]];
      [destruct (Q.max_spec l h) as [[? ->]|[? ->]]
      |destruct (Q.max_spec l m) as [[? ->]|[? ->]]]; lra.
Qed.

Lemma total_lies_between_the_tier_rates_witness :
  watts_strogatz_graph_p0 5 2 0 (py_global sample_globals) = Ok (sample_graph, []) /\
  Z.of_nat (length (G_nodes sample_graph)) = 5%Z /\
  sample_init = Ok (sample_model, sample_globals_1) /\
  run_steps 5 sample_model sample_np = Ok (sample_model_5, sample_np_5) /\
  In sample_row_3 (model_vars (datacollector sample_model_5)) /\
  Qmin (low_ses_dropout_rate sample_row_3)
    (Qmin (medium_ses_dropout_rate sample_row_3)
       (high_ses_dropout_rate sample_row_3))
  <= total_dropout_rate sample_row_3
  /\ total_dropout_rate sample_row_3
     <= Qmax (low_ses_dropout_rate sample_row_3)
          (Qmax (medium_ses_dropout_rate sample_row_3)
             (high_ses_dropout_rate sample_row_3)).
Proof.
  assert (H1 : watts_strogatz_graph_p0 5 2 0 (py_global sample_globals)
               = Ok (sample_graph, [])) by reflexivity.
  assert (H2 : Z.of_nat (length (G_nodes sample_graph)) = 5%Z) by reflexivity.
  assert (H3 : sample_init = Ok (sample_model, sample_globals_1))
    by (vm_compute; reflexivity).
  assert (H4 : run_steps 5 sample_model sample_np = Ok (sample_model_5, sample_np_5))
    by (vm_compute; reflexivity).
  assert (H5 : In sample_row_3 (model_vars (datacollector sample_model_5)))
    by (apply (nth_error_In _ 3); reflexivity).
  repeat (split; [assumption|]).
  exact (total_lies_between_the_tier_rates watts_strogatz_graph_p0
           Random_const 5 2 0 (1 # 4) (1 # 2) (3 # 2) true sample_globals
           sample_globals_1 sample_model sample_model_5 sample_graph [] 5
           sample_np sample_np_5 sample_row_3 H1 H2 H3 H4 H5).
Defined.

(** ** Bounds and monotonicity of the dropout probability *)

Lemma count_dropped_out_le m : forall nodes c0 c,
  count_dropped_out m nodes c0 = Ok c -> (c <= c0 + Z.of_nat (length nodes))%Z.
Proof.
  induction nodes as [|n nodes IH]; simpl; intros c0 c H.
  - inversion H. lia.
  - destruct (G_node_agent (G m) n) as [[|ref refs]|e]; cbn [bind] in H;
      try discriminate.
    destruct (deref m ref) as [b|e]; cbn [bind] in H; [|discriminate].
    destruct (Status_eqb (status b) DroppedOut); apply IH in H; lia.
Qed.

Lemma peer_influence_score_le_1 m pos score :
  peer_influence_score m pos = Ok score -> score <= 1.
Proof.
  unfold peer_influence_score.
  destruct (get_neighbors (G m) pos) as [[|n l]|e]; cbn [bind]; try discriminate.
  - intros [= <-]. discriminate.
  - destruct (count_dropped_out m (n :: l) 0) as [c|e] eqn:E; cbn [bind];
      [|discriminate].
    intros [= <-]. apply count_dropped_out_le in E.
    apply Qle_shift_div_r.
    + change 0 with (inject_Z 0). rewrite <- Zlt_Qlt. simpl length. lia.
    + rewrite Qmult_1_l, <- Zle_Qle. simpl in E. exact E.
Qed.

Lemma py_max_le x y : 0 <= y -> x <= y -> py_max 0 x <= y.
Proof.
  intros Hy Hxy. unfold py_max. destruct (Qltb 0 x); assumption.
Qed.

Lemma py_max_mono x y : x <= y -> py_max 0 x <= py_max 0 y.
Proof.
  intros Hxy. unfold py_max.
  destruct (Qltb 0 x) eqn:Ex, (Qltb 0 y) eqn:Ey.
  - exact Hxy.
  - apply Qltb_lt in Ex. apply Qltb_ge in Ey. lra.
  - apply Qltb_lt in Ey. lra.
  - apply Qle_refl.
Qed.

Lemma performance_risk_le_1 perf : 0 <= perf -> performance_risk perf <= 1.
Proof.
  intros H. unfold performance_risk, PERFORMANCE_THRESHOLD.
  apply Qle_shift_div_r; [reflexivity|].
  apply py_max_le; lra.
Qed.

Lemma performance_risk_antitone p1 p2 :
  p1 <= p2 -> performance_risk p2 <= performance_risk p1.
Proof.
  intros H. unfold performance_risk, PERFORMANCE_THRESHOLD.
  unfold Qdiv. apply Qmult_le_compat_r; [|discriminate].
  apply py_max_mono. lra.
Qed.

Lemma apply_intervention_mono m s p q :
  p <= q -> apply_intervention m s p <= apply_intervention m s q.
Proof.
  intros H. unfold apply_intervention, FINANCIAL_AID_EFFECTIVENESS.
  destruct (financial_aid_policy m && Z.eqb s LOW_SES); lra.
Qed.

(** X9. For a peer weight between 0 and 1 and a performance in range, the
    probability that decides a dropout lies between two values of the same
    formula: the one for a student at no performance risk none of whose
    neighbours has dropped out, and the one for a student at full risk all of
    whose neighbours have. Risk and peer score only ever push it up, and
    nothing clamps it. *)
Theorem p_drop_lies_between_its_extremes (m : SchoolModel) (a : StudentAgent)
  (p : Q) :
  0 <= peer_influence_weight m <= 1 ->
  0 <= performance a <= 100 ->
  p_drop m a = Ok p ->
  apply_intervention m (ses a) (p_drop_combined m 0 0) <= p
  /\ p <= apply_intervention m (ses a) (p_drop_combined m 1 1).
Proof.
  intros [Hw0 Hw1] [Hp0 Hp1] H. unfold p_drop in H.
  destruct (peer_influence_score m (pos a)) as [score|e] eqn:Hs;
    cbn [bind] in H; [|discriminate].
  inversion H as [Hp]. clear H.
  pose proof (peer_influence_score_nonneg _ _ _ Hs) as Hs0.
  pose proof (peer_influence_score_le_1 _ _ _ Hs) as Hs1.
  pose proof (performance_risk_nonneg (performance a)) as Hr0.
  pose proof (performance_risk_le_1 (performance a) Hp0) as Hr1.
  set (risk := performance_risk (performance a)) in *.
  split; apply apply_intervention_mono; unfold p_drop_combined;
    set (wt := peer_influence_weight m) in *;
    set (b := base_dropout_rate m) in *.
  - assert (0 * (1 - wt) <= risk * (1 - wt))
      by (apply Qmult_le_compat_r; lra).
    assert (0 * wt <= score * wt) by (apply Qmult_le_compat_r; lra).
    lra.
  - assert (risk * (1 - wt) <= 1 * (1 - wt))
      by (apply Qmult_le_compat_r; lra).
    assert (score * wt <= 1 * wt) by (apply Qmult_le_compat_r; lra).
    lra.
Qed.

Lemma p_drop_lies_between_its_extremes_witness :
  0 <= peer_influence_weight sample_model_2 <= 1 /\
  0 <= performance sample_low <= 100 /\
  p_drop sample_model_2 sample_low = Ok sample_p_on /\
  apply_intervention sample_model_2 (ses sample_low)
    (p_drop_combined sample_model_2 0 0) <= sample_p_on /\
  sample_p_on <= apply_intervention sample_model_2 (ses sample_low)
                   (p_drop_combined sample_model_2 1 1).
Proof.
  assert (H2 : 0 <= peer_influence_weight sample_model_2 <= 1)
    by (split; discriminate).
  assert (H3 : 0 <= performance sample_low <= 100) by (split; discriminate).
  assert (H4 : p_drop sample_model_2 sample_low = Ok sample_p_on)
    by (vm_compute; reflexivity).
  repeat (split; [assumption|]).
  exact (p_drop_lies_between_its_extremes sample_model_2 sample_low
           sample_p_on H2 H3 H4).
Defined.

Lemma p_drop_set_performance m a perf p :
  p_drop m (set_performance a perf) = Ok p ->
  exists score,
    peer_influence_score m (pos a) = Ok score /\
    p = apply_intervention m (ses a)
          (p_drop_combined m (performance_risk perf) score).
Proof.
  unfold p_drop. simpl.
  destruct (peer_influence_score m (pos a)) as [score|e]; cbn [bind];
    [|discriminate].
  intros [= <-]. eauto.
Qed.

(** X10. With a peer weight between 0 and 1, a better performance never
    raises the dropout probability of a student, everything else equal. *)
Theorem better_performance_never_raises_p_drop (m : SchoolModel)
  (a : StudentAgent) (perf1 perf2 p1 p2 : Q) :
  0 <= peer_influence_weight m <= 1 ->
  perf1 <= perf2 ->
  p_drop m (set_performance a perf1) = Ok p1 ->
  p_drop m (set_performance a perf2) = Ok p2 ->
  p2 <= p1.
Proof.
  intros [Hw0 Hw1] Hperf H1 H2.
  apply p_drop_set_performance in H1. destruct H1 as (s1 & Hs1 & ->).
  apply p_drop_set_performance in H2. destruct H2 as (s2 & Hs2 & ->).
  rewrite Hs1 in Hs2. inversion Hs2; subst s2.
  apply apply_intervention_mono. unfold p_drop_combined.
  pose proof (performance_risk_antitone _ _ Hperf) as Hr.
  assert (performance_risk perf2 * (1 - peer_influence_weight m)
          <= performance_risk perf1 * (1 - peer_influence_weight m))
    by (apply Qmult_le_compat_r; lra).
  lra.
Qed.

Lemma better_performance_never_raises_p_drop_witness :
  0 <= peer_influence_weight sample_model_2 <= 1 /\
  30 <= 100 /\
  p_drop sample_model_2 (set_performance sample_low 30) = Ok sample_p_30 /\
  p_drop sample_model_2 (set_performance sample_low 100) = Ok sample_p_on /\
  sample_p_on <= sample_p_30.
Proof.
  assert (H1 : 0 <= peer_influence_weight sample_model_2 <= 1)
    by (split; discriminate).
  assert (H2 : 30 <= 100) by discriminate.
  assert (H3 : p_drop sample_model_2 (set_performance sample_low 30)
               = Ok sample_p_30) by (vm_compute; reflexivity).
  assert (H4 : p_drop sample_model_2 (set_performance sample_low 100)
               = Ok sample_p_on) by (vm_compute; reflexivity).
  repeat (split; [assumption|]).
  exact (better_performance_never_raises_p_drop sample_model_2 sample_low
           30 100 sample_p_30 sample_p_on H1 H2 H3 H4).
Defined.

(** ** Certain dropout, and no dropout at all *)

Lemma dropout_is_certain_p_drop m a p :
  dropout_is_certain m -> p_drop m a = Ok p -> 1 <= p.
Proof.
  intros [Hb [Hw0 Hw1]] H. unfold p_drop in H.
  destruct (peer_influence_score m (pos a)) as [score|e] eqn:Hs;
    cbn [bind] in H; [|discriminate].
  inversion H as [Hp]. clear H.
  pose proof (peer_influence_score_nonneg _ _ _ Hs) as Hs0.
  pose proof (performance_risk_nonneg (performance a)) as Hr0.
  set (risk := performance_risk (performance a)) in *.
  assert (Hq : base_dropout_rate m <= p_drop_combined m risk score).
  { unfold p_drop_combined.
    assert (0 <= risk * (1 - peer_influence_weight m))
      by (apply Qmult_le_0_compat; lra).
    assert (0 <= score * peer_influence_weight m)
      by (apply Qmult_le_0_compat; lra).
    lra. }
  set (q := p_drop_combined m risk score) in *.
  subst p.
  unfold apply_intervention, FINANCIAL_AID_EFFECTIVENESS in *.
  destruct (financial_aid_policy m); cbn [andb] in *.
  - change (Z.eqb LOW_SES LOW_SES) with true in Hb. cbv iota in Hb.
    destruct (Z.eqb (ses a) LOW_SES); lra.
  - lra.
Qed.

Lemma dropout_is_certain_evolves m m' :
  evolves m m' -> dropout_is_certain m -> dropout_is_certain m'.
Proof.
  intros Hev [Hb Hw]. unfold dropout_is_certain, apply_intervention in *.
  now rewrite (ev_aid _ _ Hev), (ev_base _ _ Hev), (ev_weight _ _ Hev).
Qed.

Lemma StudentAgent_step_certain self m np m' np' :
  dropout_is_certain m ->
  StudentAgent_step self m np = Ok (m', np') ->
  exists a', dict_get self (_agents (schedule m')) = Some a' /\
             status a' = DroppedOut.
Proof.
  intros Hc H. apply StudentAgent_step_inv in H.
  destruct H as (a & Ha & [(Hs & -> & _) | (Hs & z & np1 & p & _ & Hp & _ & Hm)]).
  - exists a. split; [now apply deref_Ok|exact Hs].
  - apply dropout_is_certain_p_drop in Hp.
    2:{ destruct Hc as [Hb Hw]. split; assumption. }
    pose proof (np_random_rand_range np1) as [_ Hu].
    assert (E : Qltb (fst (np_random_rand np1)) p = true)
      by (apply Qltb_lt; lra).
    rewrite E in Hm. subst m'. eexists. split.
    + apply deref_Ok, deref_store_eq.
    + reflexivity.
Qed.

Lemma do_each_step_certain keys : forall m np m' np',
  dropout_is_certain m ->
  do_each_step keys m np = Ok (m', np') ->
  forall k a', In k keys -> dict_get k (_agents (schedule m')) = Some a' ->
               status a' = DroppedOut.
Proof.
  induction keys as [|k0 keys IH]; simpl; intros m np m' np' Hc H k a' Hk Ha';
    [contradiction|].
  destruct (dict_get k0 (_agents (schedule m))) as [a0|] eqn:E0.
  - destruct (StudentAgent_step k0 m np) as [[m1 np1]|e] eqn:E; cbn [bind] in H;
      [|discriminate].
    pose proof (StudentAgent_step_evolves _ _ _ _ _ E) as Hev1.
    pose proof (dropout_is_certain_evolves _ _ Hev1 Hc) as Hc1.
    destruct Hk as [<-|Hk]; [|eapply IH; eauto].
    destruct (StudentAgent_step_certain _ _ _ _ _ Hc E) as (a1 & Ha1 & Hs1).
    apply do_each_step_evolves in H.
    destruct (entries_evolve_get _ _ _ _ (ev_agents _ _ H) Ha1) as (a2 & Ha2 & Hev).
    rewrite Ha' in Ha2. inversion Ha2; subst a2.
    now rewrite (agent_evolves_dropped _ _ Hev Hs1).
  - destruct Hk as [<-|Hk]; [|eapply IH; eauto].
    apply do_each_step_evolves in H.
    pose proof (entries_evolve_is_some _ _ k0 (ev_agents _ _ H)) as Hsome.
    rewrite E0, Ha' in Hsome. discriminate.
Qed.

(** X12. When the base rate, after the financial aid discount if the policy
    is on, is at least 1 (and the peer weight is between 0 and 1), one call
    of [step] makes every student drop out, whatever the random draws and
    the order of activation: a probability above 1 is a certain dropout. *)
Theorem one_step_empties_the_school (m m' : SchoolModel) (np np' : RandomState)
  (k : Z) (a' : StudentAgent) :
  1 <= apply_intervention m LOW_SES (base_dropout_rate m) ->
  0 <= peer_influence_weight m <= 1 ->
  SchoolModel_step m np = Ok (m', np') ->
  dict_get k (_agents (schedule m')) = Some a' ->
  status a' = DroppedOut.
Proof.
  intros Hb Hw Hstep Ha'.
  assert (Hc : dropout_is_certain m) by (split; assumption).
  pose proof (SchoolModel_step_evolves _ _ _ _ Hstep) as Hev.
  unfold SchoolModel_step in Hstep.
  destruct (datacollector_collect _) as [m1|e] eqn:E1; cbn [bind] in Hstep;
    [|discriminate].
  assert (Hc1 : dropout_is_certain m1).
  { apply datacollector_collect_evolves in E1.
    unfold dropout_is_certain, apply_intervention in *.
    rewrite (ev_aid _ _ E1), (ev_base _ _ E1), (ev_weight _ _ E1). exact Hc. }
  assert (Hkeys1 : dict_keys (_agents (schedule m1)) = dict_keys (_agents (schedule m))).
  { apply datacollector_collect_evolves in E1.
    exact (entries_evolve_keys _ _ (ev_agents _ _ E1)). }
  unfold schedule_step in Hstep.
  pose proof (shuffle_Permutation (dict_keys (_agents (schedule m1))) (random m1))
    as Hperm.
  destruct (shuffle _ _) as [keys r]. simpl in Hperm.
  match type of Hstep with
  | context [do_each_step keys ?m0 np] =>
      destruct (do_each_step keys m0 np) as [[m2 np2]|e] eqn:E2;
        cbn [bind] in Hstep; [|discriminate]
  end.
  inversion Hstep; subst m' np'. simpl in Ha'.
  eapply (do_each_step_certain keys _ np m2 np2); [|exact E2| |exact Ha'].
  - exact Hc1.
  - apply Permutation_in with (dict_keys (_agents (schedule m1))); [exact Hperm|].
    rewrite Hkeys1, <- (entries_evolve_keys _ _ (ev_agents _ _ Hev)). simpl.
    apply dict_get_In in Ha'. unfold dict_keys.
    change k with (fst (k, a')). now apply in_map.
Qed.

Lemma one_step_empties_the_school_witness :
  1 <= apply_intervention certain_model LOW_SES (base_dropout_rate certain_model) /\
  0 <= peer_influence_weight certain_model <= 1 /\
  SchoolModel_step certain_model certain_np = Ok (certain_model_1, certain_np_1) /\
  dict_get 3 (_agents (schedule certain_model_1)) = Some certain_student_3 /\
  status certain_student_3 = DroppedOut.
Proof.
  assert (H1 : 1 <= apply_intervention certain_model LOW_SES
                      (base_dropout_rate certain_model)) by discriminate.
  assert (H2 : 0 <= peer_influence_weight certain_model <= 1)
    by (split; discriminate).
  assert (H3 : SchoolModel_step certain_model certain_np
               = Ok (certain_model_1, certain_np_1)) by (vm_compute; reflexivity).
  assert (H4 : dict_get 3 (_agents (schedule certain_model_1))
               = Some certain_student_3) by reflexivity.
  repeat (split; [assumption|]).
  exact (one_step_empties_the_school certain_model certain_model_1 certain_np
           certain_np_1 3 certain_student_3 H1 H2 H3 H4).
Defined.

Lemma count_dropped_out_all_attending m : forall nodes c0 c,
  Forall (fun a => status a = Attending) (agents m) ->
  count_dropped_out m nodes c0 = Ok c -> c = c0.
Proof.
  induction nodes as [|n nodes IH]; simpl; intros c0 c Hall H.
  - now inversion H.
  - destruct (G_node_agent (G m) n) as [[|ref refs]|e]; cbn [bind] in H;
      try discriminate.
    destruct (deref m ref) as [b|e] eqn:Hb; cbn [bind] in H; [|discriminate].
    apply deref_Ok, dict_get_In_value in Hb.
    rewrite Forall_forall in Hall. rewrite (Hall b Hb) in H. simpl in H.
    eapply IH; eauto. now apply Forall_forall.
Qed.

Lemma peer_influence_score_all_attending m pos score :
  Forall (fun a => status a = Attending) (agents m) ->
  peer_influence_score m pos = Ok score -> score == 0.
Proof.
  intros Hall. unfold peer_influence_score.
  destruct (get_neighbors (G m) pos) as [[|n l]|e]; cbn [bind]; try discriminate.
  - intros [= <-]. reflexivity.
  - destruct (count_dropped_out m (n :: l) 0) as [c|e] eqn:E; cbn [bind];
      [|discriminate].
    intros [= <-]. apply count_dropped_out_all_attending in E; [|assumption].
    subst c. unfold Qdiv. change (inject_Z 0) with 0. ring.
Qed.

Lemma StudentAgent_step_pure_contagion self m np m' np' :
  base_dropout_rate m <= 0 -> peer_influence_weight m == 1 ->
  Forall (fun a => status a = Attending) (agents m) ->
  StudentAgent_step self m np = Ok (m', np') ->
  Forall (fun a => status a = Attending) (agents m').
Proof.
  intros Hb Hw Hall H. apply StudentAgent_step_inv in H.
  destruct H as (a & Ha & [(_ & -> & _) | (Hs & z & np1 & p & _ & Hp & _ & Hm)]);
    [assumption|].
  set (a1 := set_performance a _) in *.
  assert (Hall1 : Forall (fun a => status a = Attending) (agents (store m self a1))).
  { unfold agents, store. simpl. apply dict_values_set_Forall; assumption. }
  assert (Hle : p <= 0).
  { unfold p_drop in Hp.
    destruct (peer_influence_score (store m self a1) (pos a1)) as [score|e] eqn:Hsc;
      cbn [bind] in Hp; [|discriminate].
    inversion Hp as [Hp']. clear Hp Hp'.
    apply peer_influence_score_all_attending in Hsc; [|assumption].
    unfold apply_intervention, p_drop_combined, FINANCIAL_AID_EFFECTIVENESS.
    change (base_dropout_rate (store m self a1)) with (base_dropout_rate m).
    change (peer_influence_weight (store m self a1))
      with (peer_influence_weight m).
    match goal with
    | |- context [performance_risk ?x] => generalize (performance_risk x)
    end.
    intros risk.
    assert (E : base_dropout_rate m + risk * (1 - peer_influence_weight m)
                + score * peer_influence_weight m == base_dropout_rate m).
    { rewrite Hw, Hsc. ring. }
    destruct (_ && _); rewrite E; lra. }
  pose proof (np_random_rand_range np1) as [Hu _].
  assert (E : Qltb (fst (np_random_rand np1)) p = false)
    by (apply Qltb_ge; lra).
  rewrite E in Hm. now subst m'.
Qed.

Lemma do_each_step_pure_contagion keys : forall m np m' np',
  base_dropout_rate m <= 0 -> peer_influence_weight m == 1 ->
  Forall (fun a => status a = Attending) (agents m) ->
  do_each_step keys m np = Ok (m', np') ->
  Forall (fun a => status a = Attending) (agents m').
Proof.
  induction keys as [|k keys IH]; simpl; intros m np m' np' Hb Hw Hall H.
  - now inversion H; subst.
  - destruct (dict_get k _); [|eauto].
    destruct (StudentAgent_step k m np) as [[m1 np1]|e] eqn:E; cbn [bind] in H;
      [|discriminate].
    pose proof (StudentAgent_step_evolves _ _ _ _ _ E) as Hev.
    eapply (IH m1); [| | |exact H].
    + now rewrite (ev_base _ _ Hev).
    + now rewrite (ev_weight _ _ Hev).
    + eapply StudentAgent_step_pure_contagion; eauto.
Qed.

(** X13. Contagion needs a first case: with a base rate of 0 (or below) and
    a peer weight of 1, a school in which everybody attends stays that way,
    whatever the performances and the random draws. *)
Theorem pure_contagion_never_starts (num_steps : nat) (m m' : SchoolModel)
  (np np' : RandomState) :
  base_dropout_rate m <= 0 ->
  peer_influence_weight m == 1 ->
  Forall (fun a => status a = Attending) (agents m) ->
  run_steps num_steps m np = Ok (m', np') ->
  Forall (fun a => status a = Attending) (agents m').
Proof.
  revert m np. induction num_steps as [|n IH]; intros m np Hb Hw Hall H.
  - simpl in H. now inversion H; subst.
  - simpl in H.
    destruct (SchoolModel_step m np) as [[m1 np1]|e] eqn:E; cbn [bind] in H;
      [|discriminate].
    pose proof (SchoolModel_step_evolves _ _ _ _ E) as Hev.
    apply (IH m1 np1); [| | |exact H].
    + now rewrite (ev_base _ _ Hev).
    + now rewrite (ev_weight _ _ Hev).
    + unfold SchoolModel_step in E.
      destruct (datacollector_collect _) as [m0|e] eqn:E0; cbn [bind] in E;
        [|discriminate].
      unfold datacollector_collect in E0.
      destruct (model_reporters _); cbn [bind] in E0; [|discriminate].
      inversion E0; subst m0. clear E0.
      unfold schedule_step in E. destruct (shuffle _ _) as [keys r].
      match type of E with
      | context [do_each_step keys ?m0 np] =>
          destruct (do_each_step keys m0 np) as [[m2 np2]|e] eqn:E2;
            cbn [bind] in E; [|discriminate]
      end.
      inversion E; subst m1 np1.
      change (Forall (fun a => status a = Attending) (agents m2)).
      eapply do_each_step_pure_contagion; [| | |exact E2]; assumption.
Qed.

Lemma pure_contagion_never_starts_witness :
  base_dropout_rate contagion_model <= 0 /\
  peer_influence_weight contagion_model == 1 /\
  Forall (fun a => status a = Attending) (agents contagion_model) /\
  run_steps 4 contagion_model contagion_np = Ok (contagion_model_4, contagion_np_4) /\
  Forall (fun a => status a = Attending) (agents contagion_model_4).
Proof.
  assert (H1 : base_dropout_rate contagion_model <= 0) by discriminate.
  assert (H2 : peer_influence_weight contagion_model == 1) by reflexivity.
  assert (H3 : Forall (fun a => status a = Attending) (agents contagion_model))
    by (repeat constructor).
  assert (H4 : run_steps 4 contagion_model contagion_np
               = Ok (contagion_model_4, contagion_np_4)) by (vm_compute; reflexivity).
  repeat (split; [assumption|]).
  exact (pure_contagion_never_starts 4 contagion_model contagion_model_4
           contagion_np contagion_np_4 H1 H2 H3 H4).
Defined.

(** ** A school without students *)

(** X14. A model built with [N = 0] has no students, and its first call of
    [step] fails with a [ZeroDivisionError]: the total dropout rate divides
    by [N]. *)
Theorem empty_school_fails_at_first_step
  (watts_strogatz_graph : Z -> Z -> Q -> RandomState -> Result (Graph * RandomState))
  (Random : Z -> RandomState)
  (k_degree : Z) (rewiring_prob base weight volatility : Q) (aid : bool)
  (w w1 : Globals) (m : SchoolModel) (np : RandomState) :
  SchoolModel_init watts_strogatz_graph Random 0 k_degree rewiring_prob
    base weight volatility aid w = Ok (m, w1) ->
  agents m = [] /\
  get_dropout_rate m = Raise ZeroDivisionError /\
  SchoolModel_step m np = Raise ZeroDivisionError.
Proof.
  intros Hinit. apply SchoolModel_init_inv in Hinit.
  destruct Hinit as (g & py & _ & _ & Hlen & Hc).
  assert (Hnodes : length (G_nodes g) = 0%nat) by (simpl in Hlen; lia).
  pose proof (constructed_agents_length _ _ _ _ _ _ _ _ Hc) as Hag.
  rewrite Hnodes in Hag.
  pose proof (co_n_agents _ _ _ _ _ _ _ _ Hc) as HN.
  assert (Hrate : get_dropout_rate m = Raise ZeroDivisionError).
  { unfold get_dropout_rate. now rewrite HN. }
  split; [now apply length_zero_iff_nil|]. split; [exact Hrate|].
  unfold SchoolModel_step, datacollector_collect, model_reporters.
  change (get_dropout_rate (with_steps m (steps m + 1)%Z))
    with (get_dropout_rate m).
  now rewrite Hrate.
Qed.

Lemma empty_school_fails_at_first_step_witness :
  empty_init = Ok (empty_school, empty_globals) /\
  agents empty_school = [] /\
  SchoolModel_step empty_school sample_draws = Raise ZeroDivisionError.
Proof.
  assert (H1 : empty_init = Ok (empty_school, empty_globals))
    by (vm_compute; reflexivity).
  destruct (empty_school_fails_at_first_step watts_strogatz_graph_p0 Random_const
              0 0 (1 # 1000) (1 # 2) (3 # 2) false sample_globals empty_globals
              empty_school sample_draws H1) as (H2 & _ & H3).
  repeat split; assumption.
Defined.

(** ** The agent-level records *)

Lemma SchoolModel_step_records m np m' np' :
  SchoolModel_step m np = Ok (m', np') ->
  _agent_records (datacollector m')
  = dict_set (schedule_steps (schedule m)) (map agent_reporters (agents m))
      (_agent_records (datacollector m)).
Proof.
  unfold SchoolModel_step, datacollector_collect.
  change (model_reporters (with_steps m (steps m + 1)%Z))
    with (model_reporters m).
  destruct (model_reporters m) as [row|e]; cbn [bind]; [|discriminate].
  unfold schedule_step. destruct (shuffle _ _) as [keys r].
  match goal with
  | |- context [do_each_step keys ?m0 np] =>
      destruct (do_each_step keys m0 np) as [[m1 np1]|e] eqn:E; cbn [bind];
        [|discriminate]
  end.
  intros [= <- <-]. apply do_each_step_bookkeeping in E.
  destruct E as [_ E2 _ _]. simpl in *. now rewrite E2.
Qed.

Lemma evolves_unique_ids m m' :
  evolves m m' -> map unique_id (agents m') = map unique_id (agents m).
Proof.
  intros Hev. pose proof (evolves_agents _ _ Hev) as HF.
  induction HF as [|a a' l l' He _ IH]; simpl; [reflexivity|].
  destruct (agent_evolves_identity _ _ He) as (-> & _ & _). now rewrite IH.
Qed.

Lemma run_steps_records n : forall m np m' np',
  (forall key, In key (dict_keys (_agent_records (datacollector m))) ->
               (key < schedule_steps (schedule m))%Z) ->
  Forall (fun rec => map AgentRow_id (snd rec) = map unique_id (agents m))
    (_agent_records (datacollector m)) ->
  run_steps n m np = Ok (m', np') ->
  schedule_steps (schedule m') = (schedule_steps (schedule m) + Z.of_nat n)%Z /\
  length (_agent_records (datacollector m'))
  = (length (_agent_records (datacollector m)) + n)%nat /\
  Forall (fun rec => map AgentRow_id (snd rec) = map unique_id (agents m'))
    (_agent_records (datacollector m')).
Proof.
  induction n as [|n IH]; intros m np m' np' Hkeys Hall H.
  - simpl in H. inversion H; subst. repeat split; try lia. exact Hall.
  - simpl in H.
    destruct (SchoolModel_step m np) as [[m1 np1]|e] eqn:E; cbn [bind] in H;
      [|discriminate].
    pose proof (SchoolModel_step_evolves _ _ _ _ E) as Hev.
    pose proof (SchoolModel_step_records _ _ _ _ E) as Hrec.
    pose proof (SchoolModel_step_inv _ _ _ _ E) as (_ & Hss & _).
    assert (Habs : dict_get (schedule_steps (schedule m))
                     (_agent_records (datacollector m)) = None).
    { apply dict_get_absent. intros key Hk. apply Hkeys in Hk. lia. }
    rewrite dict_set_absent in Hrec by exact Habs.
    destruct (IH m1 np1 m' np') as (H1 & H2 & H3); [| |exact H|].
    + intros key Hk. rewrite Hrec in Hk. unfold dict_keys in Hk.
      rewrite map_app in Hk. apply in_app_or in Hk. destruct Hk as [Hk|Hk].
      * apply Hkeys in Hk. lia.
      * simpl in Hk. destruct Hk as [<-|[]]. lia.
    + rewrite Hrec, (evolves_unique_ids _ _ Hev). apply Forall_app. split.
      * exact Hall.
      * constructor; [|constructor]. simpl. rewrite map_map.
        apply map_ext. intros a. reflexivity.
    + rewrite H1, H2, Hss, Hrec, length_app. simpl. repeat split; try lia.
      exact H3.
Qed.

(** The snapshots of a run in the model: one per call of [step], each with
    the students in the order of [schedule.agents]. *)
Lemma run_snapshots
  (watts_strogatz_graph : Z -> Z -> Q -> RandomState -> Result (Graph * RandomState))
  (Random : Z -> RandomState)
  (N k_degree : Z) (rewiring_prob base weight volatility : Q) (aid : bool)
  (w w0 : Globals) (m0 m' : SchoolModel) (num_steps : nat)
  (np np' : RandomState) :
  SchoolModel_init watts_strogatz_graph Random N k_degree rewiring_prob
    base weight volatility aid w = Ok (m0, w0) ->
  run_steps num_steps m0 np = Ok (m', np') ->
  schedule_steps (schedule m') = steps m' /\
  length (_agent_records (datacollector m')) = num_steps /\
  Forall (fun rec => map AgentRow_id (snd rec) = map unique_id (agents m'))
    (_agent_records (datacollector m')) /\
  map unique_id (agents m') = map Z.of_nat (seq 0 (length (agents m'))).
Proof.
  intros Hinit Hrun.
  pose proof Hinit as Hi. apply SchoolModel_init_inv in Hi.
  destruct Hi as (g & py & _ & _ & _ & Hc).
  assert (Hrec0 : _agent_records (datacollector m0) = []).
  { unfold SchoolModel_init in Hinit.
    destruct (watts_strogatz_graph _ _ _ _) as [[g0 py0]|e]; cbn [bind] in Hinit;
      [|discriminate].
    destruct (make_agents _ _) as [[m1 np1]|e]; cbn [bind] in Hinit;
      [|discriminate].
    now inversion Hinit. }
  destruct (run_steps_records num_steps m0 np m' np') as (H1 & H2 & H3);
    [rewrite Hrec0; intros key [] | rewrite Hrec0; constructor | exact Hrun |].
  destruct (run_steps_counts _ _ _ _ _ Hrun) as [Hs _].
  rewrite (co_steps _ _ _ _ _ _ _ _ Hc) in Hs.
  rewrite (co_schedule_steps _ _ _ _ _ _ _ _ Hc) in H1.
  rewrite Hrec0 in H2. simpl in H2.
  split; [lia|]. split; [exact H2|]. split; [exact H3|].
  pose proof (run_steps_evolves _ _ _ _ _ Hrun) as Hev.
  rewrite (evolves_unique_ids _ _ Hev), (evolves_agents_length _ _ Hev).
  rewrite (constructed_agents_length _ _ _ _ _ _ _ _ Hc).
  rewrite <- (co_keys _ _ _ _ _ _ _ _ Hc).
  pose proof (co_placed _ _ _ _ _ _ _ _ Hc) as Hp.
  unfold agents, dict_values, dict_keys. clear - Hp.
  induction Hp as [|e node l l' [He _] _ IH]; simpl; [reflexivity|].
  now rewrite He, IH.
Qed.


(** X15. Besides the model-level table, a run keeps one agent-level snapshot
    per call of [step]; every snapshot lists each of the students
    [0 .. n-1] exactly once, whatever the order, and the scheduler's own
    counter advances in step with the model's. *)
Theorem every_snapshot_lists_every_student_once
  (watts_strogatz_graph : Z -> Z -> Q -> RandomState -> Result (Graph * RandomState))
  (Random : Z -> RandomState)
  (N k_degree : Z) (rewiring_prob base weight volatility : Q) (aid : bool)
  (w w0 : Globals) (m0 m' : SchoolModel) (num_steps : nat)
  (np np' : RandomState) :
  SchoolModel_init watts_strogatz_graph Random N k_degree rewiring_prob
    base weight volatility aid w = Ok (m0, w0) ->
  run_steps num_steps m0 np = Ok (m', np') ->
  schedule_steps (schedule m') = steps m' /\
  length (_agent_records (datacollector m')) = num_steps /\
  Forall (fun rec =>
            Permutation (map AgentRow_id (snd rec))
              (py_range (Z.of_nat (length (agents m')))))
    (_agent_records (datacollector m')).
Proof.
  intros Hinit Hrun.
  destruct (run_snapshots _ _ _ _ _ _ _ _ _ _ _ _ _ _ _ _ Hinit Hrun)
    as (H1 & H2 & H3 & H4).
  split; [exact H1|]. split; [exact H2|].
  eapply Forall_impl; [|exact H3].
  intros rec Hrec. cbv beta in Hrec. rewrite Hrec, H4.
  unfold py_range. rewrite Nat2Z.id. apply Permutation_refl.
Qed.

Lemma every_snapshot_lists_every_student_once_witness :
  sample_init = Ok (sample_model, sample_globals_1) /\
  run_steps 5 sample_model sample_np = Ok (sample_model_5, sample_np_5) /\
  schedule_steps (schedule sample_model_5) = steps sample_model_5 /\
  length (_agent_records (datacollector sample_model_5)) = 5%nat /\
  Forall (fun rec =>
            Permutation (map AgentRow_id (snd rec))
              (py_range (Z.of_nat (length (agents sample_model_5)))))
    (_agent_records (datacollector sample_model_5)).
Proof.
  assert (H1 : sample_init = Ok (sample_model, sample_globals_1))
    by (vm_compute; reflexivity).
  assert (H2 : run_steps 5 sample_model sample_np = Ok (sample_model_5, sample_np_5))
    by (vm_compute; reflexivity).
  split; [exact H1|]. split; [exact H2|].
  exact (every_snapshot_lists_every_student_once
           watts_strogatz_graph_p0 Random_const
           5 2 0 (1 # 4) (1 # 2) (3 # 2) true sample_globals sample_globals_1
           sample_model sample_model_5 5 sample_np sample_np_5 H1 H2).
Defined.

(** ** The callers: run.py and app.py *)

Lemma map_fst_combine_length {A B : Type} (l : list A) : forall (l' : list B),
  length l = length l' -> map fst (combine l l') = l.
Proof.
  induction l as [|x l IH]; intros [|y l'] H; simpl in *; try discriminate;
    [reflexivity|].
  f_equal. apply IH. lia.
Qed.

Lemma py_range_length n : length (py_range n) = Z.to_nat n.
Proof. unfold py_range. now rewrite length_map, length_seq. Qed.

Lemma py_range_to_nat n : py_range (Z.of_nat (Z.to_nat n)) = py_range n.
Proof. unfold py_range. now rewrite Nat2Z.id. Qed.

Lemma py_range_last n :
  (0 < n)%Z -> py_range n = py_range (n - 1) ++ [(n - 1)%Z].
Proof.
  intros Hn. unfold py_range.
  replace (Z.to_nat n) with (S (Z.to_nat (n - 1))) by lia.
  rewrite seq_S, map_app. simpl. do 2 f_equal. lia.
Qed.

Lemma trial_numbers_from n :
  map (fun j => (0 + 1 + Z.of_nat j)%Z) (seq 0 (Z.to_nat n)) = trial_numbers n.
Proof.
  unfold trial_numbers, py_range. rewrite map_map. apply map_ext.
  intros j. lia.
Qed.

Lemma seq_shift_trials (f : Z -> list (string * Z * Z)) i n :
  map (fun j => f (i + 1 + 1 + Z.of_nat j)%Z) (seq 0 n)
  = map (fun j => f (i + 1 + Z.of_nat j)%Z) (seq 1 n).
Proof.
  rewrite <- seq_shift, map_map. apply map_ext. intros j. f_equal. lia.
Qed.

Lemma map_row_labels df trial scenario :
  map row_labels (with_trial_and_scenario df trial scenario)
  = map (fun s => (scenario, trial, s)) (map fst df).
Proof.
  unfold with_trial_and_scenario. now rewrite !map_map.
Qed.

Section CallerFacts.

Variable watts_strogatz_graph :
  Z -> Z -> Q -> RandomState -> Result (Graph * RandomState).
Variable Random : Z -> RandomState.

Let kwargs := SchoolModel_kwargs watts_strogatz_graph Random.

(** A model that was just constructed and then stepped [num_steps] times
    has collected the rows [0 .. num_steps - 1]. *)
Lemma trial_frame_index params num_steps w m w1 m' w2 :
  kwargs params w = Ok (m, w1) ->
  step_times num_steps m w1 = Ok (m', w2) ->
  map fst (get_model_vars_dataframe m') = py_range num_steps.
Proof.
  intros Hinit Hrun. unfold kwargs, SchoolModel_kwargs in Hinit.
  apply SchoolModel_init_inv in Hinit.
  destruct Hinit as (g & py & _ & _ & _ & Hc).
  unfold step_times in Hrun.
  destruct (run_steps (Z.to_nat num_steps) m (np_global w1))
    as [[m1 np1]|e] eqn:E; cbn [bind] in Hrun; [|discriminate].
  inversion Hrun; subst m' w2. clear Hrun.
  apply run_steps_counts in E. destruct E as [_ E].
  rewrite (co_model_vars _ _ _ _ _ _ _ _ Hc) in E. simpl in E.
  unfold get_model_vars_dataframe. rewrite E, py_range_to_nat.
  apply map_fst_combine_length. now rewrite py_range_length.
Qed.

Lemma run_simulation_trials_labels scenario_name params num_steps remaining :
  forall i acc w out w',
    run_simulation_trials watts_strogatz_graph Random scenario_name params
      num_steps i remaining acc w = Ok (out, w') ->
    exists new,
      out = acc ++ new /\
      map (map row_labels) new
      = map (fun j => map (fun s => (scenario_name, (i + 1 + Z.of_nat j)%Z, s))
                        (py_range num_steps))
          (seq 0 remaining).
Proof.
  induction remaining as [|remaining IH]; intros i acc w out w' H.
  - simpl in H. inversion H; subst. exists []. now rewrite app_nil_r.
  - cbn [run_simulation_trials] in H.
    destruct (SchoolModel_kwargs watts_strogatz_graph Random params w)
      as [[m w1]|e] eqn:E1; cbn [bind] in H; [|discriminate].
    destruct (step_times num_steps m w1) as [[m' w2]|e] eqn:E2;
      cbn [bind] in H; [|discriminate].
    apply IH in H. destruct H as (new & -> & Hnew).
    eexists (_ :: new). split.
    + rewrite <- app_assoc. reflexivity.
    + cbn [map seq]. rewrite map_row_labels.
      rewrite (trial_frame_index _ _ _ _ _ _ _ E1 E2).
      f_equal.
      * apply map_ext. intros s.
        replace (i + 1 + Z.of_nat 0)%Z with (i + 1)%Z by (simpl; lia).
        reflexivity.
      * rewrite Hnew.
        exact (seq_shift_trials
                 (fun t => map (fun s => (scenario_name, t, s))
                             (py_range num_steps)) i remaining).
Qed.

Lemma iloc_last_inv {A : Type} (df out : list A) :
  iloc_last df = Ok out -> exists init x, df = init ++ [x] /\ out = [x].
Proof.
  unfold iloc_last. destruct (rev df) as [|x r] eqn:E; [discriminate|].
  intros [= <-]. exists (rev r), x. split; [|reflexivity].
  rewrite <- (rev_involutive df), E. reflexivity.
Qed.

Lemma app_trials_labels name params num_steps remaining :
  forall i acc w out w',
    app_trials watts_strogatz_graph Random name params
      num_steps i remaining acc w = Ok (out, w') ->
    exists new,
      out = acc ++ new /\
      map (map row_labels) new
      = map (fun j => [(name, (i + 1 + Z.of_nat j)%Z, (num_steps - 1)%Z)])
          (seq 0 remaining) /\
      (remaining <> O -> (0 < num_steps)%Z).
Proof.
  induction remaining as [|remaining IH]; intros i acc w out w' H.
  - simpl in H. inversion H; subst. exists []. rewrite app_nil_r.
    repeat split; auto. intros Hne. congruence.
  - cbn [app_trials] in H.
    destruct (SchoolModel_kwargs watts_strogatz_graph Random params w)
      as [[m w1]|e] eqn:E1; cbn [bind] in H; [|discriminate].
    destruct (step_times num_steps m w1) as [[m' w2]|e] eqn:E2;
      cbn [bind] in H; [|discriminate].
    destruct (iloc_last (get_model_vars_dataframe m')) as [last|e] eqn:E3;
      cbn [bind] in H; [|discriminate].
    pose proof (trial_frame_index _ _ _ _ _ _ _ E1 E2) as Hidx.
    apply iloc_last_inv in E3. destruct E3 as (init & x & Hdf & ->).
    rewrite Hdf, map_app in Hidx. simpl in Hidx.
    assert (Hpos : (0 < num_steps)%Z).
    { destruct (Z_lt_le_dec 0 num_steps) as [Hlt|Hle]; [exact Hlt|].
      unfold py_range in Hidx.
      replace (Z.to_nat num_steps) with O in Hidx by lia.
      simpl in Hidx. destruct (map fst init); discriminate. }
    rewrite (py_range_last _ Hpos) in Hidx.
    apply app_inj_tail in Hidx. destruct Hidx as [_ Hx].
    apply IH in H. destruct H as (new & -> & Hnew & _).
    eexists (_ :: new). split; [|split].
    + rewrite <- app_assoc. reflexivity.
    + cbn [map seq]. f_equal.
      * unfold with_trial_and_scenario, row_labels. simpl. rewrite Hx.
        do 3 f_equal. lia.
      * rewrite Hnew.
        exact (seq_shift_trials
                 (fun t => [(name, t, (num_steps - 1)%Z)]) i remaining).
    + intros _. exact Hpos.
Qed.

Lemma pd_concat_inv {A : Type} (frames : list (list A)) df :
  pd_concat frames = Ok df -> frames <> [] /\ df = concat frames.
Proof.
  destruct frames; simpl; [discriminate|]. intros [= <-].
  split; [discriminate|reflexivity].
Qed.

Lemma app_scenarios_loop_labels num_steps num_trials scenarios :
  forall acc w out w',
    app_scenarios_loop watts_strogatz_graph Random scenarios
      num_steps num_trials acc w = Ok (out, w') ->
    exists new,
      out = acc ++ new /\
      map (map row_labels) new
      = map (fun name => map (fun t => (name, t, (num_steps - 1)%Z))
                           (trial_numbers num_trials))
          (map fst scenarios) /\
      (scenarios <> [] -> (0 < num_trials)%Z /\ (0 < num_steps)%Z).
Proof.
  induction scenarios as [|[name params] rest IH]; intros acc w out w' H.
  - simpl in H. inversion H; subst. exists []. rewrite app_nil_r.
    repeat split; auto; congruence.
  - cbn [app_scenarios_loop] in H.
    destruct (app_trials watts_strogatz_graph Random name params num_steps 0
                (Z.to_nat num_trials) [] w) as [[trials w1]|e] eqn:E1;
      cbn [bind] in H; [|discriminate].
    destruct (pd_concat trials) as [df|e] eqn:E2; cbn [bind] in H;
      [|discriminate].
    apply app_trials_labels in E1. destruct E1 as (new1 & -> & Hnew1 & Hsteps).
    simpl in E2. apply pd_concat_inv in E2. destruct E2 as [Hne ->].
    assert (Htrials : Z.to_nat num_trials <> O).
    { intros Hz. rewrite Hz in Hnew1. simpl in Hnew1.
      destruct new1; [congruence|discriminate]. }
    apply IH in H. destruct H as (new & -> & Hnew & _).
    eexists (_ :: new). split; [|split].
    + rewrite <- app_assoc. reflexivity.
    + cbn [map fst]. f_equal; [|exact Hnew].
      rewrite concat_map, Hnew1. rewrite <- trial_numbers_from.
      rewrite map_map. clear. induction (seq 0 (Z.to_nat num_trials));
        simpl; [reflexivity|]. now f_equal.
    + intros _. split; [lia|auto].
Qed.

End CallerFacts.

Lemma run_simulation_labels
  (watts_strogatz_graph : Z -> Z -> Q -> RandomState -> Result (Graph * RandomState))
  (Random : Z -> RandomState)
  (scenario_name : string) (params : Params) (num_trials num_steps : Z)
  (w w' : Globals) (df : list DataRow) :
  run_simulation watts_strogatz_graph Random scenario_name params
    num_trials num_steps w = Ok (df, w') ->
  map row_labels df
  = flat_map (fun t => map (fun s => (scenario_name, t, s)) (py_range num_steps))
      (trial_numbers num_trials)
  /\ (0 < num_trials)%Z.
Proof.
  intros H. unfold run_simulation in H.
  destruct (run_simulation_trials watts_strogatz_graph Random scenario_name
              params num_steps 0 (Z.to_nat num_trials) [] w)
    as [[trials w1]|e] eqn:E; cbn [bind] in H; [|discriminate].
  destruct (pd_concat trials) as [df'|e] eqn:E2; cbn [bind] in H;
    [|discriminate].
  inversion H; subst df' w1. clear H.
  apply run_simulation_trials_labels in E. destruct E as (new & -> & Hnew).
  simpl in E2. apply pd_concat_inv in E2. destruct E2 as [Hne ->].
  split.
  - rewrite concat_map, Hnew, flat_map_concat_map, <- trial_numbers_from.
    now rewrite map_map.
  - destruct (Z.to_nat num_trials) eqn:Ez; [|lia].
    simpl in Hnew. destruct new; [congruence|discriminate].
Qed.

(** X16. Whenever [run_simulation] returns, its table holds exactly one row
    for every trial [1 .. num_trials] and every step [0 .. num_steps - 1],
    trial after trial and step after step, each labelled with the scenario
    name; and it returns only for at least one trial. *)
Theorem run_simulation_one_row_per_trial_and_step
  (watts_strogatz_graph : Z -> Z -> Q -> RandomState -> Result (Graph * RandomState))
  (Random : Z -> RandomState)
  (scenario_name : string) (params : Params) (num_trials num_steps : Z)
  (w w' : Globals) (df : list DataRow) :
  run_simulation watts_strogatz_graph Random scenario_name params
    num_trials num_steps w = Ok (df, w') ->
  map row_labels df
  = flat_map (fun t => map (fun s => (scenario_name, t, s)) (py_range num_steps))
      (trial_numbers num_trials)
  /\ (0 < num_trials)%Z.
Proof.
  exact (run_simulation_labels watts_strogatz_graph Random scenario_name
           params num_trials num_steps w w' df).
Qed.

Lemma run_simulation_one_row_per_trial_and_step_witness :
  run_sample = Ok (run_sample_table, run_sample_globals) /\
  map row_labels run_sample_table
  = flat_map (fun t => map (fun s => ("1_Baseline"%string, t, s)) (py_range 3))
      (trial_numbers 2)
  /\ (0 < 2)%Z.
Proof.
  assert (H : run_sample = Ok (run_sample_table, run_sample_globals))
    by (vm_compute; reflexivity).
  split; [exact H|].
  exact (run_simulation_one_row_per_trial_and_step
           watts_strogatz_graph_p0 Random_const "1_Baseline"
           (with_param_aid run_BASE_PARAMS false) 2 3
           sample_globals run_sample_globals run_sample_table H).
Defined.

(** X17. Asked for no trial at all, neither caller returns a table: the
    list of frames stays empty and [pd.concat] raises ValueError, in
    [run_simulation] and in [run_and_analyze_abm] alike, before any model is
    built. *)
Theorem no_trials_raises_ValueError
  (watts_strogatz_graph : Z -> Z -> Q -> RandomState -> Result (Graph * RandomState))
  (Random : Z -> RandomState)
  (scenario_name : string) (params : Params) (num_trials num_steps : Z)
  (base_dropout_rate peer_influence_weight : Q) (financial_aid_enabled : bool)
  (w : Globals) :
  (num_trials <= 0)%Z ->
  run_simulation watts_strogatz_graph Random scenario_name params
    num_trials num_steps w = Raise ValueError
  /\ run_and_analyze_abm_final_df watts_strogatz_graph Random
       num_steps num_trials base_dropout_rate peer_influence_weight
       financial_aid_enabled w = Raise ValueError.
Proof.
  intros H. unfold run_simulation, run_and_analyze_abm_final_df, app_scenarios.
  cbn [app_scenarios_loop].
  replace (Z.to_nat num_trials) with O by lia.
  split; reflexivity.
Qed.

Lemma no_trials_raises_ValueError_witness :
  run_simulation watts_strogatz_graph_p0 Random_const "1_Baseline"
    (with_param_aid run_BASE_PARAMS false) 0 3 sample_globals
  = Raise ValueError
  /\ run_and_analyze_abm_final_df watts_strogatz_graph_p0 Random_const
       3 0 (1 # 100) 1 true sample_globals = Raise ValueError.
Proof.
  assert (H : (0 <= 0)%Z) by lia.
  exact (no_trials_raises_ValueError watts_strogatz_graph_p0 Random_const
           "1_Baseline" (with_param_aid run_BASE_PARAMS false) 0 3
           (1 # 100) 1 true sample_globals H).
Defined.

Lemma graph_closed_nodes g N :
  graph_closed g N = true -> G_nodes g = py_range N.
Proof.
  unfold graph_closed. rewrite !andb_true_iff. intros [[H _] _].
  destruct (list_eq_dec Z.eq_dec (G_nodes g) (py_range N)); [assumption|].
  discriminate.
Qed.

Lemma run_simulation_trials_total
  (watts_strogatz_graph : Z -> Z -> Q -> RandomState -> Result (Graph * RandomState))
  (Random : Z -> RandomState)
  (scenario_name : string) (params : Params) (num_steps : Z) :
  (forall py, exists g py',
      watts_strogatz_graph (param_N params) (param_k_degree params)
        (param_rewiring_prob params) py = Ok (g, py')
      /\ graph_closed g (param_N params) = true) ->
  (0 < param_N params)%Z ->
  (param_N params mod 5 = 0)%Z ->
  0 <= param_performance_volatility params ->
  forall remaining i acc w,
  exists out w',
    run_simulation_trials watts_strogatz_graph Random scenario_name params
      num_steps i remaining acc w = Ok (out, w').
Proof.
  intros Hgen HN Hmod Hvol.
  induction remaining as [|remaining IH]; intros i acc w; simpl; [eauto|].
  destruct (Hgen (py_global w)) as (g & py' & Hg & Hclosed).
  destruct (SchoolModel_init_Ok watts_strogatz_graph Random
              (param_N params) (param_k_degree params)
              (param_rewiring_prob params) (param_base_dropout_rate params)
              (param_peer_influence_weight params)
              (param_performance_volatility params)
              (param_financial_aid_policy params) w g py' Hg)
    as (m & np & Hinit & Hc).
  { rewrite (graph_closed_nodes _ _ Hclosed), py_range_length.
    rewrite ses_distribution_complete by lia. lia. }
  pose proof (SchoolModel_init_well_formed _ _ _ _ _ _ _ _ _ _ _ _ _ _
                Hg Hclosed Hvol Hinit) as Hwf.
  unfold SchoolModel_kwargs. rewrite Hinit. cbn [bind].
  destruct (run_steps_total (Z.to_nat num_steps) m np Hwf)
    as (m' & np' & Hrun & _).
  { rewrite (co_n_agents _ _ _ _ _ _ _ _ Hc). lia. }
  unfold step_times. cbn [np_global py_global]. rewrite Hrun. cbn [bind].
  apply IH.
Qed.

Lemma run_simulation_total
  (watts_strogatz_graph : Z -> Z -> Q -> RandomState -> Result (Graph * RandomState))
  (Random : Z -> RandomState)
  (scenario_name : string) (params : Params) (num_trials num_steps : Z)
  (w : Globals) :
  (forall py, exists g py',
      watts_strogatz_graph (param_N params) (param_k_degree params)
        (param_rewiring_prob params) py = Ok (g, py')
      /\ graph_closed g (param_N params) = true) ->
  (0 < param_N params)%Z ->
  (param_N params mod 5 = 0)%Z ->
  0 <= param_performance_volatility params ->
  (0 < num_trials)%Z ->
  exists df w',
    run_simulation watts_strogatz_graph Random scenario_name params
      num_trials num_steps w = Ok (df, w')
    /\ length df = (Z.to_nat num_trials * Z.to_nat num_steps)%nat.
Proof.
  intros Hgen HN Hmod Hvol Htrials.
  destruct (run_simulation_trials_total watts_strogatz_graph Random
              scenario_name params num_steps Hgen HN Hmod Hvol
              (Z.to_nat num_trials) 0%Z [] w) as (out & w' & Hout).
  pose proof Hout as Hlab. apply run_simulation_trials_labels in Hlab.
  destruct Hlab as (new & -> & Hnew). simpl in Hout.
  assert (Hlen : length new = Z.to_nat num_trials).
  { apply (f_equal (@length _)) in Hnew.
    now rewrite !length_map, length_seq in Hnew. }
  unfold run_simulation. rewrite Hout. cbn [bind].
  exists (concat new), w'. split.
  { destruct new; [simpl in Hlen; lia|reflexivity]. }
  rewrite <- (length_map row_labels), concat_map, Hnew.
  clear. generalize (Z.to_nat num_trials) as n. intros n.
  generalize 0%nat as k. induction n as [|n IH]; intros k; simpl;
    [reflexivity|].
  rewrite length_app, IH, length_map, py_range_length. reflexivity.
Qed.

(** X18. [run_simulation] returns a table whenever it is asked for at least
    one trial of a class whose size is a positive multiple of 5, with a
    volatility that is not negative, and the graph library hands back a
    graph on the nodes [0 .. N-1] whose edges stay among them: no trial and
    no step of it can raise. The table has [num_trials * num_steps] rows. *)
Theorem run_simulation_returns
  (watts_strogatz_graph : Z -> Z -> Q -> RandomState -> Result (Graph * RandomState))
  (Random : Z -> RandomState)
  (scenario_name : string) (params : Params) (num_trials num_steps : Z)
  (w : Globals) :
  (forall py, exists g py',
      watts_strogatz_graph (param_N params) (param_k_degree params)
        (param_rewiring_prob params) py = Ok (g, py')
      /\ graph_closed g (param_N params) = true) ->
  (0 < param_N params)%Z ->
  (param_N params mod 5 = 0)%Z ->
  0 <= param_performance_volatility params ->
  (0 < num_trials)%Z ->
  exists df w',
    run_simulation watts_strogatz_graph Random scenario_name params
      num_trials num_steps w = Ok (df, w')
    /\ length df = (Z.to_nat num_trials * Z.to_nat num_steps)%nat.
Proof.
  exact (run_simulation_total watts_strogatz_graph Random scenario_name
           params num_trials num_steps w).
Qed.

Lemma run_simulation_returns_witness :
  exists df w',
    run_simulation watts_strogatz_graph_p0 Random_const "1_Baseline"
      (with_param_aid run_BASE_PARAMS false) 2 3 sample_globals = Ok (df, w')
    /\ length df = (Z.to_nat 2 * Z.to_nat 3)%nat.
Proof.
  assert (Hgen : forall py, exists g py',
            watts_strogatz_graph_p0
              (param_N (with_param_aid run_BASE_PARAMS false))
              (param_k_degree (with_param_aid run_BASE_PARAMS false))
              (param_rewiring_prob (with_param_aid run_BASE_PARAMS false)) py
            = Ok (g, py')
            /\ graph_closed g (param_N (with_param_aid run_BASE_PARAMS false))
               = true).
  { intros py. eexists. eexists. split.
    - unfold watts_strogatz_graph_p0. simpl. reflexivity.
    - vm_compute. reflexivity. }
  assert (HN : (0 < param_N (with_param_aid run_BASE_PARAMS false))%Z)
    by reflexivity.
  assert (Hmod : (param_N (with_param_aid run_BASE_PARAMS false) mod 5 = 0)%Z)
    by reflexivity.
  assert (Hvol : 0 <= param_performance_volatility
                        (with_param_aid run_BASE_PARAMS false))
    by discriminate.
  assert (Htrials : (0 < 2)%Z) by lia.
  exact (run_simulation_returns watts_strogatz_graph_p0 Random_const
           "1_Baseline" (with_param_aid run_BASE_PARAMS false) 2 3
           sample_globals Hgen HN Hmod Hvol Htrials).
Defined.

(** X19. Whenever [run_and_analyze_abm] gets as far as [final_df], the table
    holds exactly one row for each of the three scenarios and each trial
    [1 .. num_trials], in this order, and the row is the one of the last
    step, [num_steps - 1]; it gets there only for at least one trial and at
    least one step. *)
Theorem final_df_one_row_per_scenario_and_trial
  (watts_strogatz_graph : Z -> Z -> Q -> RandomState -> Result (Graph * RandomState))
  (Random : Z -> RandomState)
  (num_steps num_trials : Z) (base_dropout_rate peer_influence_weight : Q)
  (financial_aid_enabled : bool) (w w' : Globals) (final_df : list DataRow) :
  run_and_analyze_abm_final_df watts_strogatz_graph Random
    num_steps num_trials base_dropout_rate peer_influence_weight
    financial_aid_enabled w = Ok (final_df, w') ->
  map row_labels final_df
  = flat_map (fun name => map (fun t => (name, t, (num_steps - 1)%Z))
                            (trial_numbers num_trials))
      ["1_Baseline"; "2_Intervention_FinancialAid";
       "3_Contagion_Check_HighPI"]%string
  /\ (0 < num_trials)%Z /\ (0 < num_steps)%Z.
Proof.
  intros H. unfold run_and_analyze_abm_final_df in H.
  destruct (app_scenarios_loop watts_strogatz_graph Random
              (app_scenarios base_dropout_rate peer_influence_weight
                 financial_aid_enabled) num_steps num_trials [] w)
    as [[results w1]|e] eqn:E; cbn [bind] in H; [|discriminate].
  destruct (pd_concat results) as [df|e] eqn:E2; cbn [bind] in H;
    [|discriminate].
  inversion H; subst df w1. clear H.
  apply app_scenarios_loop_labels in E.
  destruct E as (new & -> & Hnew & Hpos).
  simpl in E2. apply pd_concat_inv in E2. destruct E2 as [_ ->].
  split.
  - rewrite concat_map, Hnew, flat_map_concat_map. reflexivity.
  - apply Hpos. discriminate.
Qed.

Lemma final_df_one_row_per_scenario_and_trial_witness :
  app_sample = Ok (app_sample_table, app_sample_globals) /\
  map row_labels app_sample_table
  = flat_map (fun name => map (fun t => (name, t, (2 - 1)%Z))
                            (trial_numbers 2))
      ["1_Baseline"; "2_Intervention_FinancialAid";
       "3_Contagion_Check_HighPI"]%string
  /\ (0 < 2)%Z /\ (0 < 2)%Z.
Proof.
  assert (H : app_sample = Ok (app_sample_table, app_sample_globals))
    by (vm_compute; reflexivity).
  split; [exact H|].
  exact (final_df_one_row_per_scenario_and_trial
           watts_strogatz_graph_p0 Random_const 2 2 (1 # 100) 1 true
           sample_globals app_sample_globals app_sample_table H).
Defined.

(** X20. Asked for at least one trial but no step, [run_and_analyze_abm]
    raises IndexError as soon as the first model is built: nothing was
    collected, so the frame has no last row to take. *)
Theorem no_steps_raises_IndexError
  (watts_strogatz_graph : Z -> Z -> Q -> RandomState -> Result (Graph * RandomState))
  (Random : Z -> RandomState)
  (num_steps num_trials : Z) (base_dropout_rate peer_influence_weight : Q)
  (financial_aid_enabled : bool) (w w1 : Globals) (model : SchoolModel) :
  (num_steps <= 0)%Z ->
  (0 < num_trials)%Z ->
  SchoolModel_kwargs watts_strogatz_graph Random
    (with_param_aid (app_BASE_PARAMS base_dropout_rate peer_influence_weight)
       false) w = Ok (model, w1) ->
  run_and_analyze_abm_final_df watts_strogatz_graph Random
    num_steps num_trials base_dropout_rate peer_influence_weight
    financial_aid_enabled w = Raise IndexError.
Proof.
  intros Hsteps Htrials Hinit.
  unfold run_and_analyze_abm_final_df, app_scenarios.
  cbn [app_scenarios_loop].
  destruct (Z.to_nat num_trials) as [|n] eqn:En; [lia|].
  cbn [app_trials]. rewrite Hinit. cbn [bind].
  unfold step_times. replace (Z.to_nat num_steps) with O by lia.
  cbn [run_steps bind].
  unfold SchoolModel_kwargs in Hinit. apply SchoolModel_init_inv in Hinit.
  destruct Hinit as (g & py & _ & _ & _ & Hc).
  unfold get_model_vars_dataframe.
  rewrite (co_model_vars _ _ _ _ _ _ _ _ Hc). reflexivity.
Qed.

Lemma no_steps_raises_IndexError_witness :
  app_sample_baseline = Ok (app_baseline_model, app_baseline_globals) /\
  run_and_analyze_abm_final_df watts_strogatz_graph_p0 Random_const
    0 2 (1 # 100) 1 true sample_globals = Raise IndexError.
Proof.
  assert (H1 : (0 <= 0)%Z) by lia.
  assert (H2 : (0 < 2)%Z) by lia.
  assert (H3 : app_sample_baseline
               = Ok (app_baseline_model, app_baseline_globals))
    by (vm_compute; reflexivity).
  split; [exact H3|].
  exact (no_steps_raises_IndexError watts_strogatz_graph_p0 Random_const
           0 2 (1 # 100) 1 true sample_globals app_baseline_globals
           app_baseline_model H1 H2 H3).
Defined.

(** X11. In the third scenario of app.py the peer weight is one and a half
    times the slider's value. With the slider at 2/3 or above the weight
    reaches 1, the factor on the performance risk is zero or negative, and
    in every model of that scenario, however many steps it has run, a
    better performance never lowers the dropout probability of a student,
    everything else equal. *)
Theorem high_contagion_scenario_inverts_performance
  (watts_strogatz_graph : Z -> Z -> Q -> RandomState -> Result (Graph * RandomState))
  (Random : Z -> RandomState)
  (base_dropout_rate slider_weight : Q) (financial_aid_enabled : bool)
  (name : string) (params : Params) (w w1 : Globals) (m m' : SchoolModel)
  (n : nat) (np' : RandomState)
  (a : StudentAgent) (perf1 perf2 p1 p2 : Q) :
  nth_error (app_scenarios base_dropout_rate slider_weight
               financial_aid_enabled) 2 = Some (name, params) ->
  2 # 3 <= slider_weight ->
  SchoolModel_kwargs watts_strogatz_graph Random params w = Ok (m, w1) ->
  run_steps n m (np_global w1) = Ok (m', np') ->
  perf1 <= perf2 ->
  p_drop m' (set_performance a perf1) = Ok p1 ->
  p_drop m' (set_performance a perf2) = Ok p2 ->
  p1 <= p2.
Proof.
  intros Hsc Hw Hinit Hrun Hperf H1 H2.
  simpl in Hsc. inversion Hsc; subst name params. clear Hsc.
  unfold SchoolModel_kwargs in Hinit. apply SchoolModel_init_inv in Hinit.
  destruct Hinit as (g & py & _ & _ & _ & Hc).
  pose proof (co_weight _ _ _ _ _ _ _ _ Hc) as Hwm. simpl in Hwm.
  apply run_steps_evolves in Hrun.
  pose proof (ev_weight _ _ Hrun) as Hw'.
  assert (Hge : 1 <= peer_influence_weight m').
  { rewrite Hw', Hwm. lra. }
  apply p_drop_set_performance in H1. destruct H1 as (s1 & Hs1 & ->).
  apply p_drop_set_performance in H2. destruct H2 as (s2 & Hs2 & ->).
  rewrite Hs1 in Hs2. inversion Hs2; subst s2.
  apply apply_intervention_mono. unfold p_drop_combined.
  pose proof (performance_risk_antitone _ _ Hperf) as Hr.
  assert (0 <= (performance_risk perf1 - performance_risk perf2)
               * (peer_influence_weight m' - 1))
    by (apply Qmult_le_0_compat; lra).
  lra.
Qed.

Lemma high_contagion_scenario_inverts_performance_witness :
  app_sample_contagion = Ok (app_contagion_model, app_contagion_globals) /\
  run_steps 1 app_contagion_model (np_global app_contagion_globals)
  = Ok (app_contagion_model_1, app_contagion_np_1) /\
  p_drop app_contagion_model_1 (set_performance sample_low 30)
  = Ok (3024000 # 2400000) /\
  p_drop app_contagion_model_1 (set_performance sample_low 100)
  = Ok (3624000 # 2400000) /\
  3024000 # 2400000 <= 3624000 # 2400000.
Proof.
  assert (H1 : nth_error (app_scenarios (1 # 100) 1 true) 2
               = Some ("3_Contagion_Check_HighPI"%string,
                       with_param_weight (app_BASE_PARAMS (1 # 100) 1)
                         (1 * 1.5)))
    by reflexivity.
  assert (H2 : 2 # 3 <= 1) by discriminate.
  assert (H3 : app_sample_contagion
               = Ok (app_contagion_model, app_contagion_globals))
    by (vm_compute; reflexivity).
  assert (H4 : run_steps 1 app_contagion_model
                 (np_global app_contagion_globals)
               = Ok (app_contagion_model_1, app_contagion_np_1))
    by (vm_compute; reflexivity).
  assert (H5 : 30 <= 100) by discriminate.
  assert (H6 : p_drop app_contagion_model_1 (set_performance sample_low 30)
               = Ok (3024000 # 2400000)) by (vm_compute; reflexivity).
  assert (H7 : p_drop app_contagion_model_1 (set_performance sample_low 100)
               = Ok (3624000 # 2400000)) by (vm_compute; reflexivity).
  repeat (split; [assumption|]).
  exact (high_contagion_scenario_inverts_performance
           watts_strogatz_graph_p0 Random_const (1 # 100) 1 true
           "3_Contagion_Check_HighPI"
           (with_param_weight (app_BASE_PARAMS (1 # 100) 1) (1 * 1.5))
           sample_globals app_contagion_globals
           app_contagion_model app_contagion_model_1 1 app_contagion_np_1
           sample_low 30 100 (3024000 # 2400000) (3624000 # 2400000)
           H1 H2 H3 H4 H5 H6 H7).
Defined.

(** X21. The main block of run.py cannot fail before it writes its table,
    provided the graph library hands back, for 200 nodes of degree 4
    rewired with probability 0.2, a graph on the nodes [0 .. 199] whose
    edges stay among them. The table it builds has 1800 rows: for each of
    the three scenarios in turn, 30 trials of 20 steps each. *)
Theorem main_block_builds_1800_rows
  (watts_strogatz_graph : Z -> Z -> Q -> RandomState -> Result (Graph * RandomState))
  (Random : Z -> RandomState) (w : Globals) :
  (forall py, exists g py',
      watts_strogatz_graph 200%Z 4%Z 0.2 py = Ok (g, py')
      /\ graph_closed g 200 = true) ->
  exists final_df w',
    run_main_final_df watts_strogatz_graph Random w = Ok (final_df, w')
    /\ map row_labels final_df
       = flat_map (fun name =>
                     flat_map (fun t => map (fun s => (name, t, s))
                                          (py_range NUM_STEPS))
                       (trial_numbers NUM_TRIALS))
           ["1_Baseline"; "2_Intervention_FinancialAid";
            "3_Contagion_Check_HighPI"]%string
    /\ length final_df = 1800%nat.
Proof.
  intros Hgen.
  assert (HN : (0 < 200)%Z) by lia.
  assert (Hmod : (200 mod 5 = 0)%Z) by reflexivity.
  assert (Hvol : 0 <= 1.5) by discriminate.
  assert (Htr : (0 < NUM_TRIALS)%Z) by reflexivity.
  unfold run_main_final_df, run_scenarios. cbn [run_main_loop].
  destruct (run_simulation_total watts_strogatz_graph Random "1_Baseline"
              (with_param_aid run_BASE_PARAMS false) NUM_TRIALS NUM_STEPS w
              Hgen HN Hmod Hvol Htr) as (df1 & w1 & H1 & _).
  rewrite H1. cbn [bind].
  destruct (run_simulation_total watts_strogatz_graph Random
              "2_Intervention_FinancialAid"
              (with_param_aid run_BASE_PARAMS true) NUM_TRIALS NUM_STEPS w1
              Hgen HN Hmod Hvol Htr) as (df2 & w2 & H2 & _).
  rewrite H2. cbn [bind].
  destruct (run_simulation_total watts_strogatz_graph Random
              "3_Contagion_Check_HighPI"
              (with_param_weight (with_param_aid run_BASE_PARAMS false) 0.8)
              NUM_TRIALS NUM_STEPS w2
              Hgen HN Hmod Hvol Htr) as (df3 & w3 & H3 & _).
  rewrite H3. cbn [bind app pd_concat].
  apply run_simulation_labels in H1, H2, H3.
  destruct H1 as [L1 _], H2 as [L2 _], H3 as [L3 _].
  assert (Hlab : map row_labels (concat [df1; df2; df3])
                 = flat_map (fun name =>
                     flat_map (fun t => map (fun s => (name, t, s))
                                          (py_range NUM_STEPS))
                       (trial_numbers NUM_TRIALS))
           ["1_Baseline"; "2_Intervention_FinancialAid";
            "3_Contagion_Check_HighPI"]%string).
  { cbn [concat flat_map]. rewrite !map_app, L1, L2, L3. reflexivity. }
  exists (concat [df1; df2; df3]), w3. split; [reflexivity|].
  split; [exact Hlab|].
  rewrite <- (length_map row_labels), Hlab. vm_compute. reflexivity.
Qed.

Lemma main_block_builds_1800_rows_witness :
  exists final_df w',
    run_main_final_df watts_strogatz_graph_p0 Random_const sample_globals
    = Ok (final_df, w')
    /\ map row_labels final_df
       = flat_map (fun name =>
                     flat_map (fun t => map (fun s => (name, t, s))
                                          (py_range NUM_STEPS))
                       (trial_numbers NUM_TRIALS))
           ["1_Baseline"; "2_Intervention_FinancialAid";
            "3_Contagion_Check_HighPI"]%string
    /\ length final_df = 1800%nat.
Proof.
  assert (Hgen : forall py, exists g py',
            watts_strogatz_graph_p0 200%Z 4%Z 0.2 py = Ok (g, py')
            /\ graph_closed g 200 = true).
  { intros py. eexists. eexists. split.
    - unfold watts_strogatz_graph_p0. simpl. reflexivity.
    - vm_compute. reflexivity. }
  exact (main_block_builds_1800_rows watts_strogatz_graph_p0 Random_const
           sample_globals Hgen).
Defined.
